(** * nxapi: the SplatNet 3 presence monitor

    A shallow embedding of [src/discord/titles/nintendo/splatoon3.ts]:
    the methods [onUpdateConfig], [friend_nsaid], [init], [update],
    [getSchedule] and [handleError] of class [SplatNet3Monitor], the
    configuration factories and the activity builder [callback];
    followed by the properties of the schedule selection, the update
    cycle, the error handling, the live reconfiguration, the start-up and
    the activity enrichment. The tenant cache of the
    distribution layer, which the sources do not contain, is modelled
    from the specification in module [TenantCache].

    Conventions of the embedding:
    - [T | null] and [T | undefined] are [option T];
    - a JavaScript string is a Rocq [string] holding its UTF-8 bytes;
    - a millisecond timestamp is a [Z]; [Date.prototype.getTime] of an
      invalid date is [NaN], written [None];
    - an [async] method is a state transformer over the monitor and the
      outside world (clock, SplatNet 3 replies, log of issued calls); it
      either returns or throws; time passes while a request is awaited
      and between any two readings of the clock, so every call of
      [Date.now()] gets a reading of its own;
    - types declared outside this file of the sources
      ([api/splatnet3-types], [discord/types], [util/loop],
      [discord-rpc]) carry the members the monitor reads or names. *)

From Stdlib Require Import ZArith Lia Ascii String List Bool Permutation.
From stdpp Require Import base option list strings gmap.

Local Open Scope string_scope.
Local Open Scope Z_scope.

(** ** JavaScript built-ins used by the monitor *)

Module JS.

(** A number that may be [NaN] (the result of [getTime()]). *)
Definition number := option Z.

(** [a >= b]: false whenever [a] is [NaN]. *)
Definition ge (a : number) (b : Z) : bool :=
  match a with
  | Some x => b <=? x
  | None => false
  end.

(** [a < b]: false whenever [a] is [NaN]. *)
Definition lt (a : number) (b : Z) : bool :=
  match a with
  | Some x => x <? b
  | None => false
  end.

(** ['...' + v] for a [string | null] operand: [null] prints as "null". *)
Definition to_string (v : option string) : string :=
  match v with
  | Some s => s
  | None => "null"
  end.

(** [a ?? b]. *)
Definition nullish {A} (a : option A) (b : A) : A :=
  match a with
  | Some x => x
  | None => b
  end.

(** [Array.prototype.join]. *)
Fixpoint join (sep : string) (l : list string) : string :=
  match l with
  | [] => EmptyString
  | [x] => x
  | x :: rest => x +:+ sep +:+ join sep rest
  end.

Definition base64_alphabet : string :=
  "ABCDEFGHIJKLMNOPQRSTUVWXYZabcdefghijklmnopqrstuvwxyz0123456789+/".

Definition base64_digit (n : N) : ascii :=
  match String.get (N.to_nat n) base64_alphabet with
  | Some c => c
  | None => "="%char
  end.

(** [Buffer.from(bytes).toString('base64')] on the byte list. *)
Fixpoint base64_bytes (l : list N) : string :=
  match l with
  | [] => EmptyString
  | [a] =>
      String (base64_digit (a / 4))
        (String (base64_digit ((a mod 4) * 16)) "==")
  | [a; b] =>
      String (base64_digit (a / 4))
        (String (base64_digit ((a mod 4) * 16 + b / 16))
           (String (base64_digit ((b mod 16) * 4)) "="))
  | a :: b :: c :: rest =>
      String (base64_digit (a / 4))
        (String (base64_digit ((a mod 4) * 16 + b / 16))
           (String (base64_digit ((b mod 16) * 4 + c / 64))
              (String (base64_digit (c mod 64)) (base64_bytes rest))))
  end%N.

Definition base64 (s : string) : string :=
  base64_bytes (map N_of_ascii (list_ascii_of_string s)).

Definition hex_digit (n : N) : ascii :=
  match String.get (N.to_nat n) "0123456789ABCDEF" with
  | Some c => c
  | None => "0"%char
  end.

(** Bytes the application/x-www-form-urlencoded serializer leaves alone:
    ASCII alphanumerics and [*-._]. *)
Definition form_safe (c : ascii) : bool :=
  let n := N_of_ascii c in
  ((48 <=? n) && (n <=? 57) || (65 <=? n) && (n <=? 90) ||
   (97 <=? n) && (n <=? 122) ||
   (n =? 42) || (n =? 45) || (n =? 46) || (n =? 95))%N.

(** One component of [URLSearchParams.prototype.toString]. *)
Fixpoint form_encode (s : string) : string :=
  match s with
  | EmptyString => EmptyString
  | String c rest =>
      if form_safe c then String c (form_encode rest)
      else if (N_of_ascii c =? 32)%N then String "+"%char (form_encode rest)
      else
        String "%"%char
          (String (hex_digit (N_of_ascii c / 16))
             (String (hex_digit (N_of_ascii c mod 16)) (form_encode rest)))
  end.

(** [new URLSearchParams({k1: v1, ...}).toString()]. *)
Definition URLSearchParams (params : list (string * string)) : string :=
  join "&" (map (fun kv => form_encode (fst kv) +:+ "=" +:+ form_encode (snd kv)) params).

(** Does the string hold a character that [.] (without the [s] flag)
    refuses: LF, CR, or U+2028 / U+2029 (UTF-8 bytes 226 128 168/169)? *)
Fixpoint has_line_terminator (s : string) : bool :=
  match s with
  | EmptyString => false
  | String c rest =>
      let n := N_of_ascii c in
      ((n =? 10) || (n =? 13))%N ||
      match rest with
      | String c1 (String c2 _) =>
          ((n =? 226) && (N_of_ascii c1 =? 128) &&
           ((N_of_ascii c2 =? 168) || (N_of_ascii c2 =? 169)))%N
      | _ => false
      end ||
      has_line_terminator rest
  end.

Fixpoint strip_prefix (p s : string) : option string :=
  match p, s with
  | EmptyString, _ => Some s
  | String a p', String b s' => if Ascii.eqb a b then strip_prefix p' s' else None
  | String _ _, EmptyString => None
  end.

(** [s.match(/^<prefix>(.+)$/)]: the first capture group, if any. *)
Definition match_prefix_rest (prefix s : string) : option string :=
  match strip_prefix prefix s with
  | Some rest =>
      if negb (String.eqb rest EmptyString) && negb (has_line_terminator rest) then Some rest
      else None
  | None => None
  end.

End JS.

(** The parts of the runtime the monitor only calls into. *)
Class Platform := {
  (** [new Date(s).getTime()]: a millisecond timestamp, or [NaN]. *)
  Date_getTime : string -> JS.number;
  (** [new URL(s).pathname]; [None] when the constructor throws. *)
  URL_pathname : string -> option string;
  (** [product] of [util/product.js]. *)
  product : string
}.

(** ** Schedule entries and [getSchedule] *)

(** [T extends {startTime: string; endTime: string;}]. *)
Class Timed (T : Type) := {
  startTime : T -> string;
  endTime : T -> string
}.

Section GetSchedule.
Context {platform : Platform} {T : Type} {timed : Timed T}.

(** [SplatNet3Monitor.getSchedule], with the value read from
    [Date.now()] passed in as [now]. *)
Fixpoint getSchedule (now : Z) (schedules : list T) : option T :=
  match schedules with
  | [] => None
  | schedule :: rest =>
      let start := Date_getTime (startTime schedule) in
      let end_ := Date_getTime (endTime schedule) in
      if JS.ge start now then getSchedule now rest
      else if JS.lt end_ now then getSchedule now rest
      else Some schedule
  end.

(** The test an entry passes when the loop returns it: neither guard
    sends it to [continue]. *)
Definition selectable (now : Z) (schedule : T) : bool :=
  negb (JS.ge (Date_getTime (startTime schedule)) now) &&
  negb (JS.lt (Date_getTime (endTime schedule)) now).

(** The selection as the specification words it: the first entry whose
    half-open interval [[start, end)] contains [now]. *)
Definition contains_now (now : Z) (schedule : T) : bool :=
  match Date_getTime (startTime schedule), Date_getTime (endTime schedule) with
  | Some s, Some e => (s <=? now) && (now <? e)
  | _, _ => false
  end.

Definition first_containing (now : Z) (schedules : list T) : option T :=
  List.find (contains_now now) schedules.

(** What the two guards of the loop let through: a start time strictly
    before [now] and an end time not before [now]; a time that does not
    parse excludes nothing. *)
Definition active (now : Z) (schedule : T) : Prop :=
  (forall s, Date_getTime (startTime schedule) = Some s -> s < now) /\
  (forall e, Date_getTime (endTime schedule) = Some e -> now <= e).

(** [schedule] is the one entry of [schedules] that is active at [now]. *)
Definition only_active (now : Z) (schedules : list T) (schedule : T) : Prop :=
  In schedule schedules /\ active now schedule /\
  forall other, In other schedules -> active now other -> other = schedule.

End GetSchedule.

(** ** Data model *)

(** [FriendOnlineState] of [api/splatnet3-types]: the four states the
    builder names, and the states of a friend who is not in a match. *)
Inductive FriendOnlineState :=
| OFFLINE
| ONLINE
| VS_MODE_MATCHING
| COOP_MODE_MATCHING
| VS_MODE_FIGHTING
| COOP_MODE_FIGHTING.

(** [friend.vsMode]: [{id, mode, name}]. *)
Record VsMode := {
  vsMode_id : string;
  vsMode_mode : string;
  vsMode_name : string
}.

(** A node of [FriendListResult['friends']['nodes']]. *)
Record Friend := {
  friend_id : string;
  onlineState : FriendOnlineState;
  vsMode : option VsMode
}.

(** [GraphQLResponse<FriendListResult>]: [data.friends.nodes]. *)
Record FriendListResult := {
  friends_nodes : list Friend
}.

Record VsStage := {
  vsStage_id : string;
  vsStage_name : string
}.

Record VsRule := {
  vsRule_name : string
}.

(** What the builder reads of any match setting: [vsStages], [vsRule]. *)
Record MatchSetting := {
  vsStages : list VsStage;
  vsRule : VsRule
}.

Inductive BankaraMatchMode :=
| CHALLENGE
| OPEN.

(** An element of [bankaraMatchSettings]: a match setting with its [mode]. *)
Record BankaraMatchSetting := {
  bankara_mode : BankaraMatchMode;
  bankara_vsStages : list VsStage;
  bankara_vsRule : VsRule
}.

Definition bankara_setting (s : BankaraMatchSetting) : MatchSetting :=
  {| vsStages := bankara_vsStages s; vsRule := bankara_vsRule s |}.

Record RegularSchedule := {
  regular_startTime : string;
  regular_endTime : string;
  regularMatchSetting : option MatchSetting
}.

Record BankaraSchedule := {
  bankara_startTime : string;
  bankara_endTime : string;
  bankaraMatchSettings : list BankaraMatchSetting
}.

Record FestSchedule := {
  fest_startTime : string;
  fest_endTime : string;
  festMatchSetting : option MatchSetting
}.

Record LeagueSchedule := {
  league_startTime : string;
  league_endTime : string;
  leagueMatchSetting : option MatchSetting
}.

Record XSchedule := {
  x_startTime : string;
  x_endTime : string;
  xMatchSetting : option MatchSetting
}.

(** [setting.coopStage]: [{name, image: {url}}]. *)
Record CoopStage := {
  coopStage_name : string;
  coopStage_image_url : string
}.

Record CoopSchedule := {
  coop_startTime : string;
  coop_endTime : string;
  coop_setting_coopStage : CoopStage
}.

#[export] Instance RegularSchedule_Timed : Timed RegularSchedule :=
  {| startTime := regular_startTime; endTime := regular_endTime |}.
#[export] Instance BankaraSchedule_Timed : Timed BankaraSchedule :=
  {| startTime := bankara_startTime; endTime := bankara_endTime |}.
#[export] Instance FestSchedule_Timed : Timed FestSchedule :=
  {| startTime := fest_startTime; endTime := fest_endTime |}.
#[export] Instance LeagueSchedule_Timed : Timed LeagueSchedule :=
  {| startTime := league_startTime; endTime := league_endTime |}.
#[export] Instance XSchedule_Timed : Timed XSchedule :=
  {| startTime := x_startTime; endTime := x_endTime |}.
#[export] Instance CoopSchedule_Timed : Timed CoopSchedule :=
  {| startTime := coop_startTime; endTime := coop_endTime |}.

(** [GraphQLResponse<StageScheduleResult>]: each field is the [nodes]
    array under [data.<kind>Schedules] (for co-op,
    [data.coopGroupingSchedule.regularSchedules]). *)
Record StageScheduleResult := {
  regularSchedules : list RegularSchedule;
  bankaraSchedules : list BankaraSchedule;
  festSchedules : list FestSchedule;
  leagueSchedules : list LeagueSchedule;
  xSchedules : list XSchedule;
  coopGroupingSchedule : list CoopSchedule
}.

(** A thrown JavaScript value. *)
Record Error := {
  error_name : string;
  error_message : string
}.

Definition TypeError (message : string) : Error :=
  {| error_name := "TypeError"; error_message := message |}.

(** [ErrorResult] of [discord/types]: the verdicts the monitor tells
    apart are [RETRY] and [STOP]; every other verdict takes the
    fall-through path. *)
Inductive ErrorResult :=
| STOP
| RETRY
| IGNORE.

(** [LoopResult] of [util/loop]. *)
Inductive LoopResult :=
| OK
| OK_SKIP_INTERVAL.

(** [SplatNet3MonitorConfig]; [storage] is an object compared by
    identity, so it is modelled by its reference. *)
Record SplatNet3MonitorConfig := {
  storage : positive;
  na_session_token : string;
  znc_proxy_url : option string;
  allow_fetch_token : bool;
  config_friend_nsaid : option string
}.

(** What the monitor uses of [ExternalMonitorPresenceInterface]: the
    owner's error policy and [znc_discord_presence.presence_user].
    [refreshPresence()] is recorded in the world's log. *)
Record ExternalMonitorPresenceInterface := {
  presence_handleError : Error -> ErrorResult;
  presence_user : option string
}.

(** The authenticated API client and the saved token [getBulletToken]
    hands back. *)
Inductive SplatNet3Api := SplatNet3Client.

Record SavedBulletToken := {
  token_version : string
}.

(** The fields of a [SplatNet3Monitor] instance, followed by the state
    of its [EmbeddedLoop] base that the class drives: whether the loop
    is Disabled, and whether a skip of the current interval is
    requested. *)
Record SplatNet3Monitor := {
  config : option SplatNet3MonitorConfig;
  discord_presence : ExternalMonitorPresenceInterface;
  splatnet : option SplatNet3Api;
  data : option SavedBulletToken;
  cached_friends : option FriendListResult;
  cached_schedules : option StageScheduleResult;
  friend : option Friend;
  regular_schedule : option RegularSchedule;
  anarchy_schedule : option BankaraSchedule;
  fest_schedule : option FestSchedule;
  league_schedule : option LeagueSchedule;
  x_schedule : option XSchedule;
  coop_schedule : option CoopSchedule;
  loop_disabled : bool;
  loop_skip_interval : bool
}.

(** Field assignments [this.<field> = v]. *)
Definition set_config (v : option SplatNet3MonitorConfig) (this : SplatNet3Monitor) : SplatNet3Monitor :=
  {| config := v;
     discord_presence := discord_presence this;
     splatnet := splatnet this;
     data := data this;
     cached_friends := cached_friends this;
     cached_schedules := cached_schedules this;
     friend := friend this;
     regular_schedule := regular_schedule this;
     anarchy_schedule := anarchy_schedule this;
     fest_schedule := fest_schedule this;
     league_schedule := league_schedule this;
     x_schedule := x_schedule this;
     coop_schedule := coop_schedule this;
     loop_disabled := loop_disabled this;
     loop_skip_interval := loop_skip_interval this |}.

Definition set_cached_friends (v : option FriendListResult) (this : SplatNet3Monitor) : SplatNet3Monitor :=
  {| config := config this;
     discord_presence := discord_presence this;
     splatnet := splatnet this;
     data := data this;
     cached_friends := v;
     cached_schedules := cached_schedules this;
     friend := friend this;
     regular_schedule := regular_schedule this;
     anarchy_schedule := anarchy_schedule this;
     fest_schedule := fest_schedule this;
     league_schedule := league_schedule this;
     x_schedule := x_schedule this;
     coop_schedule := coop_schedule this;
     loop_disabled := loop_disabled this;
     loop_skip_interval := loop_skip_interval this |}.

Definition set_cached_schedules (v : option StageScheduleResult) (this : SplatNet3Monitor) : SplatNet3Monitor :=
  {| config := config this;
     discord_presence := discord_presence this;
     splatnet := splatnet this;
     data := data this;
     cached_friends := cached_friends this;
     cached_schedules := v;
     friend := friend this;
     regular_schedule := regular_schedule this;
     anarchy_schedule := anarchy_schedule this;
     fest_schedule := fest_schedule this;
     league_schedule := league_schedule this;
     x_schedule := x_schedule this;
     coop_schedule := coop_schedule this;
     loop_disabled := loop_disabled this;
     loop_skip_interval := loop_skip_interval this |}.

Definition set_friend (v : option Friend) (this : SplatNet3Monitor) : SplatNet3Monitor :=
  {| config := config this;
     discord_presence := discord_presence this;
     splatnet := splatnet this;
     data := data this;
     cached_friends := cached_friends this;
     cached_schedules := cached_schedules this;
     friend := v;
     regular_schedule := regular_schedule this;
     anarchy_schedule := anarchy_schedule this;
     fest_schedule := fest_schedule this;
     league_schedule := league_schedule this;
     x_schedule := x_schedule this;
     coop_schedule := coop_schedule this;
     loop_disabled := loop_disabled this;
     loop_skip_interval := loop_skip_interval this |}.

Definition set_regular_schedule (v : option RegularSchedule) (this : SplatNet3Monitor) : SplatNet3Monitor :=
  {| config := config this;
     discord_presence := discord_presence this;
     splatnet := splatnet this;
     data := data this;
     cached_friends := cached_friends this;
     cached_schedules := cached_schedules this;
     friend := friend this;
     regular_schedule := v;
     anarchy_schedule := anarchy_schedule this;
     fest_schedule := fest_schedule this;
     league_schedule := league_schedule this;
     x_schedule := x_schedule this;
     coop_schedule := coop_schedule this;
     loop_disabled := loop_disabled this;
     loop_skip_interval := loop_skip_interval this |}.

Definition set_anarchy_schedule (v : option BankaraSchedule) (this : SplatNet3Monitor) : SplatNet3Monitor :=
  {| config := config this;
     discord_presence := discord_presence this;
     splatnet := splatnet this;
     data := data this;
     cached_friends := cached_friends this;
     cached_schedules := cached_schedules this;
     friend := friend this;
     regular_schedule := regular_schedule this;
     anarchy_schedule := v;
     fest_schedule := fest_schedule this;
     league_schedule := league_schedule this;
     x_schedule := x_schedule this;
     coop_schedule := coop_schedule this;
     loop_disabled := loop_disabled this;
     loop_skip_interval := loop_skip_interval this |}.

Definition set_fest_schedule (v : option FestSchedule) (this : SplatNet3Monitor) : SplatNet3Monitor :=
  {| config := config this;
     discord_presence := discord_presence this;
     splatnet := splatnet this;
     data := data this;
     cached_friends := cached_friends this;
     cached_schedules := cached_schedules this;
     friend := friend this;
     regular_schedule := regular_schedule this;
     anarchy_schedule := anarchy_schedule this;
     fest_schedule := v;
     league_schedule := league_schedule this;
     x_schedule := x_schedule this;
     coop_schedule := coop_schedule this;
     loop_disabled := loop_disabled this;
     loop_skip_interval := loop_skip_interval this |}.

Definition set_league_schedule (v : option LeagueSchedule) (this : SplatNet3Monitor) : SplatNet3Monitor :=
  {| config := config this;
     discord_presence := discord_presence this;
     splatnet := splatnet this;
     data := data this;
     cached_friends := cached_friends this;
     cached_schedules := cached_schedules this;
     friend := friend this;
     regular_schedule := regular_schedule this;
     anarchy_schedule := anarchy_schedule this;
     fest_schedule := fest_schedule this;
     league_schedule := v;
     x_schedule := x_schedule this;
     coop_schedule := coop_schedule this;
     loop_disabled := loop_disabled this;
     loop_skip_interval := loop_skip_interval this |}.

Definition set_x_schedule (v : option XSchedule) (this : SplatNet3Monitor) : SplatNet3Monitor :=
  {| config := config this;
     discord_presence := discord_presence this;
     splatnet := splatnet this;
     data := data this;
     cached_friends := cached_friends this;
     cached_schedules := cached_schedules this;
     friend := friend this;
     regular_schedule := regular_schedule this;
     anarchy_schedule := anarchy_schedule this;
     fest_schedule := fest_schedule this;
     league_schedule := league_schedule this;
     x_schedule := v;
     coop_schedule := coop_schedule this;
     loop_disabled := loop_disabled this;
     loop_skip_interval := loop_skip_interval this |}.

Definition set_coop_schedule (v : option CoopSchedule) (this : SplatNet3Monitor) : SplatNet3Monitor :=
  {| config := config this;
     discord_presence := discord_presence this;
     splatnet := splatnet this;
     data := data this;
     cached_friends := cached_friends this;
     cached_schedules := cached_schedules this;
     friend := friend this;
     regular_schedule := regular_schedule this;
     anarchy_schedule := anarchy_schedule this;
     fest_schedule := fest_schedule this;
     league_schedule := league_schedule this;
     x_schedule := x_schedule this;
     coop_schedule := v;
     loop_disabled := loop_disabled this;
     loop_skip_interval := loop_skip_interval this |}.

Definition set_loop_disabled (v : bool) (this : SplatNet3Monitor) : SplatNet3Monitor :=
  {| config := config this;
     discord_presence := discord_presence this;
     splatnet := splatnet this;
     data := data this;
     cached_friends := cached_friends this;
     cached_schedules := cached_schedules this;
     friend := friend this;
     regular_schedule := regular_schedule this;
     anarchy_schedule := anarchy_schedule this;
     fest_schedule := fest_schedule this;
     league_schedule := league_schedule this;
     x_schedule := x_schedule this;
     coop_schedule := coop_schedule this;
     loop_disabled := v;
     loop_skip_interval := loop_skip_interval this |}.

Definition set_loop_skip_interval (v : bool) (this : SplatNet3Monitor) : SplatNet3Monitor :=
  {| config := config this;
     discord_presence := discord_presence this;
     splatnet := splatnet this;
     data := data this;
     cached_friends := cached_friends this;
     cached_schedules := cached_schedules this;
     friend := friend this;
     regular_schedule := regular_schedule this;
     anarchy_schedule := anarchy_schedule this;
     fest_schedule := fest_schedule this;
     league_schedule := league_schedule this;
     x_schedule := x_schedule this;
     coop_schedule := coop_schedule this;
     loop_disabled := loop_disabled this;
     loop_skip_interval := v |}.

(** ** The world outside the monitor *)

(** The calls the monitor issues to its collaborators. *)
Inductive Call :=
| GetFriendsRefetch
| GetSchedules
| RefreshPresence.

#[export] Instance Call_eq_dec : EqDecision Call.
Proof. solve_decision. Defined.

(** What an awaited request settles to, and how long it took. *)
Record Reply (A : Type) := {
  reply_elapsed : Z;
  reply_result : Error + A
}.
Arguments reply_elapsed {A} _.
Arguments reply_result {A} _.

(** The clock: what [Date.now()] returns if it is called next; the
    time that passes after the k-th reading of the clock, before the
    next statement runs; the reply SplatNet 3 gives to the k-th request
    of each kind; the log of calls issued so far and the log of the
    readings of the clock made so far (both most recent first). Time
    passes after every reading and while a request is awaited. *)
Record World := {
  clock : Z;
  ticks : nat -> Z;
  friends_replies : nat -> Reply FriendListResult;
  schedules_replies : nat -> Reply StageScheduleResult;
  calls : list Call;
  readings : list Z
}.

Definition issued (c : Call) (w : World) : nat :=
  count_occ Call_eq_dec (calls w) c.

Definition log_call (c : Call) (w : World) : World :=
  {| clock := clock w;
     ticks := ticks w;
     friends_replies := friends_replies w;
     schedules_replies := schedules_replies w;
     calls := c :: calls w;
     readings := readings w |}.

Definition advance (elapsed : Z) (w : World) : World :=
  {| clock := clock w + elapsed;
     ticks := ticks w;
     friends_replies := friends_replies w;
     schedules_replies := schedules_replies w;
     calls := calls w;
     readings := readings w |}.

(** The clock is read: the reading is logged, and time passes. *)
Definition tick (w : World) : World :=
  {| clock := clock w + ticks w (length (readings w));
     ticks := ticks w;
     friends_replies := friends_replies w;
     schedules_replies := schedules_replies w;
     calls := calls w;
     readings := clock w :: readings w |}.

(** ** Methods as state transformers that return or throw *)

Inductive Completion (A : Type) :=
| Return (a : A)
| Throw (e : Error).
Arguments Return {A} a.
Arguments Throw {A} e.

Definition M (A : Type) : Type :=
  World -> SplatNet3Monitor -> Completion A * World * SplatNet3Monitor.

Definition ret {A} (a : A) : M A :=
  fun w this => (Return a, w, this).

Definition throw {A} (e : Error) : M A :=
  fun w this => (Throw e, w, this).

Definition bind {A B} (c : M A) (k : A -> M B) : M B :=
  fun w this =>
    match c w this with
    | (Return a, w', this') => k a w' this'
    | (Throw e, w', this') => (Throw e, w', this')
    end.

Notation "x <- c ;; k" := (bind c (fun x => k))
  (at level 100, c at next level, right associativity).
Notation "c ;;; k" := (bind c (fun _ => k))
  (at level 100, right associativity).

(** Read a field of [this]. *)
Definition read {A} (field : SplatNet3Monitor -> A) : M A :=
  fun w this => (Return (field this), w, this).

(** [this.<field> = v]. *)
Definition assign (set : SplatNet3Monitor -> SplatNet3Monitor) : M unit :=
  fun w this => (Return tt, w, set this).

(** [Date.now()]: every call reads the clock anew. *)
Definition Date_now : M Z :=
  fun w this => (Return (clock w), tick w, this).

(** [await] a request: it is logged as issued, time passes, and it
    settles to the scripted reply. *)
Definition await_reply {A} (c : Call) (r : Reply A) : M A :=
  fun w this =>
    (match reply_result r with
     | inr a => Return a
     | inl e => Throw e
     end, advance (reply_elapsed r) (log_call c w), this).

Definition getFriendsRefetch (api : SplatNet3Api) : M FriendListResult :=
  fun w this => await_reply GetFriendsRefetch (friends_replies w (issued GetFriendsRefetch w)) w this.

Definition getSchedules (api : SplatNet3Api) : M StageScheduleResult :=
  fun w this => await_reply GetSchedules (schedules_replies w (issued GetSchedules w)) w this.

(** [this.discord_presence.refreshPresence()]. *)
Definition refreshPresence : M unit :=
  fun w this => (Return tt, log_call RefreshPresence w, this).

(** ** [EmbeddedLoop] *)

(** Modelled from the spec: [skipIntervalInCurrentLoop()] of
    [util/loop] is absent from the sources; it records an idempotent
    request to skip the sleep of the current cycle. *)
Definition skipIntervalInCurrentLoop : M unit :=
  assign (set_loop_skip_interval true).

(** Modelled from the spec: [disable()] of [util/loop] is absent from
    the sources; it moves the loop to Disabled, so no further cycle
    runs. *)
Definition disable : M unit :=
  assign (set_loop_disabled true).

(** ** [SplatNet3Monitor] *)

(** [a !== b] on values compared structurally (strings, booleans,
    [undefined]) or by reference ([storage]). *)
Definition strict_ne {A} `{EqDecision A} (a b : A) : bool :=
  negb (bool_decide (a = b)).

(** [!!config]. *)
Definition truthy {A} (o : option A) : bool :=
  match o with
  | Some _ => true
  | None => false
  end.

(** [onUpdateConfig(config)]. *)
Definition onUpdateConfig (config' : option SplatNet3MonitorConfig) : M bool :=
  this_config <- read config;;
  if strict_ne (truthy config') (truthy this_config) then ret false
  else if strict_ne (storage <$> config') (storage <$> this_config) then ret false
  else if strict_ne (na_session_token <$> config') (na_session_token <$> this_config) then ret false
  else if strict_ne (config' ≫= znc_proxy_url) (this_config ≫= znc_proxy_url) then ret false
  else if strict_ne (allow_fetch_token <$> config') (allow_fetch_token <$> this_config) then ret false
  else
    assign (set_config config');;;
    skipIntervalInCurrentLoop;;;
    ret true.

(** [get friend_nsaid()]. *)
Definition friend_nsaid (this : SplatNet3Monitor) : option string :=
  match config this ≫= config_friend_nsaid with
  | Some nsaid => Some nsaid
  | None => presence_user (discord_presence this)
  end.

(** [this.getSchedule(schedules)]: [const now = Date.now()] reads the
    clock in every call, and the scan follows. *)
Definition this_getSchedule {platform : Platform} {T} {timed : Timed T} (schedules : list T) : M (option T) :=
  now <- Date_now;;
  ret (getSchedule now schedules).

(** [cached?.data.<kind>.nodes ?? []]. *)
Definition nodes_of {T} (kind : StageScheduleResult -> list T)
    (cached : option StageScheduleResult) : list T :=
  match cached with
  | Some s => kind s
  | None => []
  end.

(** [this.cached_schedules?.data.<kind>.nodes ?? []]. *)
Definition nodes_or_empty {T} (kind : StageScheduleResult -> list T) : M (list T) :=
  cached <- read cached_schedules;;
  ret (nodes_of kind cached).

(** [select kind set] is
    [this.<field> = this.getSchedule(this.cached_schedules?.data.<kind>.nodes ?? [])]. *)
Definition select {platform : Platform} {T} {timed : Timed T} (kind : StageScheduleResult -> list T)
    (set : option T -> SplatNet3Monitor -> SplatNet3Monitor) : M unit :=
  nodes <- nodes_or_empty kind;;
  selected <- this_getSchedule nodes;;
  assign (set selected).

(** [update()]. *)
Definition update {platform : Platform} : M unit :=
  cached <- read cached_friends;;
  api <- read splatnet;;
  friends <- match cached with
             | Some f => ret (Some f)
             | None =>
                 match api with
                 | Some client => f <- getFriendsRefetch client;; ret (Some f)
                 | None => ret None
                 end
             end;;
  assign (set_cached_friends None);;;
  nsaid <- read friend_nsaid;;
  let id := JS.base64 ("Friend-" +:+ JS.to_string nsaid) in
  let found := friends ≫= fun f => List.find (fun f => String.eqb (friend_id f) id) (friends_nodes f) in
  assign (set_friend found);;;
  select regularSchedules set_regular_schedule;;;
  regular <- read regular_schedule;;
  match regular with
  | Some _ => ret tt
  | None =>
      api <- read splatnet;;
      fetched <- match api with
                 | Some client => getSchedules client
                 | None => throw (TypeError "Cannot read properties of null (reading 'getSchedules')")
                 end;;
      assign (set_cached_schedules (Some fetched));;;
      select regularSchedules set_regular_schedule
  end;;;
  select bankaraSchedules set_anarchy_schedule;;;
  select festSchedules set_fest_schedule;;;
  select leagueSchedules set_league_schedule;;;
  select xSchedules set_x_schedule;;;
  select coopGroupingSchedule set_coop_schedule;;;
  refreshPresence.

(** [handleError(err)]. *)
Definition handleError (err : Error) : M LoopResult :=
  presence <- read discord_presence;;
  let result := presence_handleError presence err in
  match result with
  | RETRY => ret OK_SKIP_INTERVAL
  | _ =>
      assign (set_friend None);;;
      refreshPresence;;;
      match result with
      | STOP => disable
      | _ => ret tt
      end;;;
      ret OK
  end.

(** ** The activity builder *)

(** [DiscordRPC.Presence]: the activity descriptor handed to the builder. *)
Record Presence := {
  state : option string;
  details : option string;
  startTimestamp : option Z;
  endTimestamp : option Z;
  largeImageKey : option string;
  largeImageText : option string;
  smallImageKey : option string;
  smallImageText : option string;
  partyId : option string;
  partySize : option Z;
  partyMax : option Z;
  buttons : option (list (string * string))
}.

(** Property assignments [activity.<field> = v]. *)
Definition set_details (v : option string) (activity : Presence) : Presence :=
  {| state := state activity;
     details := v;
     startTimestamp := startTimestamp activity;
     endTimestamp := endTimestamp activity;
     largeImageKey := largeImageKey activity;
     largeImageText := largeImageText activity;
     smallImageKey := smallImageKey activity;
     smallImageText := smallImageText activity;
     partyId := partyId activity;
     partySize := partySize activity;
     partyMax := partyMax activity;
     buttons := buttons activity |}.

Definition set_largeImageKey (v : option string) (activity : Presence) : Presence :=
  {| state := state activity;
     details := details activity;
     startTimestamp := startTimestamp activity;
     endTimestamp := endTimestamp activity;
     largeImageKey := v;
     largeImageText := largeImageText activity;
     smallImageKey := smallImageKey activity;
     smallImageText := smallImageText activity;
     partyId := partyId activity;
     partySize := partySize activity;
     partyMax := partyMax activity;
     buttons := buttons activity |}.

Definition set_largeImageText (v : option string) (activity : Presence) : Presence :=
  {| state := state activity;
     details := details activity;
     startTimestamp := startTimestamp activity;
     endTimestamp := endTimestamp activity;
     largeImageKey := largeImageKey activity;
     largeImageText := v;
     smallImageKey := smallImageKey activity;
     smallImageText := smallImageText activity;
     partyId := partyId activity;
     partySize := partySize activity;
     partyMax := partyMax activity;
     buttons := buttons activity |}.

Definition set_smallImageKey (v : option string) (activity : Presence) : Presence :=
  {| state := state activity;
     details := details activity;
     startTimestamp := startTimestamp activity;
     endTimestamp := endTimestamp activity;
     largeImageKey := largeImageKey activity;
     largeImageText := largeImageText activity;
     smallImageKey := v;
     smallImageText := smallImageText activity;
     partyId := partyId activity;
     partySize := partySize activity;
     partyMax := partyMax activity;
     buttons := buttons activity |}.

Definition set_smallImageText (v : option string) (activity : Presence) : Presence :=
  {| state := state activity;
     details := details activity;
     startTimestamp := startTimestamp activity;
     endTimestamp := endTimestamp activity;
     largeImageKey := largeImageKey activity;
     largeImageText := largeImageText activity;
     smallImageKey := smallImageKey activity;
     smallImageText := v;
     partyId := partyId activity;
     partySize := partySize activity;
     partyMax := partyMax activity;
     buttons := buttons activity |}.
(** [Game] of [api/coral-types]; the builder receives it and does not
    read it. *)
Record Game := {
  game_name : string;
  game_sysDescription : string
}.

(** The elements of [context.monitors]: this monitor class, or another. *)
Inductive ExternalMonitor :=
| IsSplatNet3Monitor (m : SplatNet3Monitor)
| OtherMonitor (label : string).

Record DiscordPresenceContext := {
  monitors : option (list ExternalMonitor)
}.

(** [monitors.find(m => m instanceof SplatNet3Monitor)]. *)
Fixpoint find_SplatNet3Monitor (ms : list ExternalMonitor) : option SplatNet3Monitor :=
  match ms with
  | [] => None
  | IsSplatNet3Monitor m :: _ => Some m
  | OtherMonitor _ :: rest => find_SplatNet3Monitor rest
  end.

(** How the builder ends: it returns, or an exception escapes it; either
    way [activity] has received the assignments made so far. *)
Inductive Outcome :=
| Returned (activity : Presence)
| Threw (e : Error) (activity : Presence).

Definition activity_of (o : Outcome) : Presence :=
  match o with
  | Returned a => a
  | Threw _ a => a
  end.

(** [friend.vsMode?.mode === s] and [friend.vsMode?.id === s]. *)
Definition mode_is (f : Friend) (s : string) : bool :=
  bool_decide (vsMode_mode <$> vsMode f = Some s).

Definition id_is (f : Friend) (s : string) : bool :=
  bool_decide (vsMode_id <$> vsMode f = Some s).

Definition mode_image (f : Friend) : option string :=
  if mode_is f "REGULAR" then Some "mode-regular-1"
  else if mode_is f "BANKARA" then Some "mode-anarchy-1"
  else if mode_is f "FEST" then Some "mode-fest-1"
  else if mode_is f "LEAGUE" then Some "mode-league-1"
  else if mode_is f "X_MATCH" then Some "mode-x-1"
  else None.

Definition mode_name (f : Friend) : option string :=
  if mode_is f "REGULAR" then Some "Regular Battle"
  else if id_is f "VnNNb2RlLTI=" then Some "Anarchy Battle (Series)"
  else if id_is f "VnNNb2RlLTUx" then Some "Anarchy Battle (Open)"
  else if mode_is f "BANKARA" then Some "Anarchy Battle"
  else if mode_is f "FEST" then Some "Splatfest Battle"
  else if mode_is f "LEAGUE" then Some "League Battle"
  else if mode_is f "X_MATCH" then Some "X Battle"
  else None.

(** [bankaraMatchSettings.find(s => s.mode === mode)]. *)
Definition find_bankara (mode : BankaraMatchMode) (a : BankaraSchedule) : option MatchSetting :=
  bankara_setting <$>
    List.find (fun s => match bankara_mode s, mode with
                        | CHALLENGE, CHALLENGE | OPEN, OPEN => true
                        | _, _ => false
                        end) (bankaraMatchSettings a).

Definition schedule_setting (monitor : SplatNet3Monitor) (f : Friend) : option MatchSetting :=
  if mode_is f "REGULAR" then regular_schedule monitor ≫= regularMatchSetting
  else if mode_is f "BANKARA" then
    if id_is f "VnNNb2RlLTI=" then anarchy_schedule monitor ≫= find_bankara CHALLENGE
    else if id_is f "VnNNb2RlLTUx" then anarchy_schedule monitor ≫= find_bankara OPEN
    else None
  else if mode_is f "FEST" then regular_schedule monitor ≫= regularMatchSetting
  else if mode_is f "LEAGUE" then league_schedule monitor ≫= leagueMatchSetting
  else if mode_is f "X_MATCH" then x_schedule monitor ≫= xMatchSetting
  else None.

Section Callback.
Context {platform : Platform}.

(** The body of the first [if] of [callback] (VS matching or fighting,
    with a [vsMode]). *)
Definition enrich_vs (monitor : SplatNet3Monitor) (f : Friend) (vs : VsMode)
    (activity : Presence) : Outcome :=
  let setting := schedule_setting monitor f in
  let title := JS.nullish (mode_name f) (vsMode_name vs) in
  let activity :=
    set_details
      (Some (title +:+
             match setting with
             | Some s => " - " +:+ vsRule_name (vsRule s)
             | None => EmptyString
             end +:+
             match onlineState f with
             | VS_MODE_MATCHING => " (matching)"
             | _ => EmptyString
             end)) activity in
  let images :=
    match setting with
    | None => Returned activity
    | Some s =>
        match vsStages s with
        | a :: b :: _ =>
            let activity :=
              set_largeImageKey
                (Some ("https://fancy.org.uk/api/nxapi/s3/image?" +:+
                       JS.URLSearchParams [("a", vsStage_id a); ("b", vsStage_id b);
                                           ("v", "2022092104")])) activity in
            Returned
              (set_largeImageText
                 (Some (JS.join "/" (map vsStage_name (vsStages s)) +:+ " | " +:+ product))
                 activity)
        | _ => Threw (TypeError "Cannot read properties of undefined (reading 'id')") activity
        end
    end in
  match images with
  | Threw e activity => Threw e activity
  | Returned activity =>
      Returned (set_smallImageText (Some title) (set_smallImageKey (mode_image f) activity))
  end.

(** The body of the second [if] of [callback] (co-op matching or
    fighting). *)
Definition enrich_coop (monitor : SplatNet3Monitor) (f : Friend) (activity : Presence) : Outcome :=
  let activity :=
    set_details
      (Some ("Salmon Run" +:+
             match onlineState f with
             | COOP_MODE_MATCHING => " (matching)"
             | _ => EmptyString
             end)) activity in
  match coop_schedule monitor with
  | None => Returned activity
  | Some coop =>
      match URL_pathname (coopStage_image_url (coop_setting_coopStage coop)) with
      | None => Threw (TypeError "Invalid URL") activity
      | Some pathname =>
          match JS.match_prefix_rest "/resources/prod/" pathname with
          | Some rest =>
              let activity :=
                set_largeImageKey (Some ("https://splatoon3.ink/assets/splatnet/" +:+ rest))
                  activity in
              Returned
                (set_largeImageText
                   (Some (coopStage_name (coop_setting_coopStage coop) +:+ " | " +:+ product))
                   activity)
          | None => Returned activity
          end
      end
  end.

(** [callback(activity, game, context)]: the object [activity] after the
    call. *)
Definition callback (activity : Presence) (game : Game)
    (context : option DiscordPresenceContext) : Outcome :=
  match (context ≫= monitors) ≫= find_SplatNet3Monitor with
  | None => Returned activity
  | Some monitor =>
      match friend monitor with
      | None => Returned activity
      | Some f =>
          let after_vs :=
            match onlineState f, vsMode f with
            | (VS_MODE_MATCHING | VS_MODE_FIGHTING), Some vs => enrich_vs monitor f vs activity
            | _, _ => Returned activity
            end in
          match after_vs with
          | Threw e activity => Threw e activity
          | Returned activity =>
              match onlineState f with
              | COOP_MODE_MATCHING | COOP_MODE_FIGHTING => enrich_coop monitor f activity
              | _ => Returned activity
              end
          end
      end
  end.

End Callback.

(** ** The tenant cache of the distribution layer *)

Module TenantCache.

Definition Caller : Type := nat.
Definition Value : Type := string.

(** Modelled from the spec: the tenant cache entry of the distribution
    layer, whose code is absent from the sources: the cached response
    with its timestamp, and the in-flight-request marker holding the
    callers attached to the request. *)
Record Entry := {
  cached : option (Value * Z);
  in_flight : option (list Caller)
}.




(** The cached value, if its age is below the minimum refetch interval. *)
Definition fresh (interval now : Z) (e : Entry) : option Value :=
  match cached e with
  | Some (v, t) => if now - t <? interval then Some v else None
  | None => None
  end.
















End TenantCache.

(** ** Equivalence of configurations, as the specification words it *)

(** Both absent, or both present with equal [storage],
    [na_session_token], [znc_proxy_url] and [allow_fetch_token]. *)
Definition config_equivalent (a b : option SplatNet3MonitorConfig) : Prop :=
  match a, b with
  | None, None => True
  | Some x, Some y =>
      storage x = storage y /\
      na_session_token x = na_session_token y /\
      znc_proxy_url x = znc_proxy_url y /\
      allow_fetch_token x = allow_fetch_token y
  | _, _ => False
  end.

#[export] Instance config_equivalent_dec (a b : option SplatNet3MonitorConfig) :
  Decision (config_equivalent a b).
Proof. destruct a, b; simpl; apply _. Defined.

(** ** Vocabulary for the update cycle and the activity builder *)

Section Vocabulary.
Context {platform : Platform}.

(** Whether the first step of [update()] awaits a friends request. *)
Definition awaits_friends (this : SplatNet3Monitor) : bool :=
  match cached_friends this, splatnet this with
  | None, Some _ => true
  | _, _ => false
  end.

(** The reply to the next friends request, and to the next schedules
    request. *)
Definition next_friends (w : World) : Reply FriendListResult :=
  friends_replies w (issued GetFriendsRefetch w).

Definition next_schedules (w : World) : Reply StageScheduleResult :=
  schedules_replies w (issued GetSchedules w).

(** The first step of [update()] does not throw: either no friends
    request is awaited, or it settles to a result. *)
Definition friends_settle (w : World) (this : SplatNet3Monitor) : Prop :=
  awaits_friends this = true -> exists f, reply_result (next_friends w) = inr f.

(** The reading of the clock at the first selection of [update()], the
    one of the regular schedules: the clock at the start of the cycle,
    or after the awaited friends request. *)
Definition selection_clock (w : World) (this : SplatNet3Monitor) : Z :=
  if awaits_friends this then clock w + reply_elapsed (next_friends w) else clock w.

(** An entry in the past: its end time lies before [now]. *)
Definition in_the_past {T} {timed : Timed T} (now : Z) (schedule : T) : Prop :=
  exists e, Date_getTime (endTime schedule) = Some e /\ e < now.

(** The cached schedule set is exhausted: there is no cache, or every
    entry of every kind is in the past. *)
Definition exhausted (now : Z) (cached : option StageScheduleResult) : Prop :=
  match cached with
  | None => True
  | Some s =>
      Forall (in_the_past now) (regularSchedules s) /\
      Forall (in_the_past now) (bankaraSchedules s) /\
      Forall (in_the_past now) (festSchedules s) /\
      Forall (in_the_past now) (leagueSchedules s) /\
      Forall (in_the_past now) (xSchedules s) /\
      Forall (in_the_past now) (coopGroupingSchedule s)
  end.

(** The readings of the clock at which the six selections of a cycle
    are made: every call of [getSchedule] reads the clock for itself. *)
Record SelectionTimes := {
  regular_at : Z;
  anarchy_at : Z;
  fest_at : Z;
  league_at : Z;
  x_at : Z;
  coop_at : Z
}.

(** The six most recent readings of the clock: after a cycle of
    [update()] that returned, the readings of its selections of the
    co-op, X, league, fest, anarchy and regular schedules, the last
    first. *)
Definition last_selections (w : World) : option SelectionTimes :=
  match readings w with
  | coop :: x :: league :: fest :: anarchy :: regular :: _ =>
      Some {| regular_at := regular;
              anarchy_at := anarchy;
              fest_at := fest;
              league_at := league;
              x_at := x;
              coop_at := coop |}
  | _ => None
  end.

(** The readings listed as the log holds them, most recent first. *)
Definition logged (t : SelectionTimes) : list Z :=
  [coop_at t; x_at t; league_at t; fest_at t; anarchy_at t; regular_at t].

(** Every selection of the monitor is the one [getSchedule] makes on the
    cached schedules of its kind, at the reading of that selection. *)
Definition selections_at (t : SelectionTimes) (this : SplatNet3Monitor) : Prop :=
  regular_schedule this =
    getSchedule (regular_at t) (nodes_of regularSchedules (cached_schedules this)) /\
  anarchy_schedule this =
    getSchedule (anarchy_at t) (nodes_of bankaraSchedules (cached_schedules this)) /\
  fest_schedule this =
    getSchedule (fest_at t) (nodes_of festSchedules (cached_schedules this)) /\
  league_schedule this =
    getSchedule (league_at t) (nodes_of leagueSchedules (cached_schedules this)) /\
  x_schedule this =
    getSchedule (x_at t) (nodes_of xSchedules (cached_schedules this)) /\
  coop_schedule this =
    getSchedule (coop_at t) (nodes_of coopGroupingSchedule (cached_schedules this)).

(** The match setting that the one entry of the friend's mode carries
    which is active at the reading of that mode's selection: regular,
    anarchy (Series or Open, by the mode id), league or X battle. *)
Inductive scheduled_setting (t : SelectionTimes) (cache : StageScheduleResult) (f : Friend)
    (s : MatchSetting) : Prop :=
| scheduled_regular (P : RegularSchedule) :
    mode_is f "REGULAR" = true ->
    only_active (regular_at t) (regularSchedules cache) P ->
    regularMatchSetting P = Some s ->
    scheduled_setting t cache f s
| scheduled_series (P : BankaraSchedule) :
    mode_is f "BANKARA" = true ->
    id_is f "VnNNb2RlLTI=" = true ->
    only_active (anarchy_at t) (bankaraSchedules cache) P ->
    find_bankara CHALLENGE P = Some s ->
    scheduled_setting t cache f s
| scheduled_open (P : BankaraSchedule) :
    mode_is f "BANKARA" = true ->
    id_is f "VnNNb2RlLTUx" = true ->
    only_active (anarchy_at t) (bankaraSchedules cache) P ->
    find_bankara OPEN P = Some s ->
    scheduled_setting t cache f s
| scheduled_league (P : LeagueSchedule) :
    mode_is f "LEAGUE" = true ->
    only_active (league_at t) (leagueSchedules cache) P ->
    leagueMatchSetting P = Some s ->
    scheduled_setting t cache f s
| scheduled_x (P : XSchedule) :
    mode_is f "X_MATCH" = true ->
    only_active (x_at t) (xSchedules cache) P ->
    xMatchSetting P = Some s ->
    scheduled_setting t cache f s.

End Vocabulary.

(** The details line that names the rule of a match setting. *)
Definition details_with_rule (f : Friend) (vs : VsMode) (s : MatchSetting) : string :=
  JS.nullish (mode_name f) (vsMode_name vs) +:+ " - " +:+ vsRule_name (vsRule s) +:+
  match onlineState f with
  | VS_MODE_MATCHING => " (matching)"
  | _ => EmptyString
  end.

(** Does [text] contain [part]? *)
Definition mentions (text part : string) : bool :=
  match String.index 0 part text with
  | Some _ => true
  | None => false
  end.

(** The friend the builder enriches for: the cached friend of the first
    SplatNet 3 monitor of the context. *)
Definition tracked_friend (context : option DiscordPresenceContext) : option Friend :=
  ((context ≫= monitors) ≫= find_SplatNet3Monitor) ≫= friend.

(** The four online states the builder enriches. *)
Definition enriched_state (s : FriendOnlineState) : bool :=
  match s with
  | VS_MODE_MATCHING | VS_MODE_FIGHTING | COOP_MODE_MATCHING | COOP_MODE_FIGHTING => true
  | OFFLINE | ONLINE => false
  end.

(** ** A concrete platform for evaluating the model *)

Module Sample.

Definition digit (c : ascii) : option Z :=
  let n := Z.of_N (N_of_ascii c) in
  if (48 <=? n) && (n <=? 57) then Some (n - 48) else None.

Fixpoint digits (acc : Z) (s : string) : option Z :=
  match s with
  | EmptyString => Some acc
  | String c rest =>
      match digit c with
      | Some d => digits (acc * 10 + d) rest
      | None => None
      end
  end.

Definition field (start len : nat) (s : string) : option Z :=
  digits 0 (substring start len s).

Definition char_at (i : nat) (c : ascii) (s : string) : bool :=
  match String.get i s with
  | Some c' => Ascii.eqb c c'
  | None => false
  end.

Definition is_leap (y : Z) : bool :=
  ((y mod 4 =? 0) && negb (y mod 100 =? 0)) || (y mod 400 =? 0).

Definition days_in_month (y m : Z) : Z :=
  if m =? 2 then (if is_leap y then 29 else 28)
  else if (m =? 4) || (m =? 6) || (m =? 9) || (m =? 11) then 30
  else 31.

(** Days from 1970-01-01 to the given date of the proleptic Gregorian
    calendar. *)
Definition days_from_civil (y m d : Z) : Z :=
  let y' := if m <=? 2 then y - 1 else y in
  let era := y' / 400 in
  let yoe := y' - era * 400 in
  let doy := (153 * ((m + 9) mod 12) + 2) / 5 + d - 1 in
  let doe := yoe * 365 + yoe / 4 - yoe / 100 + doy in
  era * 146097 + doe - 719468.

(** [new Date(s).getTime()] on the timestamps SplatNet 3 sends,
    [YYYY-MM-DDTHH:mm:ssZ]; any other string counts as an invalid date
    here. *)
Definition utc_getTime (s : string) : JS.number :=
  if negb (Nat.eqb (String.length s) 20) then None
  else if negb (char_at 4 "-" s && char_at 7 "-" s && char_at 10 "T" s &&
                char_at 13 ":" s && char_at 16 ":" s && char_at 19 "Z" s) then None
  else
    match field 0 4 s, field 5 2 s, field 8 2 s, field 11 2 s, field 14 2 s, field 17 2 s with
    | Some y, Some mo, Some d, Some h, Some mi, Some sec =>
        if (1 <=? mo) && (mo <=? 12) && (1 <=? d) && (d <=? days_in_month y mo) &&
           (h <=? 23) && (mi <=? 59) && (sec <=? 59)
        then Some ((((days_from_civil y mo d * 24 + h) * 60 + mi) * 60 + sec) * 1000)
        else None
    | _, _, _, _, _, _ => None
    end.

Fixpoint until_any (stops : list ascii) (s : string) : string :=
  match s with
  | EmptyString => EmptyString
  | String c rest =>
      if existsb (Ascii.eqb c) stops then EmptyString else String c (until_any stops rest)
  end.

Fixpoint from_char (stop : ascii) (s : string) : option string :=
  match s with
  | EmptyString => None
  | String c rest => if Ascii.eqb c stop then Some s else from_char stop rest
  end.

(** [new URL(s).pathname] on plain [https://host/path] addresses; any
    other string counts as an invalid URL here. *)
Definition https_pathname (s : string) : option string :=
  match JS.strip_prefix "https://" s with
  | Some rest =>
      match from_char "/" rest with
      | Some path => Some (until_any ["?"%char; "#"%char] path)
      | None => Some "/"
      end
  | None => None
  end.

#[export] Instance platform : Platform :=
  {| Date_getTime := utc_getTime;
     URL_pathname := https_pathname;
     product := "nxapi" |}.

(** Schedule entries of 21 September 2022 (UTC). *)
Definition scorch_gorge : VsStage :=
  {| vsStage_id := "VnNTdGFnZS0x"; vsStage_name := "Scorch Gorge" |}.
Definition eeltail_alley : VsStage :=
  {| vsStage_id := "VnNTdGFnZS0y"; vsStage_name := "Eeltail Alley" |}.
Definition mahi_mahi : VsStage :=
  {| vsStage_id := "VnNTdGFnZS0xMg=="; vsStage_name := "Mahi-Mahi Resort" |}.
Definition wahoo_world : VsStage :=
  {| vsStage_id := "VnNTdGFnZS0xNg=="; vsStage_name := "Wahoo World" |}.

Definition turf_war (a b : VsStage) : MatchSetting :=
  {| vsStages := [a; b]; vsRule := {| vsRule_name := "Turf War" |} |}.

Definition regular_04_06 : RegularSchedule :=
  {| regular_startTime := "2022-09-21T04:00:00Z";
     regular_endTime := "2022-09-21T06:00:00Z";
     regularMatchSetting := Some (turf_war scorch_gorge eeltail_alley) |}.

Definition regular_06_08 : RegularSchedule :=
  {| regular_startTime := "2022-09-21T06:00:00Z";
     regular_endTime := "2022-09-21T08:00:00Z";
     regularMatchSetting := Some (turf_war mahi_mahi wahoo_world) |}.

(** An entry overlapping [regular_04_06]: 05:00 to 07:00. *)
Definition regular_05_07 : RegularSchedule :=
  {| regular_startTime := "2022-09-21T05:00:00Z";
     regular_endTime := "2022-09-21T07:00:00Z";
     regularMatchSetting := Some (turf_war mahi_mahi wahoo_world) |}.

(** 05:30:00 and 06:00:00 of that day, in milliseconds. *)
Definition at_05_30 : Z := 1663738200000.
Definition at_06_00 : Z := 1663740000000.

(** 05:59:30, 06:00:10 and 09:00:00 of that day. *)
Definition at_05_59_30 : Z := 1663739970000.
Definition at_06_00_10 : Z := 1663740010000.
Definition at_09_00 : Z := 1663750800000.

Definition regular_08_10 : RegularSchedule :=
  {| regular_startTime := "2022-09-21T08:00:00Z";
     regular_endTime := "2022-09-21T10:00:00Z";
     regularMatchSetting := Some (turf_war scorch_gorge wahoo_world) |}.

Definition anarchy (challenge open : string) (a b : VsStage) : list BankaraMatchSetting :=
  [ {| bankara_mode := CHALLENGE; bankara_vsStages := [a; b];
       bankara_vsRule := {| vsRule_name := challenge |} |};
    {| bankara_mode := OPEN; bankara_vsStages := [b; a];
       bankara_vsRule := {| vsRule_name := open |} |} ].

Definition bankara_04_06 : BankaraSchedule :=
  {| bankara_startTime := "2022-09-21T04:00:00Z";
     bankara_endTime := "2022-09-21T06:00:00Z";
     bankaraMatchSettings := anarchy "Splat Zones" "Tower Control" mahi_mahi wahoo_world |}.

Definition bankara_06_08 : BankaraSchedule :=
  {| bankara_startTime := "2022-09-21T06:00:00Z";
     bankara_endTime := "2022-09-21T08:00:00Z";
     bankaraMatchSettings := anarchy "Rainmaker" "Clam Blitz" scorch_gorge eeltail_alley |}.

Definition bankara_08_10 : BankaraSchedule :=
  {| bankara_startTime := "2022-09-21T08:00:00Z";
     bankara_endTime := "2022-09-21T10:00:00Z";
     bankaraMatchSettings := anarchy "Tower Control" "Rainmaker" eeltail_alley mahi_mahi |}.

(** Outside a Splatfest the fest entries carry no match setting. *)
Definition fest_04_06 : FestSchedule :=
  {| fest_startTime := "2022-09-21T04:00:00Z";
     fest_endTime := "2022-09-21T06:00:00Z";
     festMatchSetting := None |}.

Definition league_04_06 : LeagueSchedule :=
  {| league_startTime := "2022-09-21T04:00:00Z";
     league_endTime := "2022-09-21T06:00:00Z";
     leagueMatchSetting :=
       Some {| vsStages := [eeltail_alley; wahoo_world];
               vsRule := {| vsRule_name := "Clam Blitz" |} |} |}.

Definition x_04_06 : XSchedule :=
  {| x_startTime := "2022-09-21T04:00:00Z";
     x_endTime := "2022-09-21T06:00:00Z";
     xMatchSetting :=
       Some {| vsStages := [scorch_gorge; mahi_mahi];
               vsRule := {| vsRule_name := "Rainmaker" |} |} |}.

Definition coop_shift : CoopSchedule :=
  {| coop_startTime := "2022-09-20T16:00:00Z";
     coop_endTime := "2022-09-22T08:00:00Z";
     coop_setting_coopStage :=
       {| coopStage_name := "Spawning Grounds";
          coopStage_image_url :=
            "https://splatoon3.nintendo.net/resources/prod/v1/stage_img/icon/high_resolution/be584c7c_0.png" |} |}.

(** The schedules fetched before 06:00, and those fetched after 08:00. *)
Definition schedules_early : StageScheduleResult :=
  {| regularSchedules := [regular_04_06; regular_06_08];
     bankaraSchedules := [bankara_04_06; bankara_06_08];
     festSchedules := [fest_04_06];
     leagueSchedules := [league_04_06];
     xSchedules := [x_04_06];
     coopGroupingSchedule := [] |}.

Definition schedules_late : StageScheduleResult :=
  {| regularSchedules := [regular_08_10];
     bankaraSchedules := [bankara_08_10];
     festSchedules := [];
     leagueSchedules := [];
     xSchedules := [];
     coopGroupingSchedule := [coop_shift] |}.

(** During a Splatfest the regular entries carry no match setting and
    the fest entries do. *)
Definition schedules_splatfest : StageScheduleResult :=
  {| regularSchedules :=
       [ {| regular_startTime := "2022-09-21T04:00:00Z";
            regular_endTime := "2022-09-21T06:00:00Z";
            regularMatchSetting := None |} ];
     bankaraSchedules := [];
     festSchedules :=
       [ {| fest_startTime := "2022-09-21T04:00:00Z";
            fest_endTime := "2022-09-21T06:00:00Z";
            festMatchSetting := Some (turf_war mahi_mahi wahoo_world) |} ];
     leagueSchedules := [];
     xSchedules := [];
     coopGroupingSchedule := [] |}.

Definition nsaid : string := "0123456789abcdef".

Definition friend_in (state : FriendOnlineState) (mode : option VsMode) : Friend :=
  {| friend_id := JS.base64 ("Friend-" +:+ nsaid); onlineState := state; vsMode := mode |}.

Definition anarchy_open : VsMode :=
  {| vsMode_id := "VnNNb2RlLTUx"; vsMode_mode := "BANKARA"; vsMode_name := "Anarchy Battle" |}.

(** An anarchy mode whose id is neither the Series nor the Open one. *)
Definition anarchy_other : VsMode :=
  {| vsMode_id := "VnNNb2RlLTk5"; vsMode_mode := "BANKARA"; vsMode_name := "Anarchy Battle" |}.

Definition splatfest : VsMode :=
  {| vsMode_id := "VnNNb2RlLTY="; vsMode_mode := "FEST"; vsMode_name := "Splatfest Battle" |}.

(** The owner retries after a failed request and stops on anything else. *)
Definition presence : ExternalMonitorPresenceInterface :=
  {| presence_handleError :=
       fun err => if String.eqb (error_name err) "FetchError" then RETRY else STOP;
     presence_user := Some nsaid |}.

Definition configuration_for (tracked : option string) : SplatNet3MonitorConfig :=
  {| storage := 1%positive;
     na_session_token := "eyJhbGciOiJIUzI1NiJ9";
     znc_proxy_url := None;
     allow_fetch_token := true;
     config_friend_nsaid := tracked |}.

Definition configuration : SplatNet3MonitorConfig := configuration_for None.

(** An authenticated monitor holding [cache], before its next cycle. *)
Definition monitor (cache : option StageScheduleResult) (friends : option FriendListResult)
    : SplatNet3Monitor :=
  {| config := Some configuration;
     discord_presence := presence;
     splatnet := Some SplatNet3Client;
     data := Some {| token_version := "1.0.0-5e2bcdfb" |};
     cached_friends := friends;
     cached_schedules := cache;
     friend := None;
     regular_schedule := None;
     anarchy_schedule := None;
     fest_schedule := None;
     league_schedule := None;
     x_schedule := None;
     coop_schedule := None;
     loop_disabled := false;
     loop_skip_interval := false |}.

(** A world in which SplatNet 3 answers every request: the friend is in
    the given state, and the schedules are [schedules]; a millisecond
    passes after every reading of the clock. *)
Definition world (now : Z) (f : Friend) (schedules : StageScheduleResult) : World :=
  {| clock := now;
     ticks := fun _ => 1;
     friends_replies :=
       fun _ => {| reply_elapsed := 250; reply_result := inr {| friends_nodes := [f] |} |};
     schedules_replies :=
       fun _ => {| reply_elapsed := 300; reply_result := inr schedules |};
     calls := [];
     readings := [] |}.

Definition blank : Presence :=
  {| state := Some "Playing online";
     details := None;
     startTimestamp := None;
     endTimestamp := None;
     largeImageKey := Some "splatoon3";
     largeImageText := Some "Splatoon 3";
     smallImageKey := None;
     smallImageText := None;
     partyId := None;
     partySize := None;
     partyMax := None;
     buttons := None |}.

Definition splatoon3 : Game :=
  {| game_name := "Splatoon 3"; game_sysDescription := EmptyString |}.

(** One cycle of a monitor that holds [cache] and no cached friends,
    started at [now] while the friend is in state [f]; SplatNet 3 would
    answer a schedules request with [schedules_late]. *)
Definition cycle (now : Z) (f : Friend) (cache : option StageScheduleResult)
    : Completion unit * World * SplatNet3Monitor :=
  update (world now f schedules_late) (monitor cache None).

Definition context_of (this : SplatNet3Monitor) : option DiscordPresenceContext :=
  Some {| monitors := Some [OtherMonitor "splatnet2"; IsSplatNet3Monitor this] |}.

(** At 09:00:00: a monitor whose cached schedules all ended by 08:00:00,
    and the world it runs in. *)
Definition stale_monitor : SplatNet3Monitor := monitor (Some schedules_early) None.
Definition world_09_00 : World := world at_09_00 (friend_in ONLINE None) schedules_late.

(** A friend fighting an Anarchy Battle (Open), and one fighting an
    anarchy battle of an unlisted mode id. *)
Definition fighting_open : Friend := friend_in VS_MODE_FIGHTING (Some anarchy_open).
Definition fighting_other : Friend := friend_in VS_MODE_FIGHTING (Some anarchy_other).

Definition fighting_splatfest : Friend := friend_in VS_MODE_FIGHTING (Some splatfest).

Definition other_nsaid : string := "fedcba9876543210".

End Sample.

(** ** Start-up: [init()] and the configuration factories *)

Definition set_splatnet (v : option SplatNet3Api) (this : SplatNet3Monitor) : SplatNet3Monitor :=
  {| config := config this;
     discord_presence := discord_presence this;
     splatnet := v;
     data := data this;
     cached_friends := cached_friends this;
     cached_schedules := cached_schedules this;
     friend := friend this;
     regular_schedule := regular_schedule this;
     anarchy_schedule := anarchy_schedule this;
     fest_schedule := fest_schedule this;
     league_schedule := league_schedule this;
     x_schedule := x_schedule this;
     coop_schedule := coop_schedule this;
     loop_disabled := loop_disabled this;
     loop_skip_interval := loop_skip_interval this |}.

Definition set_data (v : option SavedBulletToken) (this : SplatNet3Monitor) : SplatNet3Monitor :=
  {| config := config this;
     discord_presence := discord_presence this;
     splatnet := splatnet this;
     data := v;
     cached_friends := cached_friends this;
     cached_schedules := cached_schedules this;
     friend := friend this;
     regular_schedule := regular_schedule this;
     anarchy_schedule := anarchy_schedule this;
     fest_schedule := fest_schedule this;
     league_schedule := league_schedule this;
     x_schedule := x_schedule this;
     coop_schedule := coop_schedule this;
     loop_disabled := loop_disabled this;
     loop_skip_interval := loop_skip_interval this |}.

(** What [init()] reads of the history records, for its log line. *)
Record HistoryRecords := {
  currentPlayer_name : string;
  currentPlayer_nameId : string;
  currentPlayer_byname : string;
  playHistory_gameStartTime : string
}.

(** The requests only [init()] issues. *)
Inductive StartupCall :=
| GetBulletToken
| GetHistoryRecords
| GetConfigureAnalytics
| GetCurrentFest
| GetFriends.

#[export] Instance StartupCall_eq_dec : EqDecision StartupCall.
Proof. solve_decision. Defined.

(** The replies to the k-th request of each of these kinds
    ([getBulletToken] is given the four fields of the configuration),
    and the log of the start-up requests issued so far. *)
Record Startup := {
  token_replies :
    positive -> string -> option string -> bool -> nat ->
    Reply (SplatNet3Api * SavedBulletToken);
  history_replies : nat -> Reply HistoryRecords;
  analytics_replies : nat -> Reply unit;
  fest_replies : nat -> Reply unit;
  first_friends_replies : nat -> Reply FriendListResult;
  startup_calls : list StartupCall
}.

Definition started (c : StartupCall) (s : Startup) : nat :=
  count_occ StartupCall_eq_dec (startup_calls s) c.

Definition log_startup (c : StartupCall) (s : Startup) : Startup :=
  {| token_replies := token_replies s;
     history_replies := history_replies s;
     analytics_replies := analytics_replies s;
     fest_replies := fest_replies s;
     first_friends_replies := first_friends_replies s;
     startup_calls := c :: startup_calls s |}.

(** Methods that also issue start-up requests. *)
Definition MS (A : Type) : Type :=
  Startup -> World -> SplatNet3Monitor ->
  Completion A * Startup * World * SplatNet3Monitor.

Definition bindS {A B} (c : MS A) (k : A -> MS B) : MS B :=
  fun s w this =>
    match c s w this with
    | (Return a, s', w', this') => k a s' w' this'
    | (Throw e, s', w', this') => (Throw e, s', w', this')
    end.

Notation "x <~ c ;; k" := (bindS c (fun x => k))
  (at level 100, c at next level, right associativity).
Notation "c ~;; k" := (bindS c (fun _ => k))
  (at level 100, right associativity).

(** A method of the monitor, run where start-up requests are possible. *)
Definition liftS {A} (c : M A) : MS A :=
  fun s w this =>
    match c w this with
    | (r, w', this') => (r, s, w', this')
    end.

(** [await] a start-up request. *)
Definition await_startup {A} (c : StartupCall) (r : Reply A) : MS A :=
  fun s w this =>
    (match reply_result r with
     | inr a => Return a
     | inl e => Throw e
     end, log_startup c s, advance (reply_elapsed r) w, this).

(** [getBulletToken(storage, na_session_token, znc_proxy_url,
    allow_fetch_token)] of [common/auth/splatnet3]. *)
Definition getBulletToken (c : SplatNet3MonitorConfig) : MS (SplatNet3Api * SavedBulletToken) :=
  fun s w this =>
    await_startup GetBulletToken
      (token_replies s (storage c) (na_session_token c) (znc_proxy_url c)
         (allow_fetch_token c) (started GetBulletToken s)) s w this.

Definition getHistoryRecords (api : SplatNet3Api) : MS HistoryRecords :=
  fun s w this =>
    await_startup GetHistoryRecords (history_replies s (started GetHistoryRecords s)) s w this.

Definition getConfigureAnalytics (api : SplatNet3Api) : MS unit :=
  fun s w this =>
    await_startup GetConfigureAnalytics
      (analytics_replies s (started GetConfigureAnalytics s)) s w this.

Definition getCurrentFest (api : SplatNet3Api) : MS unit :=
  fun s w this =>
    await_startup GetCurrentFest (fest_replies s (started GetCurrentFest s)) s w this.

Definition getFriends (api : SplatNet3Api) : MS FriendListResult :=
  fun s w this =>
    await_startup GetFriends (first_friends_replies s (started GetFriends s)) s w this.

(** [this.splatnet!.<method>]: the client, or the [TypeError] of a call
    on [null]. *)
Definition splatnet_for (method : string) : MS SplatNet3Api :=
  api <~ liftS (read splatnet);;
  match api with
  | Some client => liftS (ret client)
  | None =>
      liftS (throw (TypeError ("Cannot read properties of null (reading '" +:+ method +:+ "')")))
  end.

(** [this.data!.version], the first argument of the log line of
    [init()]: the [TypeError] of a property read on [null] when no token
    is saved. *)
Definition data_version : MS string :=
  saved <~ liftS (read data);;
  match saved with
  | Some token => liftS (ret (token_version token))
  | None => liftS (throw (TypeError "Cannot read properties of null (reading 'version')"))
  end.

(** The statements of [init()] after its [try]/[catch]. The log line
    leaves nothing in the monitor, but its arguments are evaluated:
    [this.data!.version] throws when no token is saved; the members of
    [history] are read, and [toLocaleString()] returns for any date,
    valid or not. *)
Definition init_warm_up : MS unit :=
  client <~ splatnet_for "getHistoryRecords";;
  history <~ getHistoryRecords client;;
  client <~ splatnet_for "getConfigureAnalytics";;
  getConfigureAnalytics client ~;;
  client <~ splatnet_for "getCurrentFest";;
  getCurrentFest client ~;;
  version <~ data_version;;
  client <~ splatnet_for "getFriends";;
  friends <~ getFriends client;;
  liftS (assign (set_cached_friends (Some friends))) ~;;
  client <~ splatnet_for "getSchedules";;
  schedules <~ liftS (getSchedules client);;
  liftS (assign (set_cached_schedules (Some schedules))).

(** [init()]. The call [return this.init()] on a Retry verdict makes the
    method recursive without bound; [fuel] bounds the number of such
    calls, and [None] says that it did not suffice. *)
Fixpoint init (fuel : nat) (s : Startup) (w : World) (this : SplatNet3Monitor)
    : option (Completion unit * Startup * World * SplatNet3Monitor) :=
  match config this with
  | None => Some (liftS disable s w this)
  | Some c =>
      match getBulletToken c s w this with
      | (Return (client, token), s', w', this') =>
          Some (init_warm_up s' w' (set_data (Some token) (set_splatnet (Some client) this')))
      | (Throw err, s', w', this') =>
          match presence_handleError (discord_presence this') err with
          | RETRY =>
              match fuel with
              | O => None
              | S fuel' => init fuel' s' w' this'
              end
          | STOP => Some (liftS disable s' w' this')
          | IGNORE => Some (init_warm_up s' w' this')
          end
      end
  end.

(** What [getConfigFromArgv] reads of the command line arguments. *)
Record ArgumentsCamelCase := {
  splatnet3Monitor : bool;
  zncProxyUrl : option string;
  splatnet3AutoUpdateSession : bool
}.

(** [getConfigFromArgv(argv, storage, na_session_token)]. *)
Definition getConfigFromArgv (argv : ArgumentsCamelCase) (storage : positive)
    (na_session_token : string) : option SplatNet3MonitorConfig :=
  if negb (splatnet3Monitor argv) then None
  else
    Some {| storage := storage;
            na_session_token := na_session_token;
            znc_proxy_url := zncProxyUrl argv;
            allow_fetch_token := splatnet3AutoUpdateSession argv;
            config_friend_nsaid := None |}.

(** What [getConfigFromAppConfig] reads of the application's
    configuration. *)
Record DiscordPresenceExternalMonitorsConfiguration := {
  enable_splatnet3_monitoring : bool
}.

(** [getConfigFromAppConfig(config, storage, na_session_token)];
    [env_ZNC_PROXY_URL] is [process.env.ZNC_PROXY_URL]. *)
Definition getConfigFromAppConfig (env_ZNC_PROXY_URL : option string)
    (config : DiscordPresenceExternalMonitorsConfiguration) (storage : positive)
    (na_session_token : string) : option SplatNet3MonitorConfig :=
  if negb (enable_splatnet3_monitoring config) then None
  else
    Some {| storage := storage;
            na_session_token := na_session_token;
            znc_proxy_url := env_ZNC_PROXY_URL;
            allow_fetch_token := true;
            config_friend_nsaid := None |}.

(** ** Vocabulary for further properties *)

Section Slots.
Context {platform : Platform} {T : Type} {timed : Timed T}.

(** Consecutive slots with times that parse: each entry ends at the
    instant the next one starts. *)
Fixpoint contiguous (schedules : list T) : Prop :=
  match schedules with
  | [] => True
  | schedule :: rest =>
      (exists s e,
         Date_getTime (startTime schedule) = Some s /\
         Date_getTime (endTime schedule) = Some e) /\
      match rest with
      | [] => True
      | next :: _ =>
          Date_getTime (endTime schedule) = Date_getTime (startTime next) /\
          contiguous rest
      end
  end.

End Slots.

(** The characters that delimit the parts of a query string. *)
Definition separator (c : ascii) : bool :=
  Ascii.eqb c "&" || Ascii.eqb c "=" || Ascii.eqb c "#" || Ascii.eqb c "?" ||
  Ascii.eqb c " ".

(** The modes and mode ids the builder has a name for. *)
Definition named_modes : list string := ["REGULAR"; "BANKARA"; "FEST"; "LEAGUE"; "X_MATCH"].
Definition named_ids : list string := ["VnNNb2RlLTI="; "VnNNb2RlLTUx"].

(** The two co-op states, and the two VS states. *)
Definition coop_state (s : FriendOnlineState) : bool :=
  match s with
  | COOP_MODE_MATCHING | COOP_MODE_FIGHTING => true
  | _ => false
  end.

Definition vs_state (s : FriendOnlineState) : bool :=
  match s with
  | VS_MODE_MATCHING | VS_MODE_FIGHTING => true
  | _ => false
  end.

Fixpoint string_forallb (p : ascii -> bool) (s : string) : bool :=
  match s with
  | EmptyString => true
  | String c rest => p c && string_forallb p rest
  end.

(** The friends list a cycle of [update()] searches: the cached one, or
    the one the awaited request settles to. *)
Definition friends_used (w : World) (this : SplatNet3Monitor) : option FriendListResult :=
  match cached_friends this, splatnet this with
  | Some friends, _ => Some friends
  | None, Some _ =>
      match reply_result (next_friends w) with
      | inr friends => Some friends
      | inl _ => None
      end
  | None, None => None
  end.

(** The id of the friend node the monitor tracks. *)
Definition tracked_id (this : SplatNet3Monitor) : string :=
  JS.base64 ("Friend-" +:+ JS.to_string (friend_nsaid this)).

(** The fields of an activity the builder does not write. *)
Definition untouched (before after : Presence) : Prop :=
  state after = state before /\
  startTimestamp after = startTimestamp before /\
  endTimestamp after = endTimestamp before /\
  partyId after = partyId before /\
  partySize after = partySize before /\
  partyMax after = partyMax before /\
  buttons after = buttons before.

(** The position of a character in a string, counted from [i]; past
    the end when the character does not occur. *)
Fixpoint index_from (c : ascii) (s : string) (i : N) : N :=
  match s with
  | EmptyString => i
  | String c' rest => if Ascii.eqb c c' then i else index_from c rest (i + 1)
  end.

(** The value of a base64 digit: its position in the alphabet. *)
Definition base64_index (c : ascii) : N := index_from c JS.base64_alphabet 0.

(** ** More concrete inputs *)

Module Cases.
Import Sample.

(** 07:00:00 and 08:00:00 of 21 September 2022, in milliseconds. *)
Definition at_07_00 : Z := 1663743600000.
Definition at_08_00 : Z := 1663747200000.

(** An entry whose start time is not a date. *)
Definition regular_soon : RegularSchedule :=
  {| regular_startTime := "soon";
     regular_endTime := "2022-09-21T06:00:00Z";
     regularMatchSetting := None |}.

(** The test that drops the entries that ended before [now]. *)
Definition not_ended (now : Z) (schedule : RegularSchedule) : bool :=
  negb (JS.lt (Date_getTime (endTime schedule)) now).

Definition fetch_error : Error :=
  {| error_name := "FetchError"; error_message := "request to SplatNet 3 failed" |}.

Definition http_error : Error :=
  {| error_name := "ErrorResponse"; error_message := "401 Unauthorized" |}.

(** A world in which every request to SplatNet 3 fails. *)
Definition world_down (now : Z) : World :=
  {| clock := now;
     ticks := fun _ => 1;
     friends_replies := fun _ => {| reply_elapsed := 250; reply_result := inl fetch_error |};
     schedules_replies := fun _ => {| reply_elapsed := 300; reply_result := inl fetch_error |};
     calls := [];
     readings := [] |}.

(** A monitor that was never authenticated. *)
Definition fresh_monitor : SplatNet3Monitor :=
  set_data None (set_splatnet None (monitor None None)).

(** The same with the early schedules cached. *)
Definition clientless_monitor : SplatNet3Monitor :=
  set_splatnet None (monitor (Some schedules_early) None).

(** A monitor after a cycle at 05:30:00 that found the friend fighting
    an Anarchy Battle (Open). *)
Definition open_monitor : SplatNet3Monitor :=
  (cycle at_05_30 fighting_open (Some schedules_early)).2.

(** A private battle, for which the builder has no name. *)
Definition private_battle : VsMode :=
  {| vsMode_id := "VnNNb2RlLTU="; vsMode_mode := "PRIVATE"; vsMode_name := "Private Battle" |}.

Definition private_monitor : SplatNet3Monitor :=
  (cycle at_05_30 (friend_in VS_MODE_MATCHING (Some private_battle)) (Some schedules_early)).2.

(** A monitor after a cycle at 09:00:00 that found the friend in a
    Salmon Run shift. *)
Definition coop_monitor : SplatNet3Monitor :=
  (cycle at_09_00 (friend_in COOP_MODE_FIGHTING None) (Some schedules_late)).2.

(** A regular entry whose setting lists one stage only, and a monitor
    that has selected it for a friend in a Regular Battle. *)
Definition regular_one_stage : RegularSchedule :=
  {| regular_startTime := "2022-09-21T04:00:00Z";
     regular_endTime := "2022-09-21T06:00:00Z";
     regularMatchSetting :=
       Some {| vsStages := [scorch_gorge]; vsRule := {| vsRule_name := "Turf War" |} |} |}.

Definition regular_battle : VsMode :=
  {| vsMode_id := "VnNNb2RlLTE="; vsMode_mode := "REGULAR"; vsMode_name := "Regular Battle" |}.

Definition one_stage_monitor : SplatNet3Monitor :=
  set_regular_schedule (Some regular_one_stage)
    (set_friend (Some (friend_in VS_MODE_FIGHTING (Some regular_battle)))
       (monitor None None)).

(** The start-up replies: the first [failures] token requests fail with
    [error], every other request succeeds. *)
Definition startup (failures : nat) (error : Error) : Startup :=
  {| token_replies :=
       fun _ _ _ _ k =>
         if (k <? failures)%nat
         then {| reply_elapsed := 100; reply_result := inl error |}
         else {| reply_elapsed := 400;
                 reply_result := inr (SplatNet3Client, {| token_version := "1.0.0-5e2bcdfb" |}) |};
     history_replies :=
       fun _ =>
         {| reply_elapsed := 200;
            reply_result :=
              inr {| currentPlayer_name := "Marie";
                     currentPlayer_nameId := "1234";
                     currentPlayer_byname := "Splatlandian Youth";
                     playHistory_gameStartTime := "2022-09-09T00:00:00Z" |} |};
     analytics_replies := fun _ => {| reply_elapsed := 50; reply_result := inr tt |};
     fest_replies := fun _ => {| reply_elapsed := 50; reply_result := inr tt |};
     first_friends_replies :=
       fun _ => {| reply_elapsed := 250;
                   reply_result := inr {| friends_nodes := [fighting_open] |} |};
     startup_calls := [] |}.

(** An owner that ignores every error. *)
Definition lenient_presence : ExternalMonitorPresenceInterface :=
  {| presence_handleError := fun _ => IGNORE; presence_user := Some nsaid |}.

Definition lenient_monitor : SplatNet3Monitor :=
  {| config := Some configuration;
     discord_presence := lenient_presence;
     splatnet := None;
     data := None;
     cached_friends := None;
     cached_schedules := None;
     friend := None;
     regular_schedule := None;
     anarchy_schedule := None;
     fest_schedule := None;
     league_schedule := None;
     x_schedule := None;
     coop_schedule := None;
     loop_disabled := false;
     loop_skip_interval := false |}.

Definition argv_on : ArgumentsCamelCase :=
  {| splatnet3Monitor := true; zncProxyUrl := None; splatnet3AutoUpdateSession := true |}.

Definition argv_proxy : ArgumentsCamelCase :=
  {| splatnet3Monitor := true;
     zncProxyUrl := Some "https://nxapi.example/api/znc";
     splatnet3AutoUpdateSession := true |}.

Definition token : string := "eyJhbGciOiJIUzI1NiJ9".

(** A world in which the friends requests succeed and the schedules
    requests fail. *)
Definition world_schedules_down (now : Z) (f : Friend) : World :=
  {| clock := now;
     ticks := fun _ => 1;
     friends_replies :=
       fun _ => {| reply_elapsed := 250; reply_result := inr {| friends_nodes := [f] |} |};
     schedules_replies := fun _ => {| reply_elapsed := 300; reply_result := inl fetch_error |};
     calls := [];
     readings := [] |}.

(** A second friend, online, and a world whose friends list holds both. *)
Definition other_friend : Friend :=
  {| friend_id := JS.base64 ("Friend-" +:+ other_nsaid); onlineState := ONLINE; vsMode := None |}.

Definition world_two_friends (now : Z) : World :=
  {| clock := now;
     ticks := fun _ => 1;
     friends_replies :=
       fun _ => {| reply_elapsed := 250;
                   reply_result := inr {| friends_nodes := [fighting_open; other_friend] |} |};
     schedules_replies :=
       fun _ => {| reply_elapsed := 300; reply_result := inr schedules_late |};
     calls := [];
     readings := [] |}.

(** [open_monitor] told to track the second friend. *)
Definition retargeted_monitor : SplatNet3Monitor :=
  (onUpdateConfig (Some (configuration_for (Some other_nsaid)))
     (world_two_friends at_05_30) open_monitor).2.

Definition context_with (this : SplatNet3Monitor) : option DiscordPresenceContext :=
  Some {| monitors := Some [IsSplatNet3Monitor this] |}.

(** A cycle started at 06:00:00.000, the instant of a rotation, on a
    monitor that holds the friends list and the early schedules: no
    request is awaited, and a millisecond passes after every reading of
    the clock. *)
Definition rotation_cycle : Completion unit * World * SplatNet3Monitor :=
  update (world at_06_00 fighting_open schedules_late)
    (monitor (Some schedules_early) (Some {| friends_nodes := [fighting_open] |})).

End Cases.

(** * Properties *)

(** ** Schedule selection *)

Section GetScheduleFacts.
Context {platform : Platform} {T : Type} {timed : Timed T}.

Lemma getSchedule_cons (now : Z) (schedule : T) (rest : list T) :
  getSchedule now (schedule :: rest) =
  if selectable now schedule then Some schedule else getSchedule now rest.
Proof.
  unfold selectable. simpl.
  destruct (JS.ge _ now); [reflexivity |].
  destruct (JS.lt _ now); reflexivity.
Qed.

Lemma getSchedule_find (now : Z) (schedules : list T) :
  getSchedule now schedules = List.find (selectable now) schedules.
Proof.
  induction schedules as [| schedule rest IH]; [reflexivity |].
  rewrite getSchedule_cons. simpl. rewrite IH. reflexivity.
Qed.

Lemma selectable_active (now : Z) (schedule : T) :
  selectable now schedule = true <-> active now schedule.
Proof.
  unfold selectable, active, JS.ge, JS.lt.
  destruct (Date_getTime (startTime schedule)) as [s |],
    (Date_getTime (endTime schedule)) as [e |]; simpl;
    rewrite ?andb_true_iff, ?negb_true_iff, ?Z.leb_gt, ?Z.ltb_ge;
    (split; [intros Hg; split; intros ? [= <-]; lia
            | intros [Hs He]; repeat split;
              try (specialize (Hs _ eq_refl)); try (specialize (He _ eq_refl));
              try lia]).
Qed.

Lemma getSchedule_Some (now : Z) (schedules : list T) (schedule : T) :
  getSchedule now schedules = Some schedule ->
  In schedule schedules /\ active now schedule.
Proof.
  rewrite getSchedule_find. intros Hfind.
  apply find_some in Hfind as [Hin Hsel].
  split; [assumption | now apply selectable_active].
Qed.

Lemma getSchedule_None (now : Z) (schedules : list T) :
  getSchedule now schedules = None <->
  forall schedule, In schedule schedules -> ~ active now schedule.
Proof.
  rewrite getSchedule_find. split.
  - intros Hfind schedule Hin Hact.
    apply selectable_active in Hact.
    pose proof (find_none _ _ Hfind _ Hin) as Hsel. congruence.
  - intros Hnone.
    destruct (find (selectable now) schedules) as [schedule |] eqn:Hfind; [| reflexivity].
    apply find_some in Hfind as [Hin Hsel].
    apply selectable_active in Hsel. now destruct (Hnone _ Hin).
Qed.

Lemma getSchedule_only_active (now : Z) (schedules : list T) (schedule : T) :
  only_active now schedules schedule ->
  getSchedule now schedules = Some schedule.
Proof.
  intros (Hin & Hact & Huniq).
  destruct (getSchedule now schedules) as [other |] eqn:Hget.
  - apply getSchedule_Some in Hget as [Hin' Hact'].
    f_equal. now apply Huniq.
  - rewrite getSchedule_None in Hget. now destruct (Hget _ Hin).
Qed.

(** C1 (as amended). [getSchedule] returns the first entry, in input
    order, that is active at [now]: its start time lies strictly before
    [now] and its end time is not before [now] (the interval
    [(start, end]]; a time that does not parse excludes nothing). It
    returns [null] exactly when no entry is active. *)
Theorem getSchedule_first_active (now : Z) (schedules : list T) :
  match getSchedule now schedules with
  | Some schedule =>
      exists before after,
        schedules = (before ++ schedule :: after)%list /\
        active now schedule /\
        Forall (fun earlier => ~ active now earlier) before
  | None => Forall (fun schedule => ~ active now schedule) schedules
  end.
Proof.
  induction schedules as [| schedule rest IH]; [simpl; constructor |].
  rewrite getSchedule_cons.
  destruct (selectable now schedule) eqn:Hsel.
  - exists [], rest.
    split; [reflexivity | split; [now apply selectable_active | constructor]].
  - assert (~ active now schedule) as Hnot.
    { rewrite <- selectable_active. congruence. }
    destruct (getSchedule now rest) as [found |].
    + destruct IH as (before & after & -> & Hact & Hbefore).
      exists (schedule :: before), after.
      split; [reflexivity | split; [assumption | now constructor]].
    + now constructor.
Qed.

(** C2 (as amended). [getSchedule] does not order its input: it scans
    the entries in the order given. Two orderings of the same entries
    give the same selection whenever at most one entry of them is active
    at [now]. *)
Theorem getSchedule_permutation (now : Z) (l1 l2 : list T) :
  Permutation l1 l2 ->
  (forall a b, In a l1 -> In b l1 -> active now a -> active now b -> a = b) ->
  getSchedule now l1 = getSchedule now l2.
Proof.
  intros Hperm Huniq.
  destruct (getSchedule now l1) as [a |] eqn:H1.
  - apply getSchedule_Some in H1 as [Hin Hact].
    symmetry. apply getSchedule_only_active. split; [| split].
    + now apply (Permutation_in _ Hperm).
    + assumption.
    + intros other Hin' Hact'.
      apply Huniq; try assumption.
      now apply (Permutation_in _ (Permutation_sym Hperm)).
  - symmetry. apply getSchedule_None. intros schedule Hin.
    rewrite getSchedule_None in H1. apply H1.
    now apply (Permutation_in _ (Permutation_sym Hperm)).
Qed.

(** C10. [getSchedule] is total: on the empty list it returns [null],
    and on any list it returns either [null] or an element of that
    list. *)
Theorem getSchedule_total (now : Z) (schedules : list T) :
  getSchedule now [] = None /\
  (getSchedule now schedules = None \/
   exists schedule, getSchedule now schedules = Some schedule /\ In schedule schedules).
Proof.
  split; [reflexivity |].
  destruct (getSchedule now schedules) as [schedule |] eqn:Hget; [right | now left].
  exists schedule. split; [reflexivity |].
  now apply getSchedule_Some in Hget.
Qed.

End GetScheduleFacts.

(** C1, refuted as stated: at 06:00:00, the instant one slot ends and
    the next begins, the first entry whose [[start, end)] contains the
    instant is the 06:00 to 08:00 slot, while [getSchedule] returns the
    04:00 to 06:00 slot. *)
Lemma getSchedule_not_first_containing :
  first_containing (platform := Sample.platform) Sample.at_06_00
    [Sample.regular_04_06; Sample.regular_06_08] = Some Sample.regular_06_08 /\
  getSchedule (platform := Sample.platform) Sample.at_06_00
    [Sample.regular_04_06; Sample.regular_06_08] = Some Sample.regular_04_06 /\
  Sample.regular_04_06 <> Sample.regular_06_08.
Proof. repeat split; [vm_compute; reflexivity .. | discriminate]. Qed.

(** C2, refuted as stated: at 05:30:00 two overlapping entries are both
    active, and the two orderings of them give different selections; the
    second ordering does not return the entry that starts first. *)
Lemma getSchedule_order_dependent :
  Permutation [Sample.regular_04_06; Sample.regular_05_07]
    [Sample.regular_05_07; Sample.regular_04_06] /\
  getSchedule (platform := Sample.platform) Sample.at_05_30
    [Sample.regular_04_06; Sample.regular_05_07] <>
  getSchedule (platform := Sample.platform) Sample.at_05_30
    [Sample.regular_05_07; Sample.regular_04_06].
Proof. split; [apply perm_swap | vm_compute; discriminate]. Qed.

(** C2 (as amended), at 05:30:00 on two consecutive slots. *)
Lemma getSchedule_permutation_witness :
  getSchedule (platform := Sample.platform) Sample.at_05_30
    [Sample.regular_04_06; Sample.regular_06_08] =
  getSchedule (platform := Sample.platform) Sample.at_05_30
    [Sample.regular_06_08; Sample.regular_04_06].
Proof.
  apply getSchedule_permutation; [apply perm_swap |].
  intros a b [<- | [<- | []]] [<- | [<- | []]] Ha Hb; try reflexivity;
    exfalso.
  - destruct Hb as [Hb _]. specialize (Hb _ eq_refl). vm_compute in Hb. discriminate.
  - destruct Ha as [Ha _]. specialize (Ha _ eq_refl). vm_compute in Ha. discriminate.
Defined.

(** ** The update cycle *)

Section UpdateFacts.
Context {platform : Platform}.

Ltac run_method :=
  cbv [update handleError onUpdateConfig select this_getSchedule nodes_or_empty
       bind ret throw read assign Date_now getSchedules getFriendsRefetch
       await_reply refreshPresence disable skipIntervalInCurrentLoop].

Ltac split_update :=
  repeat (cbn;
    match goal with
    | |- context [match cached_friends ?t with _ => _ end] =>
        destruct (cached_friends t) eqn:?
    | |- context [match splatnet ?t with _ => _ end] =>
        destruct (splatnet t) eqn:?
    | |- context [match reply_result ?r with _ => _ end] =>
        destruct (reply_result r) eqn:?
    | |- context [match getSchedule ?n ?l with _ => _ end] =>
        destruct (getSchedule n l) eqn:?
    end).

(** When a cycle returns, its last six readings of the clock are those
    of its six selections, and every selection is the one [getSchedule]
    makes at its own reading from the schedules the monitor then
    holds. *)
Lemma update_Return (w w' : World) (this this' : SplatNet3Monitor) :
  update w this = (Return tt, w', this') ->
  exists t, last_selections w' = Some t /\ selections_at t this'.
Proof.
  run_method. split_update; intros [= <- <-]; (eexists; split; [reflexivity |]);
    unfold selections_at; cbn.
  all: repeat split; try reflexivity; symmetry; assumption.
Qed.

(** No entry of an exhausted cache is selected. *)
Lemma exhausted_regular_miss (now : Z) (cached : option StageScheduleResult) :
  exhausted now cached ->
  getSchedule now (nodes_of regularSchedules cached) = None.
Proof.
  intros Hex. apply getSchedule_None. intros schedule Hin [_ Hend].
  destruct cached as [s |]; [| contradiction].
  destruct Hex as [Hregular _].
  rewrite List.Forall_forall in Hregular.
  destruct (Hregular _ Hin) as (e & Hparse & Hlt).
  specialize (Hend _ Hparse). lia.
Qed.

(** A cycle issues a schedules request only after a miss on the regular
    schedules: with an active regular entry, none is issued. *)
Lemma update_regular_hit (w : World) (this : SplatNet3Monitor) (r : RegularSchedule) :
  getSchedule (selection_clock w this) (nodes_of regularSchedules (cached_schedules this)) = Some r ->
  issued GetSchedules (update w this).1.2 = issued GetSchedules w.
Proof.
  unfold selection_clock, awaits_friends, next_friends. run_method.
  split_update; intros Hhit; try reflexivity; congruence.
Qed.

(** C3 (as amended). A cycle of [update()] never issues more than one
    schedules request. It issues exactly one if and only if the monitor
    holds its API client, the friends step does not throw, and the first
    selection, the one of the regular schedules, is empty; that
    selection is empty whenever the cached schedule set is exhausted (no
    cache, or every entry in the past). When the request was issued and
    the cycle returns, the monitor holds the fetched schedules, and all
    six selections it keeps, empty or not, were made from them, at the
    six readings of the clock that follow the one of the miss. *)
Theorem update_refetches_once (w w' : World) (this this' : SplatNet3Monitor)
    (r : Completion unit) :
  update w this = (r, w', this') ->
  (issued GetSchedules w' <= S (issued GetSchedules w))%nat /\
  (issued GetSchedules w' = S (issued GetSchedules w) <->
   is_Some (splatnet this) /\
   friends_settle w this /\
   getSchedule (selection_clock w this)
     (nodes_of regularSchedules (cached_schedules this)) = None) /\
  (exhausted (selection_clock w this) (cached_schedules this) ->
   getSchedule (selection_clock w this)
     (nodes_of regularSchedules (cached_schedules this)) = None) /\
  (issued GetSchedules w' = S (issued GetSchedules w) ->
   r = Return tt ->
   exists fetched t,
     reply_result (next_schedules w) = inr fetched /\
     cached_schedules this' = Some fetched /\
     readings w' = (logged t ++ selection_clock w this :: readings w)%list /\
     selections_at t this').
Proof.
  intros Hupdate.
  split; [| split; [| split; [apply exhausted_regular_miss |]]]; revert Hupdate.
  - run_method. split_update; intros [= <- <- <-]; unfold issued; cbn; lia.
  - unfold friends_settle, selection_clock, awaits_friends, next_friends.
    run_method.
    split_update; intros [= <- <- <-]; unfold issued; cbn; split.
    all: try (exfalso; congruence).
    all: try (intros Hcount; exfalso; lia).
    all: try (intros (Hapi & Hfriends & Hmiss);
              solve [ congruence
                    | destruct Hapi; congruence
                    | destruct (Hfriends eq_refl); congruence ]).
    all: try (intros _; reflexivity).
    all: intros _; (split; [eexists; reflexivity |]); (split; [| reflexivity]).
    all: first [intros _; eexists; reflexivity | intros [=]].
  - unfold selection_clock, awaits_friends, next_friends, next_schedules.
    run_method.
    split_update; intros [= <- <- <-]; unfold issued; cbn;
      intros Hcount Hr; try discriminate Hr; try (exfalso; lia).
    all: eexists _, {| regular_at := _ |}; (split; [first [eassumption | reflexivity] |]).
    all: (split; [reflexivity |]); (split; [reflexivity |]).
    all: unfold selections_at; cbn; repeat split; try reflexivity; symmetry; assumption.
Qed.

(** Without a cached friend the builder has nothing to enrich. *)
Lemma callback_no_friend (this : SplatNet3Monitor) (ms : list ExternalMonitor)
    (activity : Presence) (game : Game) :
  find_SplatNet3Monitor ms = Some this ->
  friend this = None ->
  callback activity game (Some {| monitors := Some ms |}) = Returned activity.
Proof.
  intros Hfind Hfriend. unfold callback. cbn. rewrite Hfind. cbn.
  now rewrite Hfriend.
Qed.

(** C5. [handleError] follows the owner's verdict. On Retry it returns
    the skip-interval result and the monitor and the world are
    untouched. On Stop it returns after disabling the loop and clearing
    the cached friend, so that the builder leaves every activity as it
    is, while the cached schedules and the six selections stay as they
    were. On any other verdict the friend is cleared and the loop runs
    on. *)
Theorem handleError_verdict (err : Error) (w : World) (this : SplatNet3Monitor) :
  match presence_handleError (discord_presence this) err with
  | RETRY => handleError err w this = (Return OK_SKIP_INTERVAL, w, this)
  | STOP =>
      exists w' this',
        handleError err w this = (Return OK, w', this') /\
        loop_disabled this' = true /\
        friend this' = None /\
        cached_schedules this' = cached_schedules this /\
        regular_schedule this' = regular_schedule this /\
        anarchy_schedule this' = anarchy_schedule this /\
        fest_schedule this' = fest_schedule this /\
        league_schedule this' = league_schedule this /\
        x_schedule this' = x_schedule this /\
        coop_schedule this' = coop_schedule this /\
        forall ms activity game,
          find_SplatNet3Monitor ms = Some this' ->
          callback activity game (Some {| monitors := Some ms |}) = Returned activity
  | IGNORE =>
      exists w' this',
        handleError err w this = (Return OK, w', this') /\
        loop_disabled this' = loop_disabled this /\
        friend this' = None
  end.
Proof.
  run_method.
  destruct (presence_handleError (discord_presence this) err); cbn.
  - eexists _, _. split; [reflexivity |]. cbn.
    repeat (split; [reflexivity |]).
    intros ms activity game Hfind.
    now apply (callback_no_friend _ _ _ _ Hfind).
  - reflexivity.
  - eexists _, _. split; [reflexivity |]. now cbn.
Qed.

End UpdateFacts.

(** ** Live reconfiguration *)

Section ConfigFacts.

Ltac run_config :=
  cbv [onUpdateConfig bind ret read assign skipIntervalInCurrentLoop strict_ne truthy].


(** C9. A new configuration that agrees with the stored one on
    [storage], [na_session_token], [znc_proxy_url] and
    [allow_fetch_token] and differs from it in [friend_nsaid] is
    accepted in place: [onUpdateConfig] returns [true], the monitor
    holds the new configuration, its [friend_nsaid] is the new one (or
    the presence user when the new one is absent), and a skip of the
    current interval is requested. *)
Theorem onUpdateConfig_friend_nsaid (old new : SplatNet3MonitorConfig)
    (w : World) (this : SplatNet3Monitor) :
  config this = Some old ->
  storage new = storage old ->
  na_session_token new = na_session_token old ->
  znc_proxy_url new = znc_proxy_url old ->
  allow_fetch_token new = allow_fetch_token old ->
  config_friend_nsaid new <> config_friend_nsaid old ->
  exists this',
    onUpdateConfig (Some new) w this = (Return true, w, this') /\
    config this' = Some new /\
    loop_skip_interval this' = true /\
    friend_nsaid this' =
      match config_friend_nsaid new with
      | Some nsaid => Some nsaid
      | None => presence_user (discord_presence this)
      end.
Proof.
  intros Hold Hstorage Htoken Hproxy Hallow _.
  run_config. rewrite Hold. cbn.
  rewrite Hstorage, Htoken, Hproxy, Hallow.
  rewrite !bool_decide_eq_true_2 by reflexivity. cbn.
  eexists. split; [reflexivity |]. now cbn.
Qed.

End ConfigFacts.

(** ** The activity builder *)

Section CallbackFacts.
Context {platform : Platform}.

(** C7. If the context holds no SplatNet 3 monitor, or the monitor has
    no cached friend, or the friend's online state is none of VS
    matching, VS fighting, co-op matching and co-op fighting, the
    builder returns with the activity it was given, every field as it
    was. *)
Theorem callback_leaves_activity (activity : Presence) (game : Game)
    (context : option DiscordPresenceContext) :
  match tracked_friend context with
  | None => True
  | Some f => enriched_state (onlineState f) = false
  end ->
  callback activity game context = Returned activity.
Proof.
  unfold tracked_friend, callback.
  destruct ((context ≫= monitors) ≫= find_SplatNet3Monitor) as [monitor |]; cbn;
    [| reflexivity].
  destruct (friend monitor) as [f |]; cbn; [| reflexivity].
  destruct (onlineState f); cbn; intros Hstate; try discriminate Hstate;
    reflexivity.
Qed.

Lemma mode_is_only (f : Friend) (a b : string) :
  mode_is f a = true -> a <> b -> mode_is f b = false.
Proof.
  unfold mode_is. intros Ha Hne.
  apply bool_decide_eq_true in Ha. apply bool_decide_eq_false.
  congruence.
Qed.

Lemma id_is_only (f : Friend) (a b : string) :
  id_is f a = true -> a <> b -> id_is f b = false.
Proof.
  unfold id_is. intros Ha Hne.
  apply bool_decide_eq_true in Ha. apply bool_decide_eq_false.
  congruence.
Qed.

(** With selections made at the readings [t], the setting the builder
    looks up is the one carried by the only entry of the friend's mode
    that is active at the reading of that mode's selection. *)
Lemma schedule_setting_scheduled (t : SelectionTimes) (this : SplatNet3Monitor)
    (cache : StageScheduleResult) (f : Friend) (s : MatchSetting) :
  selections_at t this ->
  cached_schedules this = Some cache ->
  scheduled_setting t cache f s ->
  schedule_setting this f = Some s.
Proof.
  intros (Hregular & Hanarchy & _ & Hleague & Hx & _) Hcache Hs.
  rewrite Hcache in *. cbn in *. unfold schedule_setting.
  destruct Hs as [P Hmode Hactive Hset | P Hmode Hid Hactive Hset
                 | P Hmode Hid Hactive Hset | P Hmode Hactive Hset
                 | P Hmode Hactive Hset];
    apply getSchedule_only_active in Hactive.
  - rewrite Hmode, Hregular, Hactive. exact Hset.
  - rewrite (mode_is_only _ _ "REGULAR" Hmode), Hmode, Hid by discriminate.
    rewrite Hanarchy, Hactive. exact Hset.
  - rewrite (mode_is_only _ _ "REGULAR" Hmode), Hmode by discriminate.
    rewrite (id_is_only _ _ "VnNNb2RlLTI=" Hid), Hid by discriminate.
    rewrite Hanarchy, Hactive. exact Hset.
  - rewrite (mode_is_only _ _ "REGULAR" Hmode), (mode_is_only _ _ "BANKARA" Hmode),
      (mode_is_only _ _ "FEST" Hmode), Hmode by discriminate.
    rewrite Hleague, Hactive. exact Hset.
  - rewrite (mode_is_only _ _ "REGULAR" Hmode), (mode_is_only _ _ "BANKARA" Hmode),
      (mode_is_only _ _ "FEST" Hmode), (mode_is_only _ _ "LEAGUE" Hmode), Hmode
      by discriminate.
    rewrite Hx, Hactive. exact Hset.
Qed.

(** The Splatfest branch looks up the regular selection, and no branch
    reads [fest_schedule]. *)
Lemma schedule_setting_fest (monitor : SplatNet3Monitor) (f : Friend) :
  mode_is f "FEST" = true ->
  schedule_setting monitor f = regular_schedule monitor ≫= regularMatchSetting.
Proof.
  intros Hmode. unfold schedule_setting.
  now rewrite (mode_is_only _ _ "REGULAR" Hmode), (mode_is_only _ _ "BANKARA" Hmode),
    Hmode by discriminate.
Qed.

Lemma schedule_setting_set_fest_schedule (v : option FestSchedule)
    (monitor : SplatNet3Monitor) (f : Friend) :
  schedule_setting (set_fest_schedule v monitor) f = schedule_setting monitor f.
Proof. reflexivity. Qed.

(** The details line the VS branch writes, whether or not the images
    that follow can be built. *)
Lemma enrich_vs_details (monitor : SplatNet3Monitor) (f : Friend) (vs : VsMode)
    (s : MatchSetting) (activity : Presence) :
  schedule_setting monitor f = Some s ->
  details (activity_of (enrich_vs monitor f vs activity)) = Some (details_with_rule f vs s).
Proof.
  intros Hs. unfold enrich_vs, details_with_rule. rewrite Hs.
  destruct (vsStages s) as [| a [| b rest]]; reflexivity.
Qed.

Lemma callback_vs (monitor : SplatNet3Monitor) (ms : list ExternalMonitor)
    (f : Friend) (vs : VsMode) (activity : Presence) (game : Game) :
  find_SplatNet3Monitor ms = Some monitor ->
  friend monitor = Some f ->
  vsMode f = Some vs ->
  onlineState f = VS_MODE_MATCHING \/ onlineState f = VS_MODE_FIGHTING ->
  activity_of (callback activity game (Some {| monitors := Some ms |})) =
  activity_of (enrich_vs monitor f vs activity).
Proof.
  intros Hfind Hfriend Hvs Hstate. unfold callback. cbn.
  rewrite Hfind. cbn. rewrite Hfriend, Hvs.
  destruct Hstate as [-> | ->]; destruct (enrich_vs monitor f vs activity); reflexivity.
Qed.

(** C6 (as amended). After a cycle of [update()] that returns, let [t]
    be the readings of the clock at which the cycle made its six
    selections, each selection reading the clock for itself; let the
    friend the cycle found be in a VS state (matching or fighting) with
    a mode among regular, anarchy Series, anarchy Open, league and X
    battle, and let exactly one entry of that mode's schedules, as the
    monitor holds them, be active at the reading of that mode's
    selection, with match setting [s]. Then the builder, whenever it is
    called, writes the details line that names the rule of [s]. *)
Theorem callback_details_of_active_entry (w w' : World) (this this' : SplatNet3Monitor)
    (t : SelectionTimes) (cache : StageScheduleResult) (f : Friend) (vs : VsMode)
    (s : MatchSetting) (ms : list ExternalMonitor) (activity : Presence) (game : Game) :
  update w this = (Return tt, w', this') ->
  last_selections w' = Some t ->
  cached_schedules this' = Some cache ->
  friend this' = Some f ->
  vsMode f = Some vs ->
  onlineState f = VS_MODE_MATCHING \/ onlineState f = VS_MODE_FIGHTING ->
  scheduled_setting t cache f s ->
  find_SplatNet3Monitor ms = Some this' ->
  details (activity_of (callback activity game (Some {| monitors := Some ms |}))) =
  Some (details_with_rule f vs s).
Proof.
  intros Hupdate Htimes Hcache Hfriend Hvs Hstate Hs Hfind.
  rewrite (callback_vs _ _ _ _ _ _ Hfind Hfriend Hvs Hstate).
  apply enrich_vs_details.
  eapply schedule_setting_scheduled; [| exact Hcache | exact Hs].
  destruct (update_Return _ _ _ _ Hupdate) as (t' & Htimes' & Hsel).
  congruence.
Qed.

End CallbackFacts.

(** ** The model at concrete inputs *)

Section Evaluation.
Import Sample Cases.

Ltac active_at_sample :=
  split; intros ? [= <-]; vm_compute; first [reflexivity | discriminate].

(** C3 (as amended), at 09:00:00 on a monitor whose cached schedules all
    ended by 08:00:00: the cache is exhausted, the cycle returns after
    issuing one schedules request, and the monitor holds the fetched
    schedules, from which the six selections were made. *)
Lemma update_refetches_once_witness :
  exhausted (selection_clock world_09_00 stale_monitor) (cached_schedules stale_monitor) /\
  (update world_09_00 stale_monitor).1.1 = Return tt /\
  issued GetSchedules world_09_00 = 0%nat /\
  issued GetSchedules (update world_09_00 stale_monitor).1.2 = 1%nat /\
  cached_schedules (update world_09_00 stale_monitor).2 = Some schedules_late /\
  exists t,
    last_selections (update world_09_00 stale_monitor).1.2 = Some t /\
    selections_at t (update world_09_00 stale_monitor).2.
Proof.
  assert (exhausted (selection_clock world_09_00 stale_monitor)
            (cached_schedules stale_monitor)) as Hex.
  { cbn. repeat split; repeat constructor;
      eexists; (split; [reflexivity | vm_compute; reflexivity]). }
  assert (update world_09_00 stale_monitor =
          (Return tt, (update world_09_00 stale_monitor).1.2,
           (update world_09_00 stale_monitor).2)) as Hrun.
  { vm_compute. reflexivity. }
  destruct (update_refetches_once _ _ _ _ _ Hrun) as (_ & Hiff & Hmiss & Hreturn).
  assert (issued GetSchedules (update world_09_00 stale_monitor).1.2 =
          S (issued GetSchedules world_09_00)) as Hone.
  { apply Hiff. split; [eexists; reflexivity |].
    split; [intros _; eexists; reflexivity | exact (Hmiss Hex)]. }
  destruct (Hreturn Hone eq_refl) as (fetched & t & Hreply & Hcache & Hlog & Hsel).
  injection Hreply as <-.
  split; [exact Hex |]. split; [reflexivity |]. split; [reflexivity |].
  split; [exact Hone |]. split; [exact Hcache |].
  exists t. split; [| exact Hsel].
  unfold last_selections. rewrite Hlog. now destruct t.
Defined.

(** C3, refuted as stated. At 09:00:00 the monitor holds schedules that
    all ended by 08:00:00 and its friends request fails: the cycle
    throws, and this invocation issues no schedules request. At 07:00:00
    the monitor holds the early schedules, of which a regular entry is
    active while every league entry is in the past: the cycle returns
    with no league entry selected, and has issued no schedules
    request. *)
Lemma update_settles_without_refetch :
  exhausted (selection_clock (world_down at_09_00) stale_monitor)
    (cached_schedules stale_monitor) /\
  (update (world_down at_09_00) stale_monitor).1.1 = Throw fetch_error /\
  issued GetSchedules (update (world_down at_09_00) stale_monitor).1.2 = 0%nat /\
  Forall (in_the_past at_07_00) (leagueSchedules schedules_early) /\
  (cycle at_07_00 (friend_in ONLINE None) (Some schedules_early)).1.1 = Return tt /\
  regular_schedule (cycle at_07_00 (friend_in ONLINE None) (Some schedules_early)).2 =
    Some regular_06_08 /\
  league_schedule (cycle at_07_00 (friend_in ONLINE None) (Some schedules_early)).2 = None /\
  issued GetSchedules (cycle at_07_00 (friend_in ONLINE None) (Some schedules_early)).1.2 =
    0%nat.
Proof.
  split.
  { cbn. repeat split; repeat constructor;
      eexists; (split; [reflexivity | vm_compute; reflexivity]). }
  split; [vm_compute; reflexivity |]. split; [vm_compute; reflexivity |].
  split.
  { repeat constructor. eexists. split; [reflexivity | vm_compute; reflexivity]. }
  repeat split; vm_compute; reflexivity.
Qed.

(** C9, on a monitor that follows the presence user and is told to
    track another friend. *)
Lemma onUpdateConfig_friend_nsaid_witness :
  exists this',
    onUpdateConfig (Some (configuration_for (Some other_nsaid))) world_09_00 stale_monitor =
      (Return true, world_09_00, this') /\
    config this' = Some (configuration_for (Some other_nsaid)) /\
    loop_skip_interval this' = true /\
    friend_nsaid this' = Some other_nsaid.
Proof.
  apply (onUpdateConfig_friend_nsaid configuration
           (configuration_for (Some other_nsaid)) world_09_00 stale_monitor);
    try reflexivity.
  discriminate.
Defined.

(** C7, on a friend who is online and not in a match. *)
Lemma callback_leaves_activity_witness :
  callback blank splatoon3
    (context_of (cycle at_05_30 (friend_in ONLINE None) (Some schedules_early)).2) =
  Returned blank.
Proof. apply callback_leaves_activity. vm_compute. reflexivity. Defined.

(** C6, refuted as stated: the cycle runs at 05:59:30 and the builder
    is called at 06:00:10, the friend fighting an Anarchy Battle (Open).
    Of the cached anarchy entries exactly one is active at 06:00:10, the
    06:00 to 08:00 one; the details line names the rule of the Open
    setting of the 04:00 to 06:00 entry, cached and no longer active,
    and no rule of the active entry. *)
Lemma callback_details_of_ended_entry :
  (cycle at_05_59_30 fighting_open (Some schedules_early)).1.1 = Return tt /\
  friend (cycle at_05_59_30 fighting_open (Some schedules_early)).2 = Some fighting_open /\
  cached_schedules (cycle at_05_59_30 fighting_open (Some schedules_early)).2 =
    Some schedules_early /\
  only_active at_06_00_10 (bankaraSchedules schedules_early) bankara_06_08 /\
  details
    (activity_of
       (callback blank splatoon3
          (context_of (cycle at_05_59_30 fighting_open (Some schedules_early)).2))) =
    Some "Anarchy Battle (Open) - Tower Control" /\
  (fun s => vsRule_name (vsRule s)) <$> find_bankara OPEN bankara_04_06 =
    Some "Tower Control" /\
  Forall (fun s => mentions "Anarchy Battle (Open) - Tower Control"
                     (vsRule_name (bankara_vsRule s)) = false)
    (bankaraMatchSettings bankara_06_08).
Proof.
  split; [reflexivity |]. split; [reflexivity |]. split; [reflexivity |].
  split; [| split; [reflexivity | split; [reflexivity | repeat constructor]]].
  split; [right; now left |]. split; [active_at_sample |].
  intros other [<- | [<- | []]] [_ Hend]; [| reflexivity].
  exfalso. specialize (Hend _ eq_refl). vm_compute in Hend. now apply Hend.
Qed.

(** The explicit fall-through of the anarchy branch: with a mode id
    that is neither the Series nor the Open one, the details line names
    no rule of the one anarchy entry active at the reading of the
    anarchy selection. *)
Lemma callback_anarchy_other_id :
  friend (cycle at_05_30 fighting_other (Some schedules_early)).2 = Some fighting_other /\
  (anarchy_at <$> last_selections (cycle at_05_30 fighting_other (Some schedules_early)).1.2) =
    Some (at_05_30 + 251) /\
  only_active (at_05_30 + 251) (bankaraSchedules schedules_early) bankara_04_06 /\
  details
    (activity_of
       (callback blank splatoon3
          (context_of (cycle at_05_30 fighting_other (Some schedules_early)).2))) =
    Some "Anarchy Battle".
Proof.
  split; [reflexivity |]. split; [reflexivity |]. split; [| reflexivity].
  split; [now left |]. split; [active_at_sample |].
  intros other [<- | [<- | []]] [Hstart _]; [reflexivity |].
  exfalso. specialize (Hstart _ eq_refl). vm_compute in Hstart. discriminate.
Qed.

(** The Splatfest branch at 05:30:00 of a Splatfest: the cycle selects
    the one active fest entry, which carries a Turf War setting, and the
    details line names no rule, the builder having looked at the
    regular entry. *)
Lemma callback_splatfest_without_rule :
  (festMatchSetting <$> fest_schedule (cycle at_05_30 fighting_splatfest (Some schedules_splatfest)).2) =
    Some (Some (turf_war mahi_mahi wahoo_world)) /\
  details
    (activity_of
       (callback blank splatoon3
          (context_of (cycle at_05_30 fighting_splatfest (Some schedules_splatfest)).2))) =
    Some "Splatfest Battle".
Proof. split; reflexivity. Qed.

(** C6 (as amended), on a friend fighting an Anarchy Battle (Open) at
    05:30:00: the cycle reads the clock for the anarchy selection at
    05:30:00.251, and the details line names the rule of the Open setting
    of the 04:00 to 06:00 entry. *)
Lemma callback_details_of_active_entry_witness :
  (anarchy_at <$> last_selections (cycle at_05_30 fighting_open (Some schedules_early)).1.2) =
    Some (at_05_30 + 251) /\
  details
    (activity_of
       (callback blank splatoon3
          (context_of (cycle at_05_30 fighting_open (Some schedules_early)).2))) =
  Some "Anarchy Battle (Open) - Tower Control".
Proof.
  split; [reflexivity |].
  apply (callback_details_of_active_entry
           (world at_05_30 fighting_open schedules_late)
           (cycle at_05_30 fighting_open (Some schedules_early)).1.2
           (monitor (Some schedules_early) None)
           (cycle at_05_30 fighting_open (Some schedules_early)).2
           {| regular_at := at_05_30 + 250;
              anarchy_at := at_05_30 + 251;
              fest_at := at_05_30 + 252;
              league_at := at_05_30 + 253;
              x_at := at_05_30 + 254;
              coop_at := at_05_30 + 255 |}
           schedules_early fighting_open anarchy_open
           {| vsStages := [wahoo_world; mahi_mahi];
              vsRule := {| vsRule_name := "Tower Control" |} |});
    try reflexivity.
  - now right.
  - apply (scheduled_open _ _ _ _ bankara_04_06); try reflexivity.
    split; [now left |]. split; [active_at_sample |].
    intros other [<- | [<- | []]] [Hstart _]; [reflexivity |].
    exfalso. specialize (Hstart _ eq_refl). vm_compute in Hstart. discriminate.
Defined.

(** One cycle can straddle a rotation. Started at 06:00:00.000 it reads
    the clock at that instant for the regular selection and a
    millisecond later for the anarchy selection: it keeps the regular
    entry that ends at 06:00 together with the anarchy entry that starts
    at 06:00, which no single instant selects together, and the builder
    names the rule of the latter. *)
Lemma update_across_rotation :
  rotation_cycle.1.1 = Return tt /\
  last_selections rotation_cycle.1.2 =
    Some {| regular_at := at_06_00;
            anarchy_at := at_06_00 + 1;
            fest_at := at_06_00 + 2;
            league_at := at_06_00 + 3;
            x_at := at_06_00 + 4;
            coop_at := at_06_00 + 5 |} /\
  regular_schedule rotation_cycle.2 = Some regular_04_06 /\
  anarchy_schedule rotation_cycle.2 = Some bankara_06_08 /\
  details (activity_of (callback blank splatoon3 (context_of rotation_cycle.2))) =
    Some "Anarchy Battle (Open) - Clam Blitz" /\
  forall now, active now regular_04_06 -> active now bankara_06_08 -> False.
Proof.
  split; [vm_compute; reflexivity |]. split; [vm_compute; reflexivity |].
  split; [vm_compute; reflexivity |]. split; [vm_compute; reflexivity |].
  split; [vm_compute; reflexivity |].
  intros now [_ Hend] [Hstart _].
  assert (Date_getTime (endTime regular_04_06) = Some at_06_00) as He
    by (vm_compute; reflexivity).
  assert (Date_getTime (startTime bankara_06_08) = Some at_06_00) as Hs
    by (vm_compute; reflexivity).
  specialize (Hend _ He). specialize (Hstart _ Hs). lia.
Qed.

End Evaluation.

(** ** The tenant cache *)

Module TenantCacheFacts.
Import TenantCache.



















End TenantCacheFacts.

(** * Further properties of the monitor *)

(** ** More on schedule selection *)

Section GetScheduleMore.
Context {platform : Platform} {T : Type} {timed : Timed T}.

(** X1. On consecutive slots there is no gap: at every instant after
    the first slot starts and up to the instant the last one ends,
    [getSchedule] returns a slot, and that slot is active. *)
Theorem getSchedule_contiguous (now s e : Z) (schedules : list T) :
  contiguous schedules ->
  head schedules ≫= (fun first => Date_getTime (startTime first)) = Some s ->
  last schedules ≫= (fun final => Date_getTime (endTime final)) = Some e ->
  s < now <= e ->
  exists schedule,
    getSchedule now schedules = Some schedule /\ In schedule schedules /\ active now schedule.
Proof.
  revert s. induction schedules as [| schedule rest IH]; intros s Hcont Hhead Hlast Hnow;
    [discriminate |].
  cbn in Hhead.
  assert (forall found, getSchedule now (schedule :: rest) = Some found ->
          exists x, getSchedule now (schedule :: rest) = Some x /\
                    In x (schedule :: rest) /\ active now x) as Hfound.
  { intros found Hget. exists found. split; [exact Hget |].
    now apply getSchedule_Some. }
  rewrite getSchedule_cons in *.
  destruct (selectable now schedule) eqn:Hsel; [now apply (Hfound schedule) |].
  destruct Hcont as [(s' & e' & Hs' & He') Hrest].
  assert (s' = s) as -> by congruence.
  assert (e' < now) as Hpast.
  { unfold selectable in Hsel. rewrite Hs', He' in Hsel. cbn in Hsel.
    apply andb_false_iff in Hsel as [Hsel | Hsel]; apply negb_false_iff in Hsel; lia. }
  destruct rest as [| next rest'].
  - cbn in Hlast. rewrite He' in Hlast. injection Hlast as ->. lia.
  - destruct Hrest as [Hjoin Hcont'].
    destruct (IH e') as (x & Hget & Hin & Hact).
    + exact Hcont'.
    + cbn. now rewrite <- Hjoin.
    + exact Hlast.
    + lia.
    + exists x. split; [exact Hget |]. split; [now right | exact Hact].
Qed.

(** X2. Entries that are not active at [now] have no influence: from a
    list filtered by any test that keeps every active entry (such as
    dropping the entries that have ended), [getSchedule] selects what it
    selects from the whole list. *)
Theorem getSchedule_filter (now : Z) (keep : T -> bool) (schedules : list T) :
  (forall schedule, In schedule schedules -> active now schedule -> keep schedule = true) ->
  getSchedule now (List.filter keep schedules) = getSchedule now schedules.
Proof.
  induction schedules as [| schedule rest IH]; intros Hkeep; [reflexivity |].
  cbn [List.filter]. rewrite (getSchedule_cons now schedule rest).
  assert (getSchedule now (List.filter keep rest) = getSchedule now rest) as IH'.
  { apply IH. intros x Hin. apply Hkeep. now right. }
  destruct (selectable now schedule) eqn:Hsel.
  - rewrite (Hkeep schedule) by (now left || now apply selectable_active).
    now rewrite getSchedule_cons, Hsel.
  - destruct (keep schedule); [| exact IH'].
    now rewrite getSchedule_cons, Hsel.
Qed.

(** X3. A time that does not parse never excludes an entry: the first
    entry of a list is returned whenever its start time does not parse
    and its end time either does not parse or is not before [now]. *)
Theorem getSchedule_unparsed_start (now : Z) (schedule : T) (rest : list T) :
  Date_getTime (startTime schedule) = None ->
  (forall e, Date_getTime (endTime schedule) = Some e -> now <= e) ->
  getSchedule now (schedule :: rest) = Some schedule.
Proof.
  intros Hstart Hend. cbn. rewrite Hstart. cbn.
  destruct (Date_getTime (endTime schedule)) as [e |]; cbn; [| reflexivity].
  specialize (Hend e eq_refl).
  destruct (e <? now) eqn:Hlt; [lia | reflexivity].
Qed.

End GetScheduleMore.

(** ** More on the update cycle *)

Section UpdateMore.
Context {platform : Platform}.

Ltac run_cycle :=
  cbv [update select this_getSchedule nodes_or_empty bind ret throw read assign
       Date_now getSchedules getFriendsRefetch await_reply refreshPresence].

Ltac split_cycle :=
  repeat (cbn;
    match goal with
    | |- context [match cached_friends ?t with _ => _ end] =>
        destruct (cached_friends t) eqn:?
    | |- context [match splatnet ?t with _ => _ end] =>
        destruct (splatnet t) eqn:?
    | |- context [match reply_result ?r with _ => _ end] =>
        destruct (reply_result r) eqn:?
    | |- context [match getSchedule ?n ?l with _ => _ end] =>
        destruct (getSchedule n l) eqn:?
    end).

(** X4. A cycle issues a friends request exactly when it holds no cached
    friends and has a client, and it refreshes the presence exactly when
    it returns, once. *)
Theorem update_requests (w w' : World) (this this' : SplatNet3Monitor)
    (r : Completion unit) :
  update w this = (r, w', this') ->
  issued GetFriendsRefetch w' =
    (issued GetFriendsRefetch w + if awaits_friends this then 1 else 0)%nat /\
  issued RefreshPresence w' =
    (issued RefreshPresence w + match r with Return _ => 1 | Throw _ => 0 end)%nat.
Proof.
  unfold awaits_friends. run_cycle.
  split_cycle; intros [= <- <- <-]; unfold issued; cbn; split; lia.
Qed.

(** X5. A cycle leaves alone what it does not own: the configuration,
    the presence interface, the client, the saved token, and the state
    of the loop (it neither disables the loop nor asks to skip an
    interval), whether it returns or throws. *)
Theorem update_frame (w w' : World) (this this' : SplatNet3Monitor)
    (r : Completion unit) :
  update w this = (r, w', this') ->
  config this' = config this /\
  discord_presence this' = discord_presence this /\
  splatnet this' = splatnet this /\
  data this' = data this /\
  loop_disabled this' = loop_disabled this /\
  loop_skip_interval this' = loop_skip_interval this.
Proof.
  run_cycle. split_cycle; intros [= <- <- <-]; cbn; repeat split; congruence.
Qed.

(** X6. Past the friends step, the cached friends list has been used up
    ([cached_friends] is [null]), and the cached friend is exactly the
    outcome of the search: any friend the monitor holds is a node of the
    list searched whose id is the tracked id, and if the list has such a
    node the monitor holds a friend. *)
Theorem update_friend (w w' : World) (this this' : SplatNet3Monitor)
    (r : Completion unit) :
  friends_settle w this ->
  update w this = (r, w', this') ->
  cached_friends this' = None /\
  (forall f, friend this' = Some f ->
     friend_id f = tracked_id this /\
     exists friends, friends_used w this = Some friends /\ In f (friends_nodes friends)) /\
  (forall friends f,
     friends_used w this = Some friends ->
     In f (friends_nodes friends) ->
     friend_id f = tracked_id this ->
     is_Some (friend this')).
Proof.
  unfold friends_settle, friends_used, awaits_friends, next_friends, tracked_id.
  run_cycle. split_cycle; intros Hsettle [= <- <- <-]; cbn.
  all: try (destruct (Hsettle eq_refl) as [? [=]]; fail).
  all: (split; [reflexivity |]); split.
  all: try (intros ? [=]; fail).
  all: try (intros ? ? [=]; fail).
  all: try (intros found Hfound; apply find_some in Hfound as [Hin Hid];
            apply String.eqb_eq in Hid; split; [exact Hid |];
            eexists; split; [reflexivity | exact Hin]).
  all: intros friends found [= <-] Hin Hid;
    match goal with
    | |- is_Some (find ?p ?l) =>
        destruct (find p l) eqn:Hfind; [eexists; reflexivity |];
        pose proof (find_none _ _ Hfind _ Hin) as Hno; cbn in Hno;
        apply String.eqb_neq in Hno; contradiction
    end.
Qed.

(** X7. A friends request that fails aborts the cycle at once: the
    cycle throws that error, the monitor is exactly as it was (the
    cached friend and the selections included), and nothing else was
    issued. *)
Theorem update_friends_failure (w : World) (this : SplatNet3Monitor) (e : Error) :
  awaits_friends this = true ->
  reply_result (next_friends w) = inl e ->
  exists w',
    update w this = (Throw e, w', this) /\
    calls w' = GetFriendsRefetch :: calls w.
Proof.
  unfold awaits_friends, next_friends. run_cycle.
  destruct (cached_friends this); [discriminate |].
  destruct (splatnet this); [| discriminate].
  intros _ Hreply. cbn. rewrite Hreply. eexists. split; reflexivity.
Qed.

(** X8. A schedules request that fails leaves the monitor half updated:
    the cycle throws that error after it has replaced the friend and
    emptied the regular selection, while the other five selections and
    the cached schedules are those of the previous cycle, and the
    presence is not refreshed. *)
Theorem update_schedules_failure (w : World) (this : SplatNet3Monitor) (e : Error) :
  is_Some (splatnet this) ->
  friends_settle w this ->
  getSchedule (selection_clock w this)
    (nodes_of regularSchedules (cached_schedules this)) = None ->
  reply_result (next_schedules w) = inl e ->
  exists w' this',
    update w this = (Throw e, w', this') /\
    regular_schedule this' = None /\
    anarchy_schedule this' = anarchy_schedule this /\
    fest_schedule this' = fest_schedule this /\
    league_schedule this' = league_schedule this /\
    x_schedule this' = x_schedule this /\
    coop_schedule this' = coop_schedule this /\
    cached_schedules this' = cached_schedules this /\
    cached_friends this' = None /\
    issued RefreshPresence w' = issued RefreshPresence w.
Proof.
  unfold friends_settle, selection_clock, awaits_friends, next_friends, next_schedules.
  run_cycle. intros [api Hapi]. rewrite Hapi.
  split_cycle; intros Hsettle Hmiss Hreply.
  all: try (destruct (Hsettle eq_refl) as [? [=]]; fail).
  all: try congruence.
  all: unfold issued in *; cbn in *; try congruence.
  all: eexists _, _; split; [repeat f_equal; congruence |]; cbn;
    repeat split; reflexivity.
Qed.

(** X9. A monitor without a client issues no request at all. Its cycle
    returns exactly when the cached regular schedules hold an entry that
    is active at the first reading of the clock, the one of the regular
    selection; otherwise it throws the [TypeError] of calling
    [getSchedules] on [null], having read the clock once. Without cached
    friends it holds no friend afterwards. *)
Theorem update_without_client (w w' : World) (this this' : SplatNet3Monitor)
    (r : Completion unit) :
  splatnet this = None ->
  update w this = (r, w', this') ->
  issued GetFriendsRefetch w' = issued GetFriendsRefetch w /\
  issued GetSchedules w' = issued GetSchedules w /\
  (cached_friends this = None -> friend this' = None) /\
  match getSchedule (clock w) (nodes_of regularSchedules (cached_schedules this)) with
  | Some _ => r = Return tt
  | None =>
      r = Throw (TypeError "Cannot read properties of null (reading 'getSchedules')") /\
      readings w' = clock w :: readings w
  end.
Proof.
  intros Hnone. run_cycle. rewrite Hnone.
  split_cycle; intros [= <- <- <-]; unfold issued; cbn;
    repeat split; try reflexivity; try discriminate.
  all: rewrite ?Hnone in *; try discriminate.
Qed.

(** X10. With a regular entry active at the first reading of the clock,
    the cached schedules are kept: the cycle issues no schedules
    request, returns, and makes its six selections from the schedules it
    already held, each at a reading of the clock of its own, six
    readings in all. *)
Theorem update_regular_selected (w : World) (this : SplatNet3Monitor)
    (regular : RegularSchedule) :
  friends_settle w this ->
  getSchedule (selection_clock w this)
    (nodes_of regularSchedules (cached_schedules this)) = Some regular ->
  exists w' this' t,
    update w this = (Return tt, w', this') /\
    issued GetSchedules w' = issued GetSchedules w /\
    cached_schedules this' = cached_schedules this /\
    regular_schedule this' = Some regular /\
    readings w' = (logged t ++ readings w)%list /\
    regular_at t = selection_clock w this /\
    selections_at t this'.
Proof.
  unfold friends_settle, selection_clock, awaits_friends, next_friends, selections_at.
  run_cycle.
  split_cycle; intros Hsettle Hhit.
  all: try (destruct (Hsettle eq_refl) as [? [=]]; fail).
  all: try congruence.
  all: eexists _, _, {| regular_at := _ |}; split; [reflexivity |];
    unfold issued in *; cbn; repeat split; congruence.
Qed.

Lemma update_tracked (w w' : World) (this this' : SplatNet3Monitor)
    (r : Completion unit) (f : Friend) :
  friends_settle w this ->
  update w this = (r, w', this') ->
  friend this' = Some f ->
  friend_id f = tracked_id this.
Proof.
  unfold friends_settle, awaits_friends, next_friends, tracked_id.
  run_cycle. split_cycle; intros Hsettle [= <- <- <-]; cbn.
  all: try (destruct (Hsettle eq_refl) as [? [=]]; fail).
  all: try (intros [=]; fail).
  all: intros Hfound; apply find_some in Hfound as [_ Hid];
    now apply String.eqb_eq in Hid.
Qed.

Lemma update_Return_next (w w' : World) (this this' : SplatNet3Monitor) :
  update w this = (Return tt, w', this') ->
  cached_friends this' = None /\ splatnet this' = splatnet this.
Proof.
  run_cycle. split_cycle; intros [= <- <-]; cbn; split; congruence.
Qed.

Lemma update_friends_count (w w' : World) (this this' : SplatNet3Monitor)
    (r : Completion unit) :
  update w this = (r, w', this') ->
  issued GetFriendsRefetch w' =
    (issued GetFriendsRefetch w + if awaits_friends this then 1 else 0)%nat.
Proof.
  unfold awaits_friends. run_cycle.
  split_cycle; intros [= <- <- <-]; unfold issued; cbn; lia.
Qed.

(** X11. The cached friends list serves one cycle only: the cycle that
    follows a cycle that returned, on a monitor with a client, always
    issues exactly one friends request. *)
Theorem update_twice (w w1 w2 : World) (this this1 this2 : SplatNet3Monitor)
    (r : Completion unit) :
  is_Some (splatnet this) ->
  update w this = (Return tt, w1, this1) ->
  update w1 this1 = (r, w2, this2) ->
  issued GetFriendsRefetch w2 = S (issued GetFriendsRefetch w1).
Proof.
  intros [api Hapi] Hfirst Hsecond.
  apply update_Return_next in Hfirst as [Hcache Hclient].
  apply update_friends_count in Hsecond. rewrite Hsecond.
  unfold awaits_friends. rewrite Hcache, Hclient, Hapi. lia.
Qed.

End UpdateMore.

(** ** More on the activity builder *)

Section CallbackMore.
Context {platform : Platform}.

Lemma enrich_vs_untouched (monitor : SplatNet3Monitor) (f : Friend) (vs : VsMode)
    (activity : Presence) :
  untouched activity (activity_of (enrich_vs monitor f vs activity)).
Proof.
  unfold enrich_vs.
  destruct (schedule_setting monitor f) as [s |];
    [destruct (vsStages s) as [| a [| b more]] |];
    repeat split; reflexivity.
Qed.

Lemma enrich_coop_untouched (monitor : SplatNet3Monitor) (f : Friend) (activity : Presence) :
  untouched activity (activity_of (enrich_coop monitor f activity)).
Proof.
  unfold enrich_coop.
  destruct (coop_schedule monitor) as [coop |]; [| repeat split; reflexivity].
  destruct (URL_pathname _) as [pathname |]; [| repeat split; reflexivity].
  destruct (JS.match_prefix_rest _ pathname); repeat split; reflexivity.
Qed.

(** The builder as the sequence of its two branches. *)
Lemma callback_branches (monitor : SplatNet3Monitor) (ms : list ExternalMonitor)
    (f : Friend) (activity : Presence) (game : Game) :
  find_SplatNet3Monitor ms = Some monitor ->
  friend monitor = Some f ->
  callback activity game (Some {| monitors := Some ms |}) =
  match onlineState f, vsMode f with
  | (VS_MODE_MATCHING | VS_MODE_FIGHTING), Some vs => enrich_vs monitor f vs activity
  | (COOP_MODE_MATCHING | COOP_MODE_FIGHTING), _ => enrich_coop monitor f activity
  | _, _ => Returned activity
  end.
Proof.
  intros Hfind Hfriend. unfold callback.
  change ((Some {| monitors := Some ms |} ≫= monitors) ≫= find_SplatNet3Monitor)
    with (find_SplatNet3Monitor ms).
  rewrite Hfind, Hfriend.
  destruct (onlineState f), (vsMode f) as [vs |]; try reflexivity;
    destruct (enrich_vs monitor f vs activity); reflexivity.
Qed.

(** X12. The builder writes only the details line and the four image
    fields: whatever the monitors hold, and whether it returns or
    throws, the state line, the timestamps, the party fields and the
    buttons of the activity are as they were. *)
Theorem callback_frame (activity : Presence) (game : Game)
    (context : option DiscordPresenceContext) :
  state (activity_of (callback activity game context)) = state activity /\
  startTimestamp (activity_of (callback activity game context)) = startTimestamp activity /\
  endTimestamp (activity_of (callback activity game context)) = endTimestamp activity /\
  partyId (activity_of (callback activity game context)) = partyId activity /\
  partySize (activity_of (callback activity game context)) = partySize activity /\
  partyMax (activity_of (callback activity game context)) = partyMax activity /\
  buttons (activity_of (callback activity game context)) = buttons activity.
Proof.
  change (untouched activity (activity_of (callback activity game context))).
  unfold callback.
  destruct ((context ≫= monitors) ≫= find_SplatNet3Monitor) as [monitor |];
    [| repeat split; reflexivity].
  destruct (friend monitor) as [f |]; [| repeat split; reflexivity].
  pose proof (enrich_vs_untouched monitor f) as Hvs.
  pose proof (enrich_coop_untouched monitor f activity) as Hcoop.
  destruct (onlineState f), (vsMode f) as [vs |];
    try (repeat split; reflexivity); try exact Hcoop;
    specialize (Hvs vs activity);
    destruct (enrich_vs monitor f vs activity); exact Hvs.
Qed.

(** X13. The builder is idempotent: called again on the activity it has
    written, with the same monitors, it ends the same way with the same
    activity. *)
Theorem callback_idempotent (activity : Presence) (game : Game)
    (context : option DiscordPresenceContext) :
  callback (activity_of (callback activity game context)) game context =
  callback activity game context.
Proof.
  unfold callback.
  destruct ((context ≫= monitors) ≫= find_SplatNet3Monitor) as [monitor |];
    [| reflexivity].
  destruct (friend monitor) as [f |]; [| reflexivity].
  assert (forall vs, enrich_vs monitor f vs (activity_of (enrich_vs monitor f vs activity)) =
                     enrich_vs monitor f vs activity) as Hvs.
  { intros vs. unfold enrich_vs.
    destruct (schedule_setting monitor f) as [s |];
      [destruct (vsStages s) as [| a [| b more]] |]; reflexivity. }
  assert (enrich_coop monitor f (activity_of (enrich_coop monitor f activity)) =
          enrich_coop monitor f activity) as Hcoop.
  { unfold enrich_coop.
    destruct (coop_schedule monitor) as [coop |]; [| reflexivity].
    destruct (URL_pathname _) as [pathname |]; [| reflexivity].
    destruct (JS.match_prefix_rest _ pathname); reflexivity. }
  destruct (onlineState f), (vsMode f) as [vs |]; try reflexivity; try exact Hcoop.
  all: specialize (Hvs vs); destruct (enrich_vs monitor f vs activity) eqn:Hfirst;
    cbn [activity_of] in *; rewrite Hvs; reflexivity.
Qed.

(** X14. The builder throws in two situations only: in a VS state, when
    the match setting it looked up lists fewer than two stages; in a
    co-op state, when the image address of the selected co-op stage is
    not a valid URL. When it throws, the activity has already received
    its details line, and its image fields are as they were. *)
Theorem callback_throws (monitor : SplatNet3Monitor) (ms : list ExternalMonitor)
    (f : Friend) (activity : Presence) (game : Game) :
  find_SplatNet3Monitor ms = Some monitor ->
  friend monitor = Some f ->
  match callback activity game (Some {| monitors := Some ms |}) with
  | Threw e after =>
      is_Some (details after) /\
      largeImageKey after = largeImageKey activity /\
      largeImageText after = largeImageText activity /\
      smallImageKey after = smallImageKey activity /\
      smallImageText after = smallImageText activity /\
      ((vs_state (onlineState f) = true /\
        exists s, schedule_setting monitor f = Some s /\ (length (vsStages s) < 2)%nat) \/
       (coop_state (onlineState f) = true /\
        exists coop,
          coop_schedule monitor = Some coop /\
          URL_pathname (coopStage_image_url (coop_setting_coopStage coop)) = None))
  | Returned _ =>
      (vs_state (onlineState f) = true ->
       forall s, is_Some (vsMode f) -> schedule_setting monitor f = Some s ->
                 (2 <= length (vsStages s))%nat) /\
      (coop_state (onlineState f) = true ->
       forall coop, coop_schedule monitor = Some coop ->
                    is_Some (URL_pathname (coopStage_image_url (coop_setting_coopStage coop))))
  end.
Proof.
  intros Hfind Hfriend. rewrite (callback_branches _ _ _ _ _ Hfind Hfriend).
  assert (forall vs, vs_state (onlineState f) = true -> vsMode f = Some vs ->
            match enrich_vs monitor f vs activity with
            | Threw e after =>
                is_Some (details after) /\
                largeImageKey after = largeImageKey activity /\
                largeImageText after = largeImageText activity /\
                smallImageKey after = smallImageKey activity /\
                smallImageText after = smallImageText activity /\
                exists s, schedule_setting monitor f = Some s /\ (length (vsStages s) < 2)%nat
            | Returned _ =>
                forall s, schedule_setting monitor f = Some s -> (2 <= length (vsStages s))%nat
            end) as Hvs.
  { intros vs _ _. unfold enrich_vs.
    destruct (schedule_setting monitor f) as [s |];
      [destruct (vsStages s) as [| a [| b more]] eqn:Hstages |]; cbn [activity_of].
    - repeat (split; [first [reflexivity | eexists; reflexivity] |]).
      exists s. rewrite Hstages. split; [reflexivity | cbn; lia].
    - repeat (split; [first [reflexivity | eexists; reflexivity] |]).
      exists s. rewrite Hstages. split; [reflexivity | cbn; lia].
    - intros ? [= <-]. rewrite Hstages. cbn. lia.
    - intros ? [=]. }
  assert (coop_state (onlineState f) = true ->
          match enrich_coop monitor f activity with
          | Threw e after =>
              is_Some (details after) /\
              largeImageKey after = largeImageKey activity /\
              largeImageText after = largeImageText activity /\
              smallImageKey after = smallImageKey activity /\
              smallImageText after = smallImageText activity /\
              exists coop,
                coop_schedule monitor = Some coop /\
                URL_pathname (coopStage_image_url (coop_setting_coopStage coop)) = None
          | Returned _ =>
              forall coop, coop_schedule monitor = Some coop ->
                is_Some (URL_pathname (coopStage_image_url (coop_setting_coopStage coop)))
          end) as Hcoop.
  { intros _. unfold enrich_coop.
    destruct (coop_schedule monitor) as [coop |]; [| intros ? [=]].
    destruct (URL_pathname _) as [pathname |] eqn:Hurl.
    - destruct (JS.match_prefix_rest _ pathname); intros ? [= <-];
        rewrite Hurl; eexists; reflexivity.
    - cbn [activity_of].
      repeat (split; [first [reflexivity | eexists; reflexivity] |]).
      exists coop. split; [reflexivity | exact Hurl]. }
  destruct (onlineState f) eqn:Hstate, (vsMode f) as [vs |] eqn:Hmode; cbn [vs_state coop_state] in *.
  all: try (split; [intros [=] | intros [=]]; fail).
  all: try (split; [intros _ s [? [=]] | intros [=]]; fail).
  all: try (specialize (Hvs vs eq_refl eq_refl);
            destruct (enrich_vs monitor f vs activity);
            [split; [intros _ s _; apply Hvs | intros [=]]
            | destruct Hvs as (? & ? & ? & ? & ? & ?); repeat (split; [assumption |]);
              left; split; [reflexivity | assumption]]; fail).
  all: specialize (Hcoop eq_refl);
    destruct (enrich_coop monitor f activity);
    [split; [intros [=] | intros _; exact Hcoop]
    | destruct Hcoop as (? & ? & ? & ? & ? & ?); repeat (split; [assumption |]);
      right; split; [reflexivity | assumption]].
Qed.

Lemma strip_prefix_app (p rest : string) :
  JS.strip_prefix p (p +:+ rest) = Some rest.
Proof.
  induction p as [| c p IH]; [reflexivity |].
  simpl. now rewrite Ascii.eqb_refl.
Qed.

Lemma strip_prefix_Some (p s rest : string) :
  JS.strip_prefix p s = Some rest -> s = p +:+ rest.
Proof.
  revert s. induction p as [| c p IH]; intros s; simpl.
  - now intros [= ->].
  - destruct s as [| c' s]; [discriminate |].
    destruct (Ascii.eqb c c') eqn:Hc; [| discriminate].
    apply Ascii.eqb_eq in Hc as <-. intros Hrest. now rewrite (IH _ Hrest).
Qed.

(** X15. In a co-op state the details line is "Salmon Run", followed by
    " (matching)" while matching, whatever the schedules hold. With a
    selected co-op entry whose stage image has a path under
    [/resources/prod/], the large image becomes the same path under
    [https://splatoon3.ink/assets/splatnet/] and the large text names
    the stage; with a path elsewhere the large image and text are as
    they were. The small image fields are never written. *)
Theorem callback_coop (monitor : SplatNet3Monitor) (ms : list ExternalMonitor)
    (f : Friend) (coop : CoopSchedule) (pathname : string)
    (activity : Presence) (game : Game) :
  find_SplatNet3Monitor ms = Some monitor ->
  friend monitor = Some f ->
  coop_state (onlineState f) = true ->
  coop_schedule monitor = Some coop ->
  URL_pathname (coopStage_image_url (coop_setting_coopStage coop)) = Some pathname ->
  exists after,
    callback activity game (Some {| monitors := Some ms |}) = Returned after /\
    details after =
      Some ("Salmon Run" +:+
            match onlineState f with
            | COOP_MODE_MATCHING => " (matching)"
            | _ => EmptyString
            end) /\
    smallImageKey after = smallImageKey activity /\
    smallImageText after = smallImageText activity /\
    (forall rest,
       pathname = "/resources/prod/" +:+ rest ->
       rest <> EmptyString ->
       JS.has_line_terminator rest = false ->
       largeImageKey after = Some ("https://splatoon3.ink/assets/splatnet/" +:+ rest) /\
       largeImageText after =
         Some (coopStage_name (coop_setting_coopStage coop) +:+ " | " +:+ product)) /\
    ((forall rest, pathname <> "/resources/prod/" +:+ rest) ->
     largeImageKey after = largeImageKey activity /\
     largeImageText after = largeImageText activity).
Proof.
  intros Hfind Hfriend Hstate Hcoop Hurl.
  rewrite (callback_branches _ _ _ _ _ Hfind Hfriend).
  assert (exists after,
            enrich_coop monitor f activity = Returned after /\
            details after =
              Some ("Salmon Run" +:+
                    match onlineState f with
                    | COOP_MODE_MATCHING => " (matching)"
                    | _ => EmptyString
                    end) /\
            smallImageKey after = smallImageKey activity /\
            smallImageText after = smallImageText activity /\
            (forall rest,
               pathname = "/resources/prod/" +:+ rest ->
               rest <> EmptyString ->
               JS.has_line_terminator rest = false ->
               largeImageKey after = Some ("https://splatoon3.ink/assets/splatnet/" +:+ rest) /\
               largeImageText after =
                 Some (coopStage_name (coop_setting_coopStage coop) +:+ " | " +:+ product)) /\
            ((forall rest, pathname <> "/resources/prod/" +:+ rest) ->
             largeImageKey after = largeImageKey activity /\
             largeImageText after = largeImageText activity)) as Hgoal.
  { unfold enrich_coop. rewrite Hcoop, Hurl. unfold JS.match_prefix_rest.
    destruct (JS.strip_prefix "/resources/prod/" pathname) as [found |] eqn:Hstrip.
    - apply strip_prefix_Some in Hstrip as Hpath.
      destruct (negb (String.eqb found EmptyString) && negb (JS.has_line_terminator found))
        eqn:Hmatch; eexists; (split; [reflexivity |]); cbn [details smallImageKey smallImageText
          largeImageKey largeImageText set_details set_largeImageKey set_largeImageText];
        repeat (split; [reflexivity |]); split.
      + intros rest Hrest _ _. rewrite Hrest in Hstrip.
        rewrite strip_prefix_app in Hstrip. injection Hstrip as <-. split; reflexivity.
      + intros Hno. now destruct (Hno found).
      + intros rest Hrest Hne Hline. rewrite Hrest in Hstrip.
        rewrite strip_prefix_app in Hstrip. injection Hstrip as <-.
        rewrite Hline in Hmatch. apply String.eqb_neq in Hne. rewrite Hne in Hmatch.
        discriminate.
      + intros _. split; reflexivity.
    - eexists; (split; [reflexivity |]); cbn [details smallImageKey smallImageText
          largeImageKey largeImageText set_details];
        repeat (split; [reflexivity |]); split.
      + intros rest Hrest. rewrite Hrest, strip_prefix_app in Hstrip. discriminate.
      + intros _. split; reflexivity. }
  destruct (onlineState f), (vsMode f); try discriminate Hstate; exact Hgoal.
Qed.

Lemma form_encode_char (c : ascii) :
  (JS.form_safe c = true -> separator c = false) /\
  separator (JS.hex_digit (N_of_ascii c / 16)) = false /\
  separator (JS.hex_digit (N_of_ascii c mod 16)) = false.
Proof.
  destruct c as [[] [] [] [] [] [] [] []]; vm_compute; repeat split; congruence.
Qed.

Lemma form_encode_no_separator (s : string) :
  string_forallb (fun c => negb (separator c)) (JS.form_encode s) = true.
Proof.
  induction s as [| c s IH]; [reflexivity |].
  destruct (form_encode_char c) as (Hsafe & Hhigh & Hlow).
  cbn [JS.form_encode].
  destruct (JS.form_safe c); [| destruct (N_of_ascii c =? 32)%N];
    cbn [string_forallb]; rewrite ?IH, ?Hhigh, ?Hlow, ?Hsafe by reflexivity; reflexivity.
Qed.

(** X16. In a VS state, with a looked-up match setting that lists at
    least two stages, the builder returns; the large image is the
    [fancy.org.uk] address whose query carries the encoded ids of the
    first two stages as [a] and [b], and no character of an encoded id
    is a query delimiter ([&], [=], [#], [?] or a space); the large text
    lists the names of all the stages; the small image is the mode's
    and the small text the title of the details line. *)
Theorem callback_vs_images (monitor : SplatNet3Monitor) (ms : list ExternalMonitor)
    (f : Friend) (vs : VsMode) (s : MatchSetting) (a b : VsStage) (more : list VsStage)
    (activity : Presence) (game : Game) :
  find_SplatNet3Monitor ms = Some monitor ->
  friend monitor = Some f ->
  vs_state (onlineState f) = true ->
  vsMode f = Some vs ->
  schedule_setting monitor f = Some s ->
  vsStages s = a :: b :: more ->
  exists after,
    callback activity game (Some {| monitors := Some ms |}) = Returned after /\
    largeImageKey after =
      Some ("https://fancy.org.uk/api/nxapi/s3/image?a=" +:+ JS.form_encode (vsStage_id a) +:+
            "&b=" +:+ JS.form_encode (vsStage_id b) +:+ "&v=2022092104") /\
    string_forallb (fun c => negb (separator c)) (JS.form_encode (vsStage_id a)) = true /\
    string_forallb (fun c => negb (separator c)) (JS.form_encode (vsStage_id b)) = true /\
    largeImageText after =
      Some (JS.join "/" (map vsStage_name (a :: b :: more)) +:+ " | " +:+ product) /\
    smallImageKey after = mode_image f /\
    smallImageText after = Some (JS.nullish (mode_name f) (vsMode_name vs)).
Proof.
  intros Hfind Hfriend Hstate Hvs Hsetting Hstages.
  rewrite (callback_branches _ _ _ _ _ Hfind Hfriend), Hvs.
  assert (exists after,
            enrich_vs monitor f vs activity = Returned after /\
            largeImageKey after =
              Some ("https://fancy.org.uk/api/nxapi/s3/image?a=" +:+
                    JS.form_encode (vsStage_id a) +:+
                    "&b=" +:+ JS.form_encode (vsStage_id b) +:+ "&v=2022092104") /\
            largeImageText after =
              Some (JS.join "/" (map vsStage_name (a :: b :: more)) +:+ " | " +:+ product) /\
            smallImageKey after = mode_image f /\
            smallImageText after = Some (JS.nullish (mode_name f) (vsMode_name vs))) as Hgoal.
  { unfold enrich_vs. rewrite Hsetting, Hstages. eexists. split; [reflexivity |].
    cbn [largeImageKey largeImageText smallImageKey smallImageText
         set_details set_largeImageKey set_largeImageText set_smallImageKey
         set_smallImageText].
    split; [reflexivity | repeat split; reflexivity]. }
  destruct Hgoal as (after & Hrun & Hkey & Htext & Hsmall & Htitle).
  exists after. split.
  - destruct (onlineState f); try discriminate Hstate; exact Hrun.
  - repeat split; try assumption; apply form_encode_no_separator.
Qed.

(** X17. In a VS state with a mode the builder has no name for (its
    mode is none of the five it knows and its id none of the two anarchy
    ids, as for a private battle), the details line and the small text
    are the name the friend's mode carries, the small image is cleared,
    and the large image and text are as they were. *)
Theorem callback_unnamed_mode (monitor : SplatNet3Monitor) (ms : list ExternalMonitor)
    (f : Friend) (vs : VsMode) (activity : Presence) (game : Game) :
  find_SplatNet3Monitor ms = Some monitor ->
  friend monitor = Some f ->
  vs_state (onlineState f) = true ->
  vsMode f = Some vs ->
  ~ In (vsMode_mode vs) named_modes ->
  ~ In (vsMode_id vs) named_ids ->
  exists after,
    callback activity game (Some {| monitors := Some ms |}) = Returned after /\
    details after =
      Some (vsMode_name vs +:+
            match onlineState f with
            | VS_MODE_MATCHING => " (matching)"
            | _ => EmptyString
            end) /\
    smallImageKey after = None /\
    smallImageText after = Some (vsMode_name vs) /\
    largeImageKey after = largeImageKey activity /\
    largeImageText after = largeImageText activity.
Proof.
  intros Hfind Hfriend Hstate Hvs Hmode Hid.
  assert (forall m, In m named_modes -> mode_is f m = false) as Hmodes.
  { intros m Hin. unfold mode_is. rewrite Hvs. apply bool_decide_eq_false.
    intros [= Heq]. apply Hmode. now rewrite Heq. }
  assert (forall i, In i named_ids -> id_is f i = false) as Hids.
  { intros i Hin. unfold id_is. rewrite Hvs. apply bool_decide_eq_false.
    intros [= Heq]. apply Hid. now rewrite Heq. }
  assert (mode_name f = None) as Hname.
  { unfold mode_name. rewrite !Hmodes, !Hids by (cbn; tauto). reflexivity. }
  assert (mode_image f = None) as Himage.
  { unfold mode_image. rewrite !Hmodes by (cbn; tauto). reflexivity. }
  assert (schedule_setting monitor f = None) as Hsetting.
  { unfold schedule_setting. rewrite !Hmodes by (cbn; tauto). reflexivity. }
  rewrite (callback_branches _ _ _ _ _ Hfind Hfriend), Hvs.
  assert (exists after,
            enrich_vs monitor f vs activity = Returned after /\
            details after =
              Some (vsMode_name vs +:+
                    match onlineState f with
                    | VS_MODE_MATCHING => " (matching)"
                    | _ => EmptyString
                    end) /\
            smallImageKey after = None /\
            smallImageText after = Some (vsMode_name vs) /\
            largeImageKey after = largeImageKey activity /\
            largeImageText after = largeImageText activity) as Hgoal.
  { unfold enrich_vs. rewrite Hsetting, Hname, Himage. eexists. split; [reflexivity |].
    repeat split; reflexivity. }
  destruct (onlineState f); try discriminate Hstate; exact Hgoal.
Qed.

End CallbackMore.

(** ** Start-up *)

Section InitFacts.
Context {platform : Platform}.

Ltac run_warm_up :=
  cbv [init_warm_up data_version splatnet_for bindS liftS await_startup getHistoryRecords
       getConfigureAnalytics getCurrentFest getFriends getSchedules await_reply
       read ret throw assign disable].

Ltac split_warm_up :=
  repeat (cbn;
    match goal with
    | |- context [match splatnet ?t with _ => _ end] =>
        destruct (splatnet t) eqn:?
    | |- context [match data ?t with _ => _ end] =>
        destruct (data t) eqn:?
    | |- context [match reply_result ?r with _ => _ end] =>
        destruct (reply_result r) eqn:?
    end).

(** The statements after the [try]/[catch]: when they return, the
    monitor has a client and a saved token, and both caches are filled;
    they never issue a token request and never touch the client, the
    saved token or the state of the loop. *)
Lemma init_warm_up_spec (s s' : Startup) (w w' : World) (this this' : SplatNet3Monitor)
    (r : Completion unit) :
  init_warm_up s w this = (r, s', w', this') ->
  started GetBulletToken s' = started GetBulletToken s /\
  token_replies s' = token_replies s /\
  loop_disabled this' = loop_disabled this /\
  splatnet this' = splatnet this /\
  data this' = data this /\
  config this' = config this /\
  (r = Return tt ->
   is_Some (splatnet this') /\ is_Some (data this') /\
   is_Some (cached_friends this') /\ is_Some (cached_schedules this')).
Proof.
  run_warm_up. split_warm_up; intros [= <- <- <- <-]; cbn;
    repeat split; try reflexivity; try discriminate; try assumption;
    try congruence; try (intros _; repeat split).
  all: eexists; first [eassumption | reflexivity].
Qed.

(** With a client and no saved token, the log line throws: the three
    requests before it have been issued, the friends and the schedules
    are not requested, and the caches stay as they were. *)
Lemma init_warm_up_without_token (s : Startup) (w : World) (this : SplatNet3Monitor)
    (client : SplatNet3Api) (history : HistoryRecords) :
  splatnet this = Some client ->
  data this = None ->
  reply_result (history_replies s (started GetHistoryRecords s)) = inr history ->
  reply_result (analytics_replies s (started GetConfigureAnalytics s)) = inr tt ->
  reply_result (fest_replies s (started GetCurrentFest s)) = inr tt ->
  exists s' w',
    init_warm_up s w this =
      (Throw (TypeError "Cannot read properties of null (reading 'version')"), s', w', this) /\
    startup_calls s' =
      GetCurrentFest :: GetConfigureAnalytics :: GetHistoryRecords :: startup_calls s /\
    calls w' = calls w.
Proof.
  intros Hclient Hdata Hhistory Hanalytics Hfest. run_warm_up.
  unfold started in *.
  repeat (cbn; rewrite ?Hclient, ?Hhistory, ?Hanalytics, ?Hfest, ?Hdata).
  eexists _, _. repeat split.
Qed.

Lemma init_warm_up_without_client (s : Startup) (w : World) (this : SplatNet3Monitor) :
  splatnet this = None ->
  init_warm_up s w this =
  (Throw (TypeError "Cannot read properties of null (reading 'getHistoryRecords')"),
   s, w, this).
Proof. intros Hnone. run_warm_up. now rewrite Hnone. Qed.

Lemma getBulletToken_spec (c : SplatNet3MonitorConfig) (s : Startup) (w : World)
    (this : SplatNet3Monitor) :
  exists s' w',
    getBulletToken c s w this =
      (match reply_result
               (token_replies s (storage c) (na_session_token c) (znc_proxy_url c)
                  (allow_fetch_token c) (started GetBulletToken s)) with
       | inr a => Return a
       | inl e => Throw e
       end, s', w', this) /\
    token_replies s' = token_replies s /\
    started GetBulletToken s' = S (started GetBulletToken s).
Proof.
  eexists _, _. split; [reflexivity |]. split; [reflexivity |].
  unfold started. cbn. now destruct (StartupCall_eq_dec GetBulletToken GetBulletToken).
Qed.

(** X18. When [init()] returns and the loop is not disabled, the
    monitor is configured, holds a client, and both caches are filled;
    so the first cycle that follows issues no friends request. *)
Theorem init_enabled (fuel : nat) (s s' : Startup) (w w' : World)
    (this this' : SplatNet3Monitor) :
  init fuel s w this = Some (Return tt, s', w', this') ->
  loop_disabled this' = false ->
  is_Some (config this') /\
  is_Some (splatnet this') /\
  is_Some (cached_friends this') /\
  is_Some (cached_schedules this') /\
  forall r w2 this2,
    update w' this' = (r, w2, this2) ->
    issued GetFriendsRefetch w2 = issued GetFriendsRefetch w'.
Proof.
  intros Hinit Henabled.
  assert (is_Some (config this') /\ is_Some (splatnet this') /\
          is_Some (cached_friends this') /\ is_Some (cached_schedules this')) as Hwarm.
  { revert s w this Hinit.
    assert (forall s w this,
              is_Some (config this) ->
              init_warm_up s w this = (Return tt, s', w', this') ->
              is_Some (config this') /\ is_Some (splatnet this') /\
              is_Some (cached_friends this') /\ is_Some (cached_schedules this')) as Hrest.
    { intros s w this Hconfig Hrun.
      destruct (init_warm_up_spec _ _ _ _ _ _ _ Hrun) as (_ & _ & _ & _ & _ & Hsame & Hfull).
      split; [now rewrite Hsame |].
      destruct (Hfull eq_refl) as (Hclient & _ & Hfriends & Hschedules).
      now repeat split. }
    induction fuel as [| fuel IH]; intros s w this; cbn [init];
      (destruct (config this) as [c |] eqn:Hconfig;
       [| intros [= _ _ <-]; discriminate Henabled]);
      destruct (getBulletToken_spec c s w this) as (s1 & w1 & -> & _ & _);
      (destruct (reply_result _) as [err | [client token]];
       [destruct (presence_handleError (discord_presence this) err) |]).
    all: try (intros [= _ _ <-]; discriminate Henabled).
    all: try (intros [= Hrun]; eapply Hrest; [| exact Hrun]; cbn; rewrite ?Hconfig;
              eexists; reflexivity).
    apply IH. }
  destruct Hwarm as (Hconfig & Hclient & Hfriends & Hschedules).
  repeat (split; [assumption |]).
  intros r w2 this2 Hupdate.
  apply update_friends_count in Hupdate. rewrite Hupdate.
  unfold awaits_friends. destruct Hfriends as [friends ->]. lia.
Qed.

(** X19. [init()] retries a failed token request for as long as the
    owner says Retry: after [n] Retry verdicts in a row and a token reply
    that gets another verdict or succeeds, it has issued exactly [n + 1]
    token requests. It takes [n] nested calls to get there, and fewer do
    not suffice. *)
Theorem init_retries (n fuel : nat) (c : SplatNet3MonitorConfig) (s : Startup) (w : World)
    (this : SplatNet3Monitor) :
  config this = Some c ->
  (forall i, (i < n)%nat ->
     exists e,
       reply_result
         (token_replies s (storage c) (na_session_token c) (znc_proxy_url c)
            (allow_fetch_token c) (started GetBulletToken s + i)) = inl e /\
       presence_handleError (discord_presence this) e = RETRY) ->
  (forall e,
     reply_result
       (token_replies s (storage c) (na_session_token c) (znc_proxy_url c)
          (allow_fetch_token c) (started GetBulletToken s + n)) = inl e ->
     presence_handleError (discord_presence this) e <> RETRY) ->
  if (n <=? fuel)%nat
  then exists r s' w' this',
         init fuel s w this = Some (r, s', w', this') /\
         started GetBulletToken s' = (started GetBulletToken s + n + 1)%nat
  else init fuel s w this = None.
Proof.
  revert fuel s w. induction n as [| n IH]; intros fuel s w Hconfig Hretry Hlast.
  - cbn [Nat.leb]. rewrite Nat.add_0_r in Hlast.
    destruct fuel; cbn [init]; rewrite Hconfig;
      destruct (getBulletToken_spec c s w this) as (s1 & w1 & -> & _ & Hcount);
      (destruct (reply_result _) as [err | [client token]] eqn:Hreply;
       [specialize (Hlast err eq_refl);
        destruct (presence_handleError (discord_presence this) err);
        try congruence |]).
    all: try (eexists _, _, _, _; split; [reflexivity |]; cbn; lia).
    all: match goal with
         | |- context [init_warm_up ?a ?b ?d] =>
             destruct (init_warm_up a b d) as [[[r s2] w2] this2] eqn:Hrun;
             apply init_warm_up_spec in Hrun as (Htokens & _);
             eexists _, _, _, _; split; [reflexivity |]; lia
         end.
  - destruct (Hretry 0%nat) as (e & Hreply & Hverdict); [lia |].
    rewrite Nat.add_0_r in Hreply.
    destruct (getBulletToken_spec c s w this) as (s1 & w1 & Htoken & Hreplies & Hcount).
    rewrite Hreply in Htoken.
    destruct fuel as [| fuel]; cbn [init Nat.leb]; rewrite Hconfig, Htoken, Hverdict;
      [reflexivity |].
    specialize (IH fuel s1 w1 Hconfig).
    rewrite Hreplies, Hcount in IH.
    destruct (n <=? fuel)%nat.
    + destruct IH as (r & s' & w' & this' & Hinit & Hfinal).
      * intros i Hi. destruct (Hretry (S i)) as (e' & He' & Hv'); [lia |].
        exists e'. split; [| exact Hv'].
        now replace (S (started GetBulletToken s) + i)%nat
          with (started GetBulletToken s + S i)%nat by lia.
      * intros e'. replace (S (started GetBulletToken s) + n)%nat
          with (started GetBulletToken s + S n)%nat by lia. apply Hlast.
      * exists r, s', w', this'. split; [exact Hinit | lia].
    + apply IH.
      * intros i Hi. destruct (Hretry (S i)) as (e' & He' & Hv'); [lia |].
        exists e'. split; [| exact Hv'].
        now replace (S (started GetBulletToken s) + i)%nat
          with (started GetBulletToken s + S i)%nat by lia.
      * intros e'. replace (S (started GetBulletToken s) + n)%nat
          with (started GetBulletToken s + S n)%nat by lia. apply Hlast.
Qed.

(** X20. A failed token request that the owner neither retries nor
    stops on leaves a monitor without a client to run into the warm-up:
    [init()] throws the [TypeError] of calling [getHistoryRecords] on
    [null], having issued the token request only, and the monitor is as
    it was, its loop not disabled. *)
Theorem init_ignored_failure (fuel : nat) (c : SplatNet3MonitorConfig) (s : Startup)
    (w : World) (this : SplatNet3Monitor) (e : Error) :
  config this = Some c ->
  splatnet this = None ->
  reply_result
    (token_replies s (storage c) (na_session_token c) (znc_proxy_url c)
       (allow_fetch_token c) (started GetBulletToken s)) = inl e ->
  presence_handleError (discord_presence this) e = IGNORE ->
  exists s' w',
    init fuel s w this =
      Some (Throw (TypeError "Cannot read properties of null (reading 'getHistoryRecords')"),
            s', w', this) /\
    startup_calls s' = GetBulletToken :: startup_calls s /\
    calls w' = calls w.
Proof.
  intros Hconfig Hnone Hreply Hverdict.
  destruct fuel; cbn [init]; rewrite Hconfig;
    unfold getBulletToken, await_startup; rewrite Hreply, Hverdict;
    rewrite init_warm_up_without_client by exact Hnone;
    eexists _, _; (split; [reflexivity |]); split; reflexivity.
Qed.

End InitFacts.

(** ** More on reconfiguration *)

Section ConfigMore.
Context {platform : Platform}.

Ltac run_reconfig :=
  cbv [onUpdateConfig bind ret read assign skipIntervalInCurrentLoop strict_ne truthy].

Lemma onUpdateConfig_cases (config' : option SplatNet3MonitorConfig) (w : World)
    (this : SplatNet3Monitor) :
  (config_equivalent config' (config this) /\
   onUpdateConfig config' w this =
     (Return true, w, set_loop_skip_interval true (set_config config' this))) \/
  (~ config_equivalent config' (config this) /\
   onUpdateConfig config' w this = (Return false, w, this)).
Proof.
  run_reconfig.
  destruct config' as [new |], (config this) as [old |]; cbn;
    try (right; split; [tauto | reflexivity]);
    try (left; split; [exact I | reflexivity]).
  repeat case_bool_decide; cbn;
    try (right; split; [intros (? & ? & ? & ?); congruence | reflexivity]).
  left. split; [| reflexivity]. repeat split; congruence.
Qed.

(** X21. A reconfiguration, accepted or not, issues no request and
    leaves the cached friend, both caches and the six selections as
    they were; so until the next cycle the builder writes what it wrote
    before, also when the friend to track has changed. *)
Theorem onUpdateConfig_keeps_enrichment (config' : option SplatNet3MonitorConfig)
    (w w' : World) (this this' : SplatNet3Monitor) (r : Completion bool)
    (others : list ExternalMonitor) (activity : Presence) (game : Game) :
  onUpdateConfig config' w this = (r, w', this') ->
  w' = w /\
  friend this' = friend this /\
  cached_friends this' = cached_friends this /\
  cached_schedules this' = cached_schedules this /\
  callback activity game (Some {| monitors := Some (IsSplatNet3Monitor this' :: others) |}) =
  callback activity game (Some {| monitors := Some (IsSplatNet3Monitor this :: others) |}).
Proof.
  destruct (onUpdateConfig_cases config' w this) as [[_ ->] | [_ ->]];
    intros [= <- <- <-]; repeat split; reflexivity.
Qed.

(** X22. After an accepted reconfiguration the next cycle looks for the
    new friend: the id it searches for is made from the new
    configuration's [friend_nsaid], or from the presence user when the
    new configuration names no friend. If the friends step of that cycle
    does not throw, any friend the monitor holds afterwards has that id.
    If its friends request fails, the cycle throws that error and the
    monitor still holds the friend it held before the
    reconfiguration. *)
Theorem onUpdateConfig_then_update (new : SplatNet3MonitorConfig) (w w1 w2 : World)
    (this this1 this2 : SplatNet3Monitor) (r : Completion unit) :
  onUpdateConfig (Some new) w this = (Return true, w1, this1) ->
  update w1 this1 = (r, w2, this2) ->
  tracked_id this1 =
    JS.base64
      ("Friend-" +:+
       JS.to_string
         match config_friend_nsaid new with
         | Some nsaid => Some nsaid
         | None => presence_user (discord_presence this)
         end) /\
  (friends_settle w1 this1 ->
   forall f, friend this2 = Some f -> friend_id f = tracked_id this1) /\
  (forall e,
     awaits_friends this1 = true ->
     reply_result (next_friends w1) = inl e ->
     r = Throw e /\ friend this2 = friend this).
Proof.
  intros Hconfig Hupdate.
  destruct (onUpdateConfig_cases (Some new) w this) as [[_ Heq] | [_ Heq]];
    rewrite Heq in Hconfig; [| discriminate].
  injection Hconfig as <- <-.
  split; [reflexivity |]. split.
  - intros Hsettle f Hfriend.
    exact (update_tracked _ _ _ _ _ _ Hsettle Hupdate Hfriend).
  - intros e Hawaits Hreply. revert Hupdate Hawaits Hreply.
    unfold awaits_friends, next_friends.
    cbv [update bind read getFriendsRefetch await_reply].
    cbn [cached_friends splatnet set_loop_skip_interval set_config].
    destruct (cached_friends this); [discriminate |].
    destruct (splatnet this); [| discriminate].
    intros Hupdate _ Hreply. rewrite Hreply in Hupdate.
    injection Hupdate as <- _ <-. split; reflexivity.
Qed.

(** X23. The test that [onUpdateConfig] applies is an equivalence
    relation on configurations: the stored configuration is always
    accepted again (with a skip of the interval as its only effect), a
    configuration is accepted over another exactly when the other would
    be accepted over it, and acceptance is transitive. *)
Theorem onUpdateConfig_equivalence (w : World) (this : SplatNet3Monitor) :
  onUpdateConfig (config this) w this = (Return true, w, set_loop_skip_interval true this) /\
  (forall a b,
     (onUpdateConfig a w (set_config b this)).1.1 = Return true ->
     (onUpdateConfig b w (set_config a this)).1.1 = Return true) /\
  (forall a b c,
     (onUpdateConfig a w (set_config b this)).1.1 = Return true ->
     (onUpdateConfig b w (set_config c this)).1.1 = Return true ->
     (onUpdateConfig a w (set_config c this)).1.1 = Return true).
Proof.
  assert (forall a b,
            (onUpdateConfig a w (set_config b this)).1.1 = Return true <->
            config_equivalent a b) as Hiff.
  { intros a b.
    destruct (onUpdateConfig_cases a w (set_config b this)) as [[Heq ->] | [Hne ->]];
      cbn in *; split; try tauto; discriminate. }
  split; [| split].
  - destruct (onUpdateConfig_cases (config this) w this) as [[_ ->] | [Hne _]];
      [reflexivity |].
    destruct Hne. destruct (config this); cbn; auto.
  - intros a b. rewrite !Hiff. destruct a, b; cbn; try tauto.
    intros (? & ? & ? & ?). repeat split; congruence.
  - intros a b c. rewrite !Hiff. destruct a, b, c; cbn; try tauto.
    intros (? & ? & ? & ?) (? & ? & ? & ?). repeat split; congruence.
Qed.

(** X24. A monitor configured from the command line tracks the presence
    user, and a configuration made from new command line arguments is
    accepted in place exactly when the monitor flag is the same and,
    with the flag on, the storage, the session token, the proxy address
    and the auto-update flag are the same. *)
Theorem onUpdateConfig_argv (argv argv' : ArgumentsCamelCase) (st st' : positive)
    (token token' : string) (w : World) (this : SplatNet3Monitor) :
  config this = getConfigFromArgv argv st token ->
  friend_nsaid this = presence_user (discord_presence this) /\
  ((onUpdateConfig (getConfigFromArgv argv' st' token') w this).1.1 = Return true <->
   splatnet3Monitor argv' = splatnet3Monitor argv /\
   (splatnet3Monitor argv = true ->
    st' = st /\ token' = token /\ zncProxyUrl argv' = zncProxyUrl argv /\
    splatnet3AutoUpdateSession argv' = splatnet3AutoUpdateSession argv)).
Proof.
  intros Hconfig. split.
  - unfold friend_nsaid. rewrite Hconfig. unfold getConfigFromArgv.
    now destruct (splatnet3Monitor argv).
  - assert ((onUpdateConfig (getConfigFromArgv argv' st' token') w this).1.1 = Return true <->
            config_equivalent (getConfigFromArgv argv' st' token') (config this)) as ->.
    { destruct (onUpdateConfig_cases (getConfigFromArgv argv' st' token') w this)
        as [[Heq ->] | [Hne ->]]; cbn; split; try tauto; discriminate. }
    rewrite Hconfig. unfold getConfigFromArgv.
    destruct (splatnet3Monitor argv), (splatnet3Monitor argv'); cbn;
      intuition congruence.
Qed.

(** X25. A monitor configured from the application's configuration
    tracks the presence user and always allows fetching a token; a
    configuration made from command line arguments is accepted in place
    over it exactly when the monitor flag agrees with the application's
    and, with monitoring on, the storage and the session token are the
    same, the proxy address is that of the environment, and auto-update
    is on. *)
Theorem onUpdateConfig_app_config (env : option string)
    (app : DiscordPresenceExternalMonitorsConfiguration) (argv : ArgumentsCamelCase)
    (st st' : positive) (token token' : string) (w : World) (this : SplatNet3Monitor) :
  config this = getConfigFromAppConfig env app st token ->
  friend_nsaid this = presence_user (discord_presence this) /\
  (allow_fetch_token <$> config this) = (if enable_splatnet3_monitoring app then Some true else None) /\
  ((onUpdateConfig (getConfigFromArgv argv st' token') w this).1.1 = Return true <->
   splatnet3Monitor argv = enable_splatnet3_monitoring app /\
   (enable_splatnet3_monitoring app = true ->
    st' = st /\ token' = token /\ zncProxyUrl argv = env /\
    splatnet3AutoUpdateSession argv = true)).
Proof.
  intros Hconfig. split; [| split].
  - unfold friend_nsaid. rewrite Hconfig. unfold getConfigFromAppConfig.
    now destruct (enable_splatnet3_monitoring app).
  - rewrite Hconfig. unfold getConfigFromAppConfig.
    now destruct (enable_splatnet3_monitoring app).
  - assert ((onUpdateConfig (getConfigFromArgv argv st' token') w this).1.1 = Return true <->
            config_equivalent (getConfigFromArgv argv st' token') (config this)) as ->.
    { destruct (onUpdateConfig_cases (getConfigFromArgv argv st' token') w this)
        as [[Heq ->] | [Hne ->]]; cbn; split; try tauto; discriminate. }
    rewrite Hconfig. unfold getConfigFromArgv, getConfigFromAppConfig.
    destruct (enable_splatnet3_monitoring app), (splatnet3Monitor argv); cbn;
      intuition congruence.
Qed.

End ConfigMore.

(** ** The id of the tracked friend *)

Section TrackedId.

Lemma base64_index_digit (n : N) : (n < 64)%N -> base64_index (JS.base64_digit n) = n.
Proof.
  intros Hn.
  assert (exists m : nat, n = N.of_nat m /\ (m < 64)%nat) as (m & -> & Hm).
  { exists (N.to_nat n). lia. }
  clear Hn. do 64 (destruct m as [| m]; [vm_compute; reflexivity |]). lia.
Qed.

Lemma base64_index_pad : base64_index "=" = 64%N.
Proof. reflexivity. Qed.

Lemma list_ind3 {A} (P : list A -> Prop) :
  P [] -> (forall a, P [a]) -> (forall a b, P [a; b]) ->
  (forall a b c l, P l -> P (a :: b :: c :: l)) ->
  forall l, P l.
Proof.
  intros H0 H1 H2 H3. fix IH 1.
  intros [| a [| b [| c l]]]; [exact H0 | apply H1 | apply H2 | apply H3, IH].
Qed.

Ltac divmod x k :=
  let q := fresh "q" in
  let r := fresh "r" in
  pose proof (N.div_mod x k ltac:(lia));
  pose proof (N.mod_lt x k ltac:(lia));
  set (q := (x / k)%N) in *; set (r := (x mod k)%N) in *; clearbody q r.

Ltac elim_divmod :=
  repeat match goal with
         | |- context [(?x / ?k)%N] => divmod x k
         | |- context [(?x mod ?k)%N] => divmod x k
         | H : context [(?x / ?k)%N] |- _ => divmod x k
         | H : context [(?x mod ?k)%N] |- _ => divmod x k
         end.

Ltac digit_values :=
  repeat match goal with
         | H : JS.base64_digit _ = JS.base64_digit _ |- _ =>
             apply (f_equal base64_index) in H;
             rewrite !base64_index_digit in H by (elim_divmod; lia)
         | H : "="%char = JS.base64_digit _ |- _ =>
             apply (f_equal base64_index) in H; rewrite base64_index_pad in H;
             rewrite !base64_index_digit in H by (elim_divmod; lia)
         | H : JS.base64_digit _ = "="%char |- _ =>
             apply (f_equal base64_index) in H; rewrite base64_index_pad in H;
             rewrite !base64_index_digit in H by (elim_divmod; lia)
         end.

Lemma base64_bytes_inj (l1 : list N) :
  forall l2,
    List.Forall (fun x => (x < 256)%N) l1 ->
    List.Forall (fun x => (x < 256)%N) l2 ->
    JS.base64_bytes l1 = JS.base64_bytes l2 ->
    l1 = l2.
Proof.
  induction l1 as [| a | a b | a b c l1 IH] using list_ind3;
    intros [| a' [| b' [| c' l2]]] H1 H2; cbn [JS.base64_bytes];
    intros Heq; try discriminate Heq; try reflexivity.
  all: repeat match goal with
              | H : List.Forall _ (_ :: _) |- _ => inversion H; subst; clear H
              end.
  all: injection Heq; intros; digit_values.
  all: try (exfalso; elim_divmod; lia).
  - f_equal. elim_divmod. lia.
  - assert (a = a' /\ b = b') as [-> ->] by (elim_divmod; lia). reflexivity.
  - assert (a = a' /\ b = b' /\ c = c') as (-> & -> & ->) by (elim_divmod; lia).
    do 3 f_equal. now apply IH.
Qed.

Lemma base64_inj (a b : string) : JS.base64 a = JS.base64 b -> a = b.
Proof.
  unfold JS.base64. intros Heq.
  apply base64_bytes_inj in Heq.
  - rewrite <- (string_of_list_ascii_of_string a), <- (string_of_list_ascii_of_string b).
    f_equal.
    revert Heq. generalize (list_ascii_of_string a) (list_ascii_of_string b).
    induction l as [| x l IH]; intros [| y l']; cbn; try discriminate; [reflexivity |].
    intros [= Hxy Hrest]. f_equal; [| now apply IH].
    now rewrite <- (ascii_N_embedding x), <- (ascii_N_embedding y), Hxy.
  - apply List.Forall_forall. intros x Hin. apply in_map_iff in Hin as (c & <- & _).
    apply N_ascii_bounded.
  - apply List.Forall_forall. intros x Hin. apply in_map_iff in Hin as (c & <- & _).
    apply N_ascii_bounded.
Qed.

(** X26. The id the cycle looks for tells friends apart as far as the
    text ['Friend-' + friend_nsaid] does: two monitors look for the same
    node of the friends list exactly when the string conversions of
    their [friend_nsaid] hold the same UTF-8 bytes. So two ids that are
    set and differ in their bytes never collide, while a monitor with no
    id at all ([friend_nsaid] and the presence user both [null]) looks
    for the same node as one told to track the id ["null"]. *)
Theorem tracked_id_distinguishes (this1 this2 : SplatNet3Monitor) :
  (tracked_id this1 = tracked_id this2 <->
   JS.to_string (friend_nsaid this1) = JS.to_string (friend_nsaid this2)) /\
  (forall a b,
     friend_nsaid this1 = Some a ->
     friend_nsaid this2 = Some b ->
     a <> b ->
     tracked_id this1 <> tracked_id this2) /\
  (friend_nsaid this1 = None ->
   friend_nsaid this2 = Some "null" ->
   tracked_id this1 = tracked_id this2).
Proof.
  assert (tracked_id this1 = tracked_id this2 <->
          JS.to_string (friend_nsaid this1) = JS.to_string (friend_nsaid this2)) as Hiff.
  { unfold tracked_id. split; [| now intros ->].
    intros Heq. apply base64_inj in Heq. cbn in Heq. now injection Heq. }
  split; [exact Hiff |]. split.
  - intros a b Ha Hb Hne Heq. apply Hiff in Heq. rewrite Ha, Hb in Heq.
    now apply Hne.
  - intros Ha Hb. apply Hiff. now rewrite Ha, Hb.
Qed.

End TrackedId.

(** ** More on error handling *)

Section HandleErrorMore.

(** X27. Whatever the owner's verdict, [handleError] returns (it never
    throws), issues no request to SplatNet 3 and leaves the
    configuration, the client and both caches as they were. It returns
    the skip-interval result exactly on Retry, refreshes the presence
    exactly once on any other verdict, and the loop is disabled
    afterwards exactly when it was before or the verdict is Stop. *)
Theorem handleError_frame (err : Error) (w w' : World) (this this' : SplatNet3Monitor)
    (r : Completion LoopResult) :
  handleError err w this = (r, w', this') ->
  r = Return (match presence_handleError (discord_presence this) err with
              | RETRY => OK_SKIP_INTERVAL
              | _ => OK
              end) /\
  clock w' = clock w /\
  issued GetFriendsRefetch w' = issued GetFriendsRefetch w /\
  issued GetSchedules w' = issued GetSchedules w /\
  issued RefreshPresence w' =
    (issued RefreshPresence w +
     match presence_handleError (discord_presence this) err with
     | RETRY => 0
     | _ => 1
     end)%nat /\
  config this' = config this /\
  splatnet this' = splatnet this /\
  cached_friends this' = cached_friends this /\
  cached_schedules this' = cached_schedules this /\
  (loop_disabled this' = true <->
   loop_disabled this = true \/ presence_handleError (discord_presence this) err = STOP).
Proof.
  cbv [handleError bind ret read assign refreshPresence disable].
  destruct (presence_handleError (discord_presence this) err);
    intros [= <- <- <-]; unfold issued; cbn;
    repeat (split; [first [reflexivity | lia] |]); split;
    intuition (auto; discriminate).
Qed.

End HandleErrorMore.

(** ** The further properties at concrete inputs *)

Section EvaluationMore.
Import Sample Cases.

(** X1, at 06:00:00 on the slots 04:00 to 06:00 and 06:00 to 08:00. *)
Lemma getSchedule_contiguous_witness :
  exists schedule,
    getSchedule at_06_00 [regular_04_06; regular_06_08] = Some schedule /\
    In schedule [regular_04_06; regular_06_08] /\ active at_06_00 schedule.
Proof.
  apply (getSchedule_contiguous at_06_00 1663732800000 at_08_00).
  - cbn [contiguous]. split; [eexists _, _; split; reflexivity |].
    split; [reflexivity |]. split; [eexists _, _; split; reflexivity | exact I].
  - reflexivity.
  - reflexivity.
  - unfold at_06_00, at_08_00. lia.
Defined.

(** X2, at 06:00:10, dropping the slot that ended at 06:00:00. *)
Lemma getSchedule_filter_witness :
  getSchedule at_06_00_10
    (List.filter (not_ended at_06_00_10) [regular_04_06; regular_06_08]) =
  getSchedule at_06_00_10 [regular_04_06; regular_06_08].
Proof.
  apply getSchedule_filter.
  intros schedule [<- | [<- | []]] Hactive; [| reflexivity].
  exfalso. destruct Hactive as [_ Hend]. specialize (Hend _ eq_refl).
  vm_compute in Hend. now apply Hend.
Defined.

(** X3, on an entry that starts "soon". *)
Lemma getSchedule_unparsed_start_witness :
  getSchedule at_05_30 [regular_soon; regular_04_06] = Some regular_soon.
Proof.
  apply getSchedule_unparsed_start; [reflexivity |].
  intros e [= <-]. vm_compute. discriminate.
Defined.

(** X4, on the cycle of the stale monitor at 09:00:00. *)
Lemma update_requests_witness :
  issued GetFriendsRefetch (update world_09_00 stale_monitor).1.2 = 1%nat /\
  issued RefreshPresence (update world_09_00 stale_monitor).1.2 = 1%nat.
Proof.
  assert (update world_09_00 stale_monitor =
          (Return tt, (update world_09_00 stale_monitor).1.2,
           (update world_09_00 stale_monitor).2)) as Hrun
    by (vm_compute; reflexivity).
  exact (update_requests _ _ _ _ _ Hrun).
Defined.

(** X5, on the same cycle. *)
Lemma update_frame_witness :
  config (update world_09_00 stale_monitor).2 = config stale_monitor /\
  discord_presence (update world_09_00 stale_monitor).2 = discord_presence stale_monitor /\
  splatnet (update world_09_00 stale_monitor).2 = splatnet stale_monitor /\
  data (update world_09_00 stale_monitor).2 = data stale_monitor /\
  loop_disabled (update world_09_00 stale_monitor).2 = loop_disabled stale_monitor /\
  loop_skip_interval (update world_09_00 stale_monitor).2 = loop_skip_interval stale_monitor.
Proof.
  assert (update world_09_00 stale_monitor =
          (Return tt, (update world_09_00 stale_monitor).1.2,
           (update world_09_00 stale_monitor).2)) as Hrun
    by (vm_compute; reflexivity).
  exact (update_frame _ _ _ _ _ Hrun).
Defined.

(** X6, on a cycle that finds the friend among the fetched friends. *)
Lemma update_friend_witness :
  cached_friends open_monitor = None /\
  friend open_monitor = Some fighting_open /\
  friend_id fighting_open = tracked_id (monitor (Some schedules_early) None).
Proof.
  assert (update (world at_05_30 fighting_open schedules_late)
            (monitor (Some schedules_early) None) =
          (Return tt, (cycle at_05_30 fighting_open (Some schedules_early)).1.2,
           open_monitor)) as Hrun
    by (vm_compute; reflexivity).
  assert (friends_settle (world at_05_30 fighting_open schedules_late)
            (monitor (Some schedules_early) None)) as Hsettle
    by (intros _; eexists; reflexivity).
  destruct (update_friend _ _ _ _ _ Hsettle Hrun) as (Hcache & Hfound & _).
  split; [exact Hcache |]. split; [reflexivity |].
  now apply (Hfound fighting_open).
Defined.

(** X7, at 05:30:00 with SplatNet 3 out of reach. *)
Lemma update_friends_failure_witness :
  exists w',
    update (world_down at_05_30) stale_monitor = (Throw fetch_error, w', stale_monitor) /\
    calls w' = GetFriendsRefetch :: calls (world_down at_05_30).
Proof. apply update_friends_failure; reflexivity. Defined.

(** X8, at 09:00:00 on a monitor that selected the 04:00 to 06:00
    anarchy entry at 05:30:00: the failed request leaves that selection
    in place. *)
Lemma update_schedules_failure_witness :
  exists w' this',
    update (world_schedules_down at_09_00 fighting_open) open_monitor =
      (Throw fetch_error, w', this') /\
    regular_schedule this' = None /\
    anarchy_schedule this' = Some bankara_04_06.
Proof.
  destruct (update_schedules_failure (world_schedules_down at_09_00 fighting_open)
              open_monitor fetch_error)
    as (w' & this' & Hrun & Hregular & Hanarchy & _).
  - eexists. reflexivity.
  - intros _. eexists. reflexivity.
  - vm_compute. reflexivity.
  - reflexivity.
  - exists w', this'. split; [exact Hrun |]. split; [exact Hregular |].
    rewrite Hanarchy. reflexivity.
Defined.

(** X9, at 09:00:00 on a monitor without a client whose cached schedules
    have all ended. *)
Lemma update_without_client_witness :
  (update (world_down at_09_00) clientless_monitor).1.1 =
    Throw (TypeError "Cannot read properties of null (reading 'getSchedules')") /\
  readings (update (world_down at_09_00) clientless_monitor).1.2 = [at_09_00] /\
  issued GetFriendsRefetch (update (world_down at_09_00) clientless_monitor).1.2 = 0%nat /\
  issued GetSchedules (update (world_down at_09_00) clientless_monitor).1.2 = 0%nat.
Proof.
  assert (splatnet clientless_monitor = None) as Hnone by reflexivity.
  assert (update (world_down at_09_00) clientless_monitor =
          ((update (world_down at_09_00) clientless_monitor).1.1,
           (update (world_down at_09_00) clientless_monitor).1.2,
           (update (world_down at_09_00) clientless_monitor).2)) as Hrun
    by (vm_compute; reflexivity).
  destruct (update_without_client _ _ _ _ _ Hnone Hrun)
    as (Hfriends & Hschedules & _ & Hthrow & Hread).
  split; [exact Hthrow |]. split; [exact Hread |].
  split; [exact Hfriends | exact Hschedules].
Defined.

(** X10, at 05:30:00 with the 04:00 to 06:00 regular entry active. *)
Lemma update_regular_selected_witness :
  exists w' this' t,
    update (world at_05_30 fighting_open schedules_late)
      (monitor (Some schedules_early) None) = (Return tt, w', this') /\
    issued GetSchedules w' = 0%nat /\
    cached_schedules this' = Some schedules_early /\
    regular_schedule this' = Some regular_04_06 /\
    readings w' = logged t /\
    regular_at t = at_05_30 + 250.
Proof.
  destruct (update_regular_selected (world at_05_30 fighting_open schedules_late)
              (monitor (Some schedules_early) None) regular_04_06)
    as (w' & this' & t & Hrun & Hissued & Hcache & Hregular & Hread & Hfirst & _).
  - intros _. eexists. reflexivity.
  - vm_compute. reflexivity.
  - exists w', this', t. rewrite app_nil_r in Hread. repeat split; assumption.
Defined.

(** X11, on two cycles in a row at 05:30:00. *)
Lemma update_twice_witness :
  issued GetFriendsRefetch
    (update (cycle at_05_30 fighting_open (Some schedules_early)).1.2 open_monitor).1.2 =
  S (issued GetFriendsRefetch (cycle at_05_30 fighting_open (Some schedules_early)).1.2).
Proof.
  apply (update_twice (world at_05_30 fighting_open schedules_late) _ _
           (monitor (Some schedules_early) None) open_monitor
           (update (cycle at_05_30 fighting_open (Some schedules_early)).1.2 open_monitor).2
           (Return tt)).
  - eexists. reflexivity.
  - vm_compute. reflexivity.
  - vm_compute. reflexivity.
Defined.

(** X14, on a selected regular entry whose setting lists one stage. *)
Lemma callback_throws_witness :
  exists e after,
    callback blank splatoon3 (context_with one_stage_monitor) = Threw e after /\
    is_Some (details after) /\
    largeImageKey after = largeImageKey blank.
Proof.
  pose proof (callback_throws one_stage_monitor [IsSplatNet3Monitor one_stage_monitor]
                (friend_in VS_MODE_FIGHTING (Some regular_battle)) blank splatoon3
                eq_refl eq_refl) as Hthrows.
  unfold context_with.
  destruct (callback blank splatoon3 _) as [after | e after] eqn:Hrun.
  - vm_compute in Hrun. discriminate Hrun.
  - exists e, after. split; [reflexivity |].
    destruct Hthrows as (Hdetails & Hkey & _). split; assumption.
Defined.

(** X15, on a friend in a Salmon Run shift at Spawning Grounds. *)
Lemma callback_coop_witness :
  largeImageKey (activity_of (callback blank splatoon3 (context_with coop_monitor))) =
  Some "https://splatoon3.ink/assets/splatnet/v1/stage_img/icon/high_resolution/be584c7c_0.png".
Proof.
  destruct (callback_coop coop_monitor [IsSplatNet3Monitor coop_monitor]
              (friend_in COOP_MODE_FIGHTING None) coop_shift
              "/resources/prod/v1/stage_img/icon/high_resolution/be584c7c_0.png"
              blank splatoon3)
    as (after & Hrun & _ & _ & _ & Himage & _).
  - reflexivity.
  - reflexivity.
  - reflexivity.
  - reflexivity.
  - reflexivity.
  - unfold context_with. rewrite Hrun.
    apply (Himage "v1/stage_img/icon/high_resolution/be584c7c_0.png");
      [reflexivity | discriminate | reflexivity].
Defined.

(** X16, on a friend fighting an Anarchy Battle (Open) at Wahoo World
    and Mahi-Mahi Resort. *)
Lemma callback_vs_images_witness :
  largeImageKey (activity_of (callback blank splatoon3 (context_with open_monitor))) =
  Some "https://fancy.org.uk/api/nxapi/s3/image?a=VnNTdGFnZS0xNg%3D%3D&b=VnNTdGFnZS0xMg%3D%3D&v=2022092104" /\
  largeImageText (activity_of (callback blank splatoon3 (context_with open_monitor))) =
  Some "Wahoo World/Mahi-Mahi Resort | nxapi".
Proof.
  destruct (callback_vs_images open_monitor [IsSplatNet3Monitor open_monitor]
              fighting_open anarchy_open
              {| vsStages := [wahoo_world; mahi_mahi];
                 vsRule := {| vsRule_name := "Tower Control" |} |}
              wahoo_world mahi_mahi [] blank splatoon3)
    as (after & Hrun & Hkey & _ & _ & Htext & _).
  - reflexivity.
  - reflexivity.
  - reflexivity.
  - reflexivity.
  - reflexivity.
  - reflexivity.
  - unfold context_with. rewrite Hrun. split; [exact Hkey | exact Htext].
Defined.

(** X17, on a friend waiting for a private battle. *)
Lemma callback_unnamed_mode_witness :
  details (activity_of (callback blank splatoon3 (context_with private_monitor))) =
    Some "Private Battle (matching)" /\
  smallImageKey (activity_of (callback blank splatoon3 (context_with private_monitor))) = None.
Proof.
  destruct (callback_unnamed_mode private_monitor [IsSplatNet3Monitor private_monitor]
              (friend_in VS_MODE_MATCHING (Some private_battle)) private_battle
              blank splatoon3)
    as (after & Hrun & Hdetails & Hsmall & _).
  - reflexivity.
  - reflexivity.
  - reflexivity.
  - reflexivity.
  - intros [H | [H | [H | [H | [H | []]]]]]; discriminate H.
  - intros [H | [H | []]]; discriminate H.
  - unfold context_with. rewrite Hrun. split; [exact Hdetails | exact Hsmall].
Defined.

(** X18, on a start-up in which every request succeeds. *)
Lemma init_enabled_witness :
  exists s' w' this',
    init 0 (startup 0 fetch_error) (world at_05_30 fighting_open schedules_early)
      fresh_monitor = Some (Return tt, s', w', this') /\
    is_Some (splatnet this') /\
    is_Some (cached_friends this') /\
    is_Some (cached_schedules this') /\
    issued GetFriendsRefetch (update w' this').1.2 = issued GetFriendsRefetch w'.
Proof.
  destruct (init 0 (startup 0 fetch_error) (world at_05_30 fighting_open schedules_early)
              fresh_monitor) as [[[[r s'] w'] this'] |] eqn:Hinit;
    [| vm_compute in Hinit; discriminate Hinit].
  assert (r = Return tt /\ loop_disabled this' = false) as [-> Henabled].
  { vm_compute in Hinit. injection Hinit as <- _ _ <-. split; reflexivity. }
  destruct (init_enabled _ _ _ _ _ _ _ Hinit Henabled)
    as (_ & Hclient & Hfriends & Hschedules & Hfirst).
  exists s', w', this'. split; [reflexivity |].
  repeat (split; [assumption |]).
  apply (Hfirst (update w' this').1.1 _ (update w' this').2).
  now destruct (update w' this') as [[? ?] ?].
Defined.

(** X19, on a start-up whose first two token requests fail with an
    error the owner retries on: one nested call does not suffice, two
    do, and three token requests are issued. *)
Lemma init_retries_witness :
  init 1 (startup 2 fetch_error) (world at_05_30 fighting_open schedules_early)
    fresh_monitor = None /\
  exists r s' w' this',
    init 2 (startup 2 fetch_error) (world at_05_30 fighting_open schedules_early)
      fresh_monitor = Some (r, s', w', this') /\
    started GetBulletToken s' = 3%nat.
Proof.
  assert (forall i, (i < 2)%nat ->
            exists e,
              reply_result
                (token_replies (startup 2 fetch_error) (storage configuration)
                   (na_session_token configuration) (znc_proxy_url configuration)
                   (allow_fetch_token configuration)
                   (started GetBulletToken (startup 2 fetch_error) + i)) = inl e /\
              presence_handleError (discord_presence fresh_monitor) e = RETRY) as Hretry.
  { intros i Hi. exists fetch_error.
    destruct i as [| [| i]]; [split; reflexivity | split; reflexivity | lia]. }
  assert (forall e,
            reply_result
              (token_replies (startup 2 fetch_error) (storage configuration)
                 (na_session_token configuration) (znc_proxy_url configuration)
                 (allow_fetch_token configuration)
                 (started GetBulletToken (startup 2 fetch_error) + 2)) = inl e ->
            presence_handleError (discord_presence fresh_monitor) e <> RETRY) as Hlast.
  { intros e [=]. }
  split.
  - exact (init_retries 2 1 configuration (startup 2 fetch_error)
             (world at_05_30 fighting_open schedules_early) fresh_monitor
             eq_refl Hretry Hlast).
  - exact (init_retries 2 2 configuration (startup 2 fetch_error)
             (world at_05_30 fighting_open schedules_early) fresh_monitor
             eq_refl Hretry Hlast).
Defined.

(** X20, on an owner that ignores the failure of the token request. *)
Lemma init_ignored_failure_witness :
  exists s' w',
    init 0 (startup 1 http_error) (world at_05_30 fighting_open schedules_early)
      lenient_monitor =
      Some (Throw (TypeError "Cannot read properties of null (reading 'getHistoryRecords')"),
            s', w', lenient_monitor) /\
    startup_calls s' = GetBulletToken :: startup_calls (startup 1 http_error) /\
    calls w' = calls (world at_05_30 fighting_open schedules_early).
Proof.
  apply (init_ignored_failure 0 configuration _ _ _ http_error); reflexivity.
Defined.

(** X21, on a monitor told to track another friend while its friend is
    fighting an Anarchy Battle (Open). *)
Lemma onUpdateConfig_keeps_enrichment_witness :
  friend retargeted_monitor = Some fighting_open /\
  callback blank splatoon3 (context_with retargeted_monitor) =
  callback blank splatoon3 (context_with open_monitor).
Proof.
  destruct (onUpdateConfig_keeps_enrichment
              (Some (configuration_for (Some other_nsaid)))
              (world_two_friends at_05_30) (world_two_friends at_05_30)
              open_monitor retargeted_monitor (Return true) [] blank splatoon3)
    as (_ & Hfriend & _ & _ & Hsame).
  - vm_compute. reflexivity.
  - split; [rewrite Hfriend; reflexivity | exact Hsame].
Defined.

(** X22, on the cycle that follows: it finds the second friend; and
    where the friends request fails, the monitor keeps the first. *)
Lemma onUpdateConfig_then_update_witness :
  tracked_id retargeted_monitor = JS.base64 ("Friend-" +:+ other_nsaid) /\
  friend (update (world_two_friends at_05_30) retargeted_monitor).2 = Some other_friend /\
  friend_id other_friend = tracked_id retargeted_monitor /\
  (update (world_down at_05_30) retargeted_monitor).1.1 = Throw fetch_error /\
  friend (update (world_down at_05_30) retargeted_monitor).2 = Some fighting_open.
Proof.
  assert (friend (update (world_two_friends at_05_30) retargeted_monitor).2 =
          Some other_friend) as Hfound by (vm_compute; reflexivity).
  destruct (onUpdateConfig_then_update (configuration_for (Some other_nsaid))
              (world_two_friends at_05_30) (world_two_friends at_05_30)
              (update (world_two_friends at_05_30) retargeted_monitor).1.2
              open_monitor retargeted_monitor
              (update (world_two_friends at_05_30) retargeted_monitor).2
              (update (world_two_friends at_05_30) retargeted_monitor).1.1)
    as (Hid & Hsettled & _).
  { vm_compute. reflexivity. }
  { now destruct (update (world_two_friends at_05_30) retargeted_monitor) as [[? ?] ?]. }
  destruct (onUpdateConfig_then_update (configuration_for (Some other_nsaid))
              (world_down at_05_30) (world_down at_05_30)
              (update (world_down at_05_30) retargeted_monitor).1.2
              open_monitor retargeted_monitor
              (update (world_down at_05_30) retargeted_monitor).2
              (update (world_down at_05_30) retargeted_monitor).1.1)
    as (_ & _ & Hfailed).
  { vm_compute. reflexivity. }
  { now destruct (update (world_down at_05_30) retargeted_monitor) as [[? ?] ?]. }
  destruct (Hfailed fetch_error eq_refl eq_refl) as (Hthrow & Hkept).
  split; [exact Hid |]. split; [exact Hfound |].
  split; [apply Hsettled; [intros _; eexists; reflexivity | exact Hfound] |].
  split; [exact Hthrow | exact Hkept].
Defined.

(** X24, on a monitor started with [--splatnet3-monitor]: arguments that
    add a proxy address are not accepted in place. *)
Lemma onUpdateConfig_argv_witness :
  friend_nsaid stale_monitor = presence_user (discord_presence stale_monitor) /\
  (onUpdateConfig (getConfigFromArgv argv_proxy 1%positive token) world_09_00
     stale_monitor).1.1 = Return false.
Proof.
  destruct (onUpdateConfig_argv argv_on argv_proxy 1%positive 1%positive token token
              world_09_00 stale_monitor eq_refl) as [Htracks _].
  split; [exact Htracks | reflexivity].
Defined.

(** X25, on a monitor started from the application's configuration. *)
Lemma onUpdateConfig_app_config_witness :
  friend_nsaid stale_monitor = presence_user (discord_presence stale_monitor) /\
  allow_fetch_token <$> config stale_monitor = Some true /\
  (onUpdateConfig (getConfigFromArgv argv_on 1%positive token) world_09_00
     stale_monitor).1.1 = Return true.
Proof.
  destruct (onUpdateConfig_app_config None {| enable_splatnet3_monitoring := true |}
              argv_on 1%positive 1%positive token token world_09_00 stale_monitor eq_refl)
    as (Htracks & Hallow & Hiff).
  split; [exact Htracks |]. split; [exact Hallow |].
  apply Hiff. split; [reflexivity |]. intros _. repeat split.
Defined.

(** X26, on the two friends of the sample. *)
Lemma tracked_id_distinguishes_witness :
  tracked_id open_monitor <> tracked_id retargeted_monitor.
Proof.
  destruct (tracked_id_distinguishes open_monitor retargeted_monitor) as (_ & Hdiffer & _).
  apply (Hdiffer nsaid other_nsaid); [reflexivity | reflexivity | discriminate].
Defined.

(** X27, on an error the owner stops on. *)
Lemma handleError_frame_witness :
  (handleError http_error world_09_00 open_monitor).1.1 = Return OK /\
  issued RefreshPresence (handleError http_error world_09_00 open_monitor).1.2 = 1%nat /\
  cached_schedules (handleError http_error world_09_00 open_monitor).2 =
    Some schedules_early /\
  loop_disabled (handleError http_error world_09_00 open_monitor).2 = true.
Proof.
  assert (handleError http_error world_09_00 open_monitor =
          ((handleError http_error world_09_00 open_monitor).1.1,
           (handleError http_error world_09_00 open_monitor).1.2,
           (handleError http_error world_09_00 open_monitor).2)) as Hrun
    by (vm_compute; reflexivity).
  destruct (handleError_frame _ _ _ _ _ _ Hrun)
    as (Hresult & _ & _ & _ & Hrefresh & _ & _ & _ & Hcache & Hdisabled).
  split; [exact Hresult |]. split; [exact Hrefresh |].
  split; [rewrite Hcache; reflexivity |].
  apply Hdisabled. right. reflexivity.
Defined.

End EvaluationMore.
